(** * Brand budget planner: campaign status machine and spend aggregation

    A shallow embedding of [budget_planner/models.py], [choices.py],
    [utils.py], [tasks.py] and [commands/reset_monthly_budgets.py].

    - Currency ([Decimal] columns with two decimal places) is an integer
      number of hundredths, so sums are exact.
    - The relational store is a record of three tables, each a list of rows
      in query order.  Code that touches the store runs in a state-and-error
      monad: a raised exception leaves the store as it was at the raise.
    - [timezone.now()] is the explicit argument [now]. *)

From Stdlib Require Import ZArith List String Ascii Bool Lia PeanoNat.
From Stdlib Require Import Permutation.
From Stdlib Require OrderedTypeEx.
Import ListNotations.

Open Scope string_scope.
Open Scope Z_scope.

(** ** Exceptions and results *)

Inductive exn : Type :=
| KeyError
| TypeError
| AttributeError
| ValueError
| Campaign_DoesNotExist
| Brand_DoesNotExist
| DatabaseError
| ValidationError.

Inductive result (A : Type) : Type :=
| Ok (a : A)
| Raise (e : exn).

Arguments Ok {A} a.
Arguments Raise {A} e.

Definition rbind {A B} (r : result A) (k : A -> result B) : result B :=
  match r with
  | Ok a => k a
  | Raise e => Raise e
  end.

Notation "'let?' x ':=' r 'in' k" := (rbind r (fun x => k))
  (at level 10, x name, r at level 100, k at level 200).

(** ** Clock *)

Inductive Weekday : Type :=
| Monday | Tuesday | Wednesday | Thursday | Friday | Saturday | Sunday.

Record date : Type := mkdate { year : Z; month : Z; day : Z }.

(** A [datetime.datetime]: calendar date, weekday of that date, wall time. *)
Record datetime : Type := mkdatetime {
  dt_date : date;
  dt_weekday : Weekday;
  dt_hour : nat;
  dt_minute : nat
}.

Definition date_eqb (a b : date) : bool :=
  (year a =? year b) && (month a =? month b) && (day a =? day b).

(** [a >= b] on dates: lexicographic on (year, month, day). *)
Definition date_geb (a b : date) : bool :=
  (year b <? year a)
  || ((year a =? year b)
      && ((month b <? month a)
          || ((month a =? month b) && (day b <=? day a)))).

(** [now.replace(day=1).date()] *)
Definition replace_day_1 (d : date) : date := mkdate (year d) (month d) 1.

(** [strftime("%A")] *)
Definition strftime_A (w : Weekday) : string :=
  match w with
  | Monday => "Monday"
  | Tuesday => "Tuesday"
  | Wednesday => "Wednesday"
  | Thursday => "Thursday"
  | Friday => "Friday"
  | Saturday => "Saturday"
  | Sunday => "Sunday"
  end.

Definition lower_ascii (c : ascii) : ascii :=
  let n := nat_of_ascii c in
  if ((65 <=? n) && (n <=? 90))%nat then ascii_of_nat (n + 32) else c.

(** [str.lower()] *)
Fixpoint lower (s : string) : string :=
  match s with
  | EmptyString => EmptyString
  | String c rest => String (lower_ascii c) (lower rest)
  end.

Definition digit (n : nat) : ascii := ascii_of_nat (48 + n).

Definition two_digits (n : nat) : string :=
  String (digit (n / 10)) (String (digit (n mod 10)) EmptyString).

(** [strftime("%H:%M")] *)
Definition strftime_HM (t : datetime) : string :=
  two_digits (dt_hour t) ++ ":" ++ two_digits (dt_minute t).

(** ** JSON values as Python objects

    [dayparting_schedule] is a [JSONField]: whatever JSON document was stored
    comes back as a Python object.  A float behaves like [PyNum] for every
    operation used here. *)

#[warnings="-register-all"]
Inductive pyval : Type :=
| PyNone
| PyBool (b : bool)
| PyNum (z : Z)
| PyStr (s : string)
| PyList (l : list pyval)
| PyDict (d : list (string * pyval)).

Fixpoint dict_lookup (k : string) (d : list (string * pyval)) : option pyval :=
  match d with
  | [] => None
  | (k', v) :: rest => if String.eqb k k' then Some v else dict_lookup k rest
  end.

(** [o.get(k, default)]: only a dict has the method. *)
Definition py_get (o : pyval) (k : string) (default : pyval) : result pyval :=
  match o with
  | PyDict d =>
      Ok (match dict_lookup k d with Some v => v | None => default end)
  | _ => Raise AttributeError
  end.

(** [for x in o]: a list yields its items, a dict its keys, a str its
    characters; anything else is not iterable. *)
Definition py_iter (o : pyval) : result (list pyval) :=
  match o with
  | PyList l => Ok l
  | PyDict d => Ok (map (fun kv => PyStr (fst kv)) d)
  | PyStr s =>
      Ok (map (fun c => PyStr (String c EmptyString)) (list_ascii_of_string s))
  | _ => Raise TypeError
  end.

(** [o[k]] with a str key. *)
Definition py_getitem (o : pyval) (k : string) : result pyval :=
  match o with
  | PyDict d =>
      match dict_lookup k d with
      | Some v => Ok v
      | None => Raise KeyError
      end
  | _ => Raise TypeError
  end.

(** [a <= t] where [t] is a str: defined only when [a] is a str too. *)
Definition py_le_str (a : pyval) (t : string) : result bool :=
  match a with
  | PyStr s => Ok (String.leb s t)
  | _ => Raise TypeError
  end.

(** [t <= b] where [t] is a str. *)
Definition str_le_py (t : string) (b : pyval) : result bool :=
  match b with
  | PyStr s => Ok (String.leb t s)
  | _ => Raise TypeError
  end.

(** ** choices.py *)

Inductive CampaignStatus : Type :=
| ACTIVE
| PAUSED
| BUDGET_EXCEEDED
| DAYPARTING_PAUSED
| INACTIVE.

Definition status_eqb (a b : CampaignStatus) : bool :=
  match a, b with
  | ACTIVE, ACTIVE
  | PAUSED, PAUSED
  | BUDGET_EXCEEDED, BUDGET_EXCEEDED
  | DAYPARTING_PAUSED, DAYPARTING_PAUSED
  | INACTIVE, INACTIVE => true
  | _, _ => false
  end.

(** [s in [..]] *)
Definition status_in (s : CampaignStatus) (l : list CampaignStatus) : bool :=
  existsb (status_eqb s) l.

(** ** models.py: rows *)

Module Brand.
Record t : Type := mk {
  id : nat;
  name : string;
  daily_budget : Z;
  monthly_budget : Z;
  daily_spend : Z;
  monthly_spend : Z;
  is_active : bool;
  created_at : datetime;
  updated_at : datetime
}.

Definition daily_budget_remaining (self : t) : Z :=
  Z.max 0 (daily_budget self - daily_spend self).

Definition monthly_budget_remaining (self : t) : Z :=
  Z.max 0 (monthly_budget self - monthly_spend self).

Definition daily_budget_exceeded (self : t) : bool :=
  daily_spend self >=? daily_budget self.

Definition monthly_budget_exceeded (self : t) : bool :=
  monthly_spend self >=? monthly_budget self.

Definition with_spend (d m : Z) (r : t) : t :=
  mk (id r) (name r) (daily_budget r) (monthly_budget r) d m
     (is_active r) (created_at r) (updated_at r).

Definition with_updated_at (now : datetime) (r : t) : t :=
  mk (id r) (name r) (daily_budget r) (monthly_budget r) (daily_spend r)
     (monthly_spend r) (is_active r) (created_at r) now.

Definition with_monthly_spend (m : Z) (r : t) : t :=
  mk (id r) (name r) (daily_budget r) (monthly_budget r) (daily_spend r) m
     (is_active r) (created_at r) (updated_at r).
End Brand.

Module Campaign.
Record t : Type := mk {
  id : nat;
  brand_id : nat;
  name : string;
  status : CampaignStatus;
  daily_spend : Z;
  monthly_spend : Z;
  dayparting_enabled : bool;
  dayparting_schedule : pyval;
  created_at : datetime;
  updated_at : datetime
}.

Definition with_status (s : CampaignStatus) (r : t) : t :=
  mk (id r) (brand_id r) (name r) s (daily_spend r) (monthly_spend r)
     (dayparting_enabled r) (dayparting_schedule r) (created_at r)
     (updated_at r).

Definition with_updated_at (now : datetime) (r : t) : t :=
  mk (id r) (brand_id r) (name r) (status r) (daily_spend r)
     (monthly_spend r) (dayparting_enabled r) (dayparting_schedule r)
     (created_at r) now.

Definition with_spend (d m : Z) (r : t) : t :=
  mk (id r) (brand_id r) (name r) (status r) d m
     (dayparting_enabled r) (dayparting_schedule r) (created_at r)
     (updated_at r).

Definition with_monthly_spend (m : Z) (r : t) : t :=
  mk (id r) (brand_id r) (name r) (status r) (daily_spend r) m
     (dayparting_enabled r) (dayparting_schedule r) (created_at r)
     (updated_at r).
End Campaign.

Module AdSpend.
(** [pk] is [None] until the row has been inserted. *)
Record t : Type := mk {
  pk : option nat;
  campaign_id : nat;
  amount : Z;
  timestamp : datetime;
  description : string
}.

Definition with_pk_timestamp (k : nat) (now : datetime) (r : t) : t :=
  mk (Some k) (campaign_id r) (amount r) now (description r).
End AdSpend.

(** ** Dayparting evaluator *)

(** The body of [for window in day_schedule].  The chained comparison
    [window["start"] <= current_time <= window["end"]] reads
    [window["end"]] only when the first comparison is true. *)
Fixpoint any_window (current_time : string) (day_schedule : list pyval)
  : result bool :=
  match day_schedule with
  | [] => Ok false
  | window :: rest =>
      let? start := py_getitem window "start" in
      let? lo := py_le_str start current_time in
      if lo then
        let? stop := py_getitem window "end" in
        let? hi := str_le_py current_time stop in
        if hi then Ok true else any_window current_time rest
      else any_window current_time rest
  end.

Definition is_within_dayparting_window (now : datetime) (self : Campaign.t)
  : result bool :=
  if negb (Campaign.dayparting_enabled self) then Ok true
  else
    let current_day := lower (strftime_A (dt_weekday now)) in
    let current_time := strftime_HM now in
    let? day_schedule :=
      py_get (Campaign.dayparting_schedule self) current_day (PyList []) in
    let? windows := py_iter day_schedule in
    any_window current_time windows.

(** ** The store and the monad of store-touching code *)

Record DB : Type := mkDB {
  brands : list Brand.t;
  campaigns : list Campaign.t;
  spends : list AdSpend.t
}.

Definition M (A : Type) : Type := DB -> DB * result A.

Definition ret {A} (a : A) : M A := fun db => (db, Ok a).

Definition raise {A} (e : exn) : M A := fun db => (db, Raise e).

Definition bind {A B} (m : M A) (k : A -> M B) : M B :=
  fun db =>
    match m db with
    | (db', Ok a) => k a db'
    | (db', Raise e) => (db', Raise e)
    end.

(** A computation that only reads the store. *)
Definition lift {A} (f : DB -> result A) : M A := fun db => (db, f db).

Notation "x <- m ;; k" := (bind m (fun x => k))
  (at level 61, m at next level, right associativity).

(** [try: m except Campaign.DoesNotExist: raise e'] *)
Definition except_Campaign_DoesNotExist {A} (m : M A) (e' : exn) : M A :=
  fun db =>
    match m db with
    | (db', Raise Campaign_DoesNotExist) => (db', Raise e')
    | r => r
    end.

(** [for x in l: s = body(s, x)] *)
Fixpoint for_each {A S} (l : list A) (body : S -> A -> M S) (s : S) : M S :=
  match l with
  | [] => ret s
  | x :: rest => s' <- body s x ;; for_each rest body s'
  end.

(** *** Queries *)

(** [Brand.objects.get(id=k)], as the ORM does when [campaign.brand] is
    read. *)
Definition get_brand (k : nat) (db : DB) : result Brand.t :=
  match find (fun b => Nat.eqb (Brand.id b) k) (brands db) with
  | Some b => Ok b
  | None => Raise Brand_DoesNotExist
  end.

(** [Campaign.objects.get(id=k)] *)
Definition get_campaign (k : nat) (db : DB) : result Campaign.t :=
  match find (fun c => Nat.eqb (Campaign.id c) k) (campaigns db) with
  | Some c => Ok c
  | None => Raise Campaign_DoesNotExist
  end.

(** [UPDATE ... SET f WHERE p] *)
Definition update_rows {A} (p : A -> bool) (f : A -> A) (l : list A)
  : list A :=
  map (fun r => if p r then f r else r) l.

(** [campaign.save(update_fields=["status", "updated_at"])]: [updated_at]
    is an [auto_now] column; a save with [update_fields] that matches no row
    raises. *)
Definition Campaign_save_status (now : datetime) (self : Campaign.t)
  : M Campaign.t :=
  fun db =>
    let self' := Campaign.with_updated_at now self in
    let p := fun r => Nat.eqb (Campaign.id r) (Campaign.id self) in
    if existsb p (campaigns db) then
      (mkDB (brands db)
            (update_rows p
               (fun r => Campaign.with_updated_at now
                           (Campaign.with_status (Campaign.status self) r))
               (campaigns db))
            (spends db),
       Ok self')
    else (db, Raise DatabaseError).

(** [campaign.save(update_fields=["daily_spend", "monthly_spend",
    "updated_at"])] *)
Definition Campaign_save_spend (now : datetime) (self : Campaign.t)
  : M Campaign.t :=
  fun db =>
    let self' := Campaign.with_updated_at now self in
    let p := fun r => Nat.eqb (Campaign.id r) (Campaign.id self) in
    if existsb p (campaigns db) then
      (mkDB (brands db)
            (update_rows p
               (fun r => Campaign.with_updated_at now
                           (Campaign.with_spend (Campaign.daily_spend self)
                              (Campaign.monthly_spend self) r))
               (campaigns db))
            (spends db),
       Ok self')
    else (db, Raise DatabaseError).

(** [brand.save(update_fields=["daily_spend", "monthly_spend",
    "updated_at"])] *)
Definition Brand_save_spend (now : datetime) (self : Brand.t) : M Brand.t :=
  fun db =>
    let self' := Brand.with_updated_at now self in
    let p := fun r => Nat.eqb (Brand.id r) (Brand.id self) in
    if existsb p (brands db) then
      (mkDB (update_rows p
               (fun r => Brand.with_updated_at now
                           (Brand.with_spend (Brand.daily_spend self)
                              (Brand.monthly_spend self) r))
               (brands db))
            (campaigns db)
            (spends db),
       Ok self')
    else (db, Raise DatabaseError).

(** ** Campaign status machine (models.py) *)

Definition should_be_active (now : datetime) (self : Campaign.t) (db : DB)
  : result bool :=
  let? brand := get_brand (Campaign.brand_id self) db in
  if negb (Brand.is_active brand) then Ok false
  else if Brand.daily_budget_exceeded brand
          || Brand.monthly_budget_exceeded brand then Ok false
  else
    let? closed :=
      (if Campaign.dayparting_enabled self then
         let? within := is_within_dayparting_window now self in
         Ok (negb within)
       else Ok false) in
    if closed then Ok false
    else Ok (negb (status_in (Campaign.status self) [INACTIVE; PAUSED])).

Definition update_status (now : datetime) (self : Campaign.t)
  : M Campaign.t :=
  brand <- lift (get_brand (Campaign.brand_id self)) ;;
  self' <-
    (if negb (Brand.is_active brand) then
       ret (Campaign.with_status INACTIVE self)
     else if Brand.daily_budget_exceeded brand
             || Brand.monthly_budget_exceeded brand then
       ret (Campaign.with_status BUDGET_EXCEEDED self)
     else
       closed <-
         lift (fun _ =>
                 if Campaign.dayparting_enabled self then
                   let? within := is_within_dayparting_window now self in
                   Ok (negb within)
                 else Ok false) ;;
       if closed then ret (Campaign.with_status DAYPARTING_PAUSED self)
       else if status_in (Campaign.status self)
                 [BUDGET_EXCEEDED; DAYPARTING_PAUSED] then
         ret (Campaign.with_status ACTIVE self)
       else ret self) ;;
  Campaign_save_status now self'.

(** ** Spend aggregation (models.py, class AdSpend) *)

(** [.aggregate(total=Sum("amount"))["total"]]: [None] over no rows. *)
Definition aggregate_Sum (rows : list AdSpend.t) : option Z :=
  match rows with
  | [] => None
  | _ => Some (fold_left (fun acc r => acc + AdSpend.amount r) rows 0)
  end.

(** [total or Decimal("0")]: [None] and a zero total are both falsy. *)
Definition or_zero (total : option Z) : Z :=
  match total with
  | Some z => if z =? 0 then 0 else z
  | None => 0
  end.

(** [filter(campaign=c, timestamp__date=today)] *)
Definition campaign_on (c : Campaign.t) (today : date) (r : AdSpend.t)
  : bool :=
  Nat.eqb (AdSpend.campaign_id r) (Campaign.id c)
  && date_eqb (dt_date (AdSpend.timestamp r)) today.

(** [filter(campaign=c, timestamp__date__gte=current_month)] *)
Definition campaign_since (c : Campaign.t) (current_month : date)
  (r : AdSpend.t) : bool :=
  Nat.eqb (AdSpend.campaign_id r) (Campaign.id c)
  && date_geb (dt_date (AdSpend.timestamp r)) current_month.

(** [campaign__brand=b]: the join through the campaign table. *)
Definition spend_of_brand (db : DB) (b : Brand.t) (r : AdSpend.t) : bool :=
  existsb (fun c => Nat.eqb (Campaign.id c) (AdSpend.campaign_id r)
                    && Nat.eqb (Campaign.brand_id c) (Brand.id b))
          (campaigns db).

Definition brand_on (db : DB) (b : Brand.t) (today : date) (r : AdSpend.t)
  : bool :=
  spend_of_brand db b r && date_eqb (dt_date (AdSpend.timestamp r)) today.

Definition brand_since (db : DB) (b : Brand.t) (current_month : date)
  (r : AdSpend.t) : bool :=
  spend_of_brand db b r
  && date_geb (dt_date (AdSpend.timestamp r)) current_month.

(** [AdSpend.objects.filter(..).aggregate(total=Sum("amount"))["total"]
    or Decimal("0")] *)
Definition total_where (p : DB -> AdSpend.t -> bool) : M Z :=
  lift (fun db => Ok (or_zero (aggregate_Sum (filter (p db) (spends db))))).

Definition update_spend_totals (now : datetime) (self : AdSpend.t) : M unit :=
  let today := dt_date now in
  let current_month := replace_day_1 (dt_date now) in
  campaign <- lift (get_campaign (AdSpend.campaign_id self)) ;;
  daily_total <- total_where (fun _ => campaign_on campaign today) ;;
  monthly_total <-
    total_where (fun _ => campaign_since campaign current_month) ;;
  campaign <-
    Campaign_save_spend now
      (Campaign.with_spend daily_total monthly_total campaign) ;;
  brand <- lift (get_brand (Campaign.brand_id campaign)) ;;
  brand_daily_total <- total_where (fun db => brand_on db brand today) ;;
  brand_monthly_total <-
    total_where (fun db => brand_since db brand current_month) ;;
  _ <- Brand_save_spend now
         (Brand.with_spend brand_daily_total brand_monthly_total brand) ;;
  ret tt.

Definition fresh_pk (rows : list AdSpend.t) : nat :=
  S (fold_right
       (fun r acc =>
          Nat.max (match AdSpend.pk r with Some k => k | None => O end) acc)
       O rows).

Definition pk_is (k : nat) (r : AdSpend.t) : bool :=
  match AdSpend.pk r with
  | Some k' => Nat.eqb k' k
  | None => false
  end.

(** [models.Model.save]: an object without a primary key is inserted, with a
    fresh key and [timestamp] ([auto_now_add]) set to now; one with a key
    overwrites its row, or is inserted when no such row exists.  No validator
    runs here: Django runs field validators in [full_clean], which [save]
    does not call. *)
Definition Model_save (now : datetime) (self : AdSpend.t) : M AdSpend.t :=
  fun db =>
    match AdSpend.pk self with
    | None =>
        let row := AdSpend.with_pk_timestamp (fresh_pk (spends db)) now self in
        (mkDB (brands db) (campaigns db) (spends db ++ [row]), Ok row)
    | Some k =>
        if existsb (pk_is k) (spends db) then
          (mkDB (brands db) (campaigns db)
                (update_rows (pk_is k) (fun _ => self) (spends db)),
           Ok self)
        else
          let row := AdSpend.with_pk_timestamp k now self in
          (mkDB (brands db) (campaigns db) (spends db ++ [row]), Ok row)
    end.

(** [AdSpend.save] *)
Definition AdSpend_save (now : datetime) (self : AdSpend.t) : M AdSpend.t :=
  let is_new :=
    match AdSpend.pk self with None => true | Some _ => false end in
  self' <- Model_save now self ;;
  if is_new then
    _ <- update_spend_totals now self' ;;
    ret self'
  else ret self'.

(** [AdSpend.objects.create(campaign=.., amount=.., description=..)] *)
Definition AdSpend_objects_create (now : datetime) (campaign : Campaign.t)
  (amount : Z) (description : string) : M AdSpend.t :=
  AdSpend_save now
    (AdSpend.mk None (Campaign.id campaign) amount now description).

(** [validators=[MinValueValidator(0)]] on [AdSpend.amount], as run by
    [full_clean] (model forms, the admin). *)
Definition MinValueValidator (limit : Z) (value : Z) : result unit :=
  if value <? limit then Raise ValidationError else Ok tt.

Definition AdSpend_amount_validators : list (Z -> result unit) :=
  [MinValueValidator 0].

Fixpoint run_validators (vs : list (Z -> result unit)) (value : Z)
  : result unit :=
  match vs with
  | [] => Ok tt
  | v :: rest => let? _ := v value in run_validators rest value
  end.

(** ** utils.py *)

(** [amount] is the value of [Decimal(str(amount))] in hundredths.  The
    widths of the decimal columns are not part of the store: what the
    database does with a value of more digits than its column holds is left
    out (see [fits]). *)
Definition record_ad_spend (now : datetime) (campaign_id : nat) (amount : Z)
  (description : string) : M AdSpend.t :=
  except_Campaign_DoesNotExist
    (campaign <- lift (get_campaign campaign_id) ;;
     spend <- AdSpend_objects_create now campaign amount description ;;
     (* campaign.refresh_from_db() *)
     campaign <- lift (get_campaign (Campaign.id campaign)) ;;
     _ <- update_status now campaign ;;
     ret spend)
    ValueError.

(** ** tasks.py *)

Record StatusChanges : Type := mkStatusChanges {
  activated : nat;
  budget_paused : nat;
  dayparting_paused : nat;
  deactivated : nat
}.

(** Status constants looked up as attributes of a class.  [choices.py]
    declares the five members on [CampaignStatus]; the body of
    [class Campaign] in models.py declares fields, a manager, three methods
    and [Meta], and no [STATUS_*] constant. *)
Definition CampaignStatus_members : list (string * CampaignStatus) :=
  [("ACTIVE", ACTIVE); ("PAUSED", PAUSED);
   ("BUDGET_EXCEEDED", BUDGET_EXCEEDED);
   ("DAYPARTING_PAUSED", DAYPARTING_PAUSED); ("INACTIVE", INACTIVE)].

Definition Campaign_status_constants : list (string * CampaignStatus) := [].

(** [cls.name]: a missing attribute raises [AttributeError]. *)
Definition class_attr (members : list (string * CampaignStatus))
  (name : string) : M CampaignStatus :=
  match find (fun kv => String.eqb (fst kv) name) members with
  | Some kv => ret (snd kv)
  | None => raise AttributeError
  end.

(** [Campaign.objects.all()], evaluated when the loop starts. *)
Definition Campaign_objects_all : M (list Campaign.t) :=
  lift (fun db => Ok (campaigns db)).

Definition Brand_objects_all : M (list Brand.t) :=
  lift (fun db => Ok (brands db)).

Definition check_and_update_campaign_statuses (now : datetime)
  : M StatusChanges :=
  campaigns <- Campaign_objects_all ;;
  let status_changes := mkStatusChanges 0 0 0 0 in
  for_each campaigns
    (fun status_changes campaign =>
       let old_status := Campaign.status campaign in
       campaign <- update_status now campaign ;;
       if negb (status_eqb old_status (Campaign.status campaign)) then
         c <- class_attr Campaign_status_constants "STATUS_ACTIVE" ;;
         if status_eqb (Campaign.status campaign) c then
           ret (mkStatusChanges (S (activated status_changes))
                  (budget_paused status_changes)
                  (dayparting_paused status_changes)
                  (deactivated status_changes))
         else
           c <- class_attr Campaign_status_constants
                  "STATUS_BUDGET_EXCEEDED" ;;
           if status_eqb (Campaign.status campaign) c then
             ret (mkStatusChanges (activated status_changes)
                    (S (budget_paused status_changes))
                    (dayparting_paused status_changes)
                    (deactivated status_changes))
           else
             c <- class_attr Campaign_status_constants
                    "STATUS_DAYPARTING_PAUSED" ;;
             if status_eqb (Campaign.status campaign) c then
               ret (mkStatusChanges (activated status_changes)
                      (budget_paused status_changes)
                      (S (dayparting_paused status_changes))
                      (deactivated status_changes))
             else
               c <- class_attr Campaign_status_constants
                      "STATUS_INACTIVE" ;;
               if status_eqb (Campaign.status campaign) c then
                 ret (mkStatusChanges (activated status_changes)
                        (budget_paused status_changes)
                        (dayparting_paused status_changes)
                        (S (deactivated status_changes)))
               else ret status_changes
       else ret status_changes)
    status_changes.

(** The body of [for campaign in campaigns] in [recalculate_spend_totals]. *)
Definition recalculate_campaign (now : datetime) (campaign : Campaign.t)
  : M unit :=
  let today := dt_date now in
  let current_month := replace_day_1 (dt_date now) in
  daily_total <- total_where (fun _ => campaign_on campaign today) ;;
  monthly_total <-
    total_where (fun _ => campaign_since campaign current_month) ;;
  _ <- Campaign_save_spend now
         (Campaign.with_spend daily_total monthly_total campaign) ;;
  ret tt.

(** The body of [for brand in brands] in [recalculate_spend_totals]. *)
Definition recalculate_brand (now : datetime) (brand : Brand.t) : M unit :=
  let today := dt_date now in
  let current_month := replace_day_1 (dt_date now) in
  daily_total <- total_where (fun db => brand_on db brand today) ;;
  monthly_total <-
    total_where (fun db => brand_since db brand current_month) ;;
  _ <- Brand_save_spend now
         (Brand.with_spend daily_total monthly_total brand) ;;
  ret tt.

Definition recalculate_spend_totals (now : datetime) : M string :=
  campaigns <- Campaign_objects_all ;;
  _ <- for_each campaigns (fun _ campaign => recalculate_campaign now campaign)
         tt ;;
  brands <- Brand_objects_all ;;
  _ <- for_each brands (fun _ brand => recalculate_brand now brand) tt ;;
  ret "Spend totals recalculation completed".

(** ** commands/reset_monthly_budgets.py *)

(** The three numbers [handle] writes to stdout. *)
Record ResetReport : Type := mkResetReport {
  brands_updated : nat;
  campaigns_updated : nat;
  reactivated_count : nat
}.

(** [Brand.objects.update(monthly_spend=Decimal("0"))]: the number of rows
    matched. *)
Definition Brand_objects_update_monthly_spend (v : Z) : M nat :=
  fun db =>
    (mkDB (map (Brand.with_monthly_spend v) (brands db)) (campaigns db)
          (spends db),
     Ok (List.length (brands db))).

Definition Campaign_objects_update_monthly_spend (v : Z) : M nat :=
  fun db =>
    (mkDB (brands db) (map (Campaign.with_monthly_spend v) (campaigns db))
          (spends db),
     Ok (List.length (campaigns db))).

Definition handle (now : datetime) (dry_run : bool) : M ResetReport :=
  brands_updated <-
    (if negb dry_run then Brand_objects_update_monthly_spend 0
     else lift (fun db => Ok (List.length (brands db)))) ;;
  campaigns_updated <-
    (if negb dry_run then Campaign_objects_update_monthly_spend 0
     else lift (fun db => Ok (List.length (campaigns db)))) ;;
  campaigns <- Campaign_objects_all ;;
  reactivated_count <-
    for_each campaigns
      (fun reactivated_count campaign =>
         let old_status := Campaign.status campaign in
         campaign <-
           (if negb dry_run then update_status now campaign
            else ret campaign) ;;
         if status_eqb old_status BUDGET_EXCEEDED then
           cond <-
             (if negb dry_run && status_eqb (Campaign.status campaign) ACTIVE
              then ret true
              else if dry_run then lift (should_be_active now campaign)
              else ret false) ;;
           ret (if cond : bool then S reactivated_count
                else reactivated_count)
         else ret reactivated_count)
      O ;;
  ret (mkResetReport brands_updated campaigns_updated reactivated_count).

(** ** managers.py *)

(** [brand__is_active=True]: the join to the campaign's brand row. *)
Definition brand_is_active (db : DB) (c : Campaign.t) : bool :=
  existsb (fun b => Nat.eqb (Brand.id b) (Campaign.brand_id c)
                    && Brand.is_active b)
          (brands db).

(** [CampaignQuerySet.active] *)
Definition CampaignQuerySet_active (db : DB) (qs : list Campaign.t)
  : list Campaign.t :=
  filter (fun c => status_eqb (Campaign.status c) ACTIVE
                   && brand_is_active db c) qs.

(** [AdSpendQuerySet.for_date] *)
Definition for_date (d : date) (qs : list AdSpend.t) : list AdSpend.t :=
  filter (fun r => date_eqb (dt_date (AdSpend.timestamp r)) d) qs.

(** [AdSpendQuerySet.for_month] *)
Definition for_month (month_start : date) (qs : list AdSpend.t)
  : list AdSpend.t :=
  filter (fun r => date_geb (dt_date (AdSpend.timestamp r)) month_start) qs.

(** ** utils.py: queries *)

(** [get_active_campaigns]; [select_related] only changes how the brand is
    fetched. *)
Definition get_active_campaigns : M (list Campaign.t) :=
  lift (fun db =>
          Ok (filter (fun c => status_eqb (Campaign.status c) ACTIVE
                               && brand_is_active db c)
                     (campaigns db))).

(** ** tasks.py: the remaining tasks *)

(** [reset_monthly_budgets]: [call_command("reset_monthly_budgets")] runs
    [handle] without [--dry-run]; the handler re-raises what it catches. *)
Definition reset_monthly_budgets (now : datetime) : M string :=
  _ <- handle now false ;;
  ret "Monthly budget reset completed".

(** A [percent_used] is the float of a quotient, or the int [0]. *)
Inductive percent (float : Type) : Type :=
| PercentFloat (f : float)
| PercentInt (z : Z).

Arguments PercentFloat {float} f.
Arguments PercentInt {float} z.

Module BudgetAlert.
Record t (float : Type) : Type := mk {
  type : string;
  brand : string;
  percent_used : percent float;
  spend : float;
  budget : float
}.
Arguments mk {float}.
Arguments type {float}.
Arguments brand {float}.
Arguments percent_used {float}.
Arguments spend {float}.
Arguments budget {float}.
End BudgetAlert.

(** [spend >= budget * Decimal("0.9")] on amounts in hundredths: the product
    has three decimals and is exact. *)
Definition reaches_nine_tenths (spend budget : Z) : bool :=
  10 * spend >=? 9 * budget.

Section BudgetAlerts.

(** Floating point is left abstract: [to_float d] is [float(d)] of a decimal
    in hundredths and [percent_of s b] is [float(s / b * 100)]. *)
Variable float : Type.
Variable to_float : Z -> float.
Variable percent_of : Z -> Z -> float.

Definition daily_alert (brand : Brand.t) : BudgetAlert.t float :=
  BudgetAlert.mk "daily_budget_warning" (Brand.name brand)
    (if Brand.daily_budget brand >? 0
     then PercentFloat
            (percent_of (Brand.daily_spend brand) (Brand.daily_budget brand))
     else PercentInt 0)
    (to_float (Brand.daily_spend brand))
    (to_float (Brand.daily_budget brand)).

Definition monthly_alert (brand : Brand.t) : BudgetAlert.t float :=
  BudgetAlert.mk "monthly_budget_warning" (Brand.name brand)
    (if Brand.monthly_budget brand >? 0
     then PercentFloat
            (percent_of (Brand.monthly_spend brand)
               (Brand.monthly_budget brand))
     else PercentInt 0)
    (to_float (Brand.monthly_spend brand))
    (to_float (Brand.monthly_budget brand)).

Definition monitor_budget_limits (now : datetime)
  : M (list (BudgetAlert.t float)) :=
  let alerts := [] in
  (* Brand.objects.filter(is_active=True), evaluated by the first loop *)
  brands <- lift (fun db => Ok (filter Brand.is_active (brands db))) ;;
  alerts <-
    for_each brands
      (fun alerts brand =>
         if reaches_nine_tenths (Brand.daily_spend brand)
              (Brand.daily_budget brand)
         then ret (alerts ++ [daily_alert brand])%list
         else ret alerts)
      alerts ;;
  alerts <-
    for_each brands
      (fun alerts brand =>
         if reaches_nine_tenths (Brand.monthly_spend brand)
              (Brand.monthly_budget brand)
         then ret (alerts ++ [monthly_alert brand])%list
         else ret alerts)
      alerts ;;
  ret alerts.

End BudgetAlerts.

(** ** Vocabulary of the properties *)

(** The campaign has a row in the campaign table. *)
Definition stored (self : Campaign.t) (db : DB) : Prop :=
  exists r, In r (campaigns db) /\ Campaign.id r = Campaign.id self.

(** What the status machine may not touch on a campaign. *)
Definition same_but_status (a b : Campaign.t) : Prop :=
  Campaign.id a = Campaign.id b
  /\ Campaign.brand_id a = Campaign.brand_id b
  /\ Campaign.name a = Campaign.name b
  /\ Campaign.daily_spend a = Campaign.daily_spend b
  /\ Campaign.monthly_spend a = Campaign.monthly_spend b
  /\ Campaign.dayparting_enabled a = Campaign.dayparting_enabled b
  /\ Campaign.dayparting_schedule a = Campaign.dayparting_schedule b
  /\ Campaign.created_at a = Campaign.created_at b.

(** A window object with both bounds, as [DaypartingWindow] declares it. *)
Definition window_bounds (w : pyval) : option (string * string) :=
  match w with
  | PyDict d =>
      match dict_lookup "start" d, dict_lookup "end" d with
      | Some (PyStr s), Some (PyStr e) => Some (s, e)
      | _, _ => None
      end
  | _ => None
  end.

(** [start <= t <= end], lexically, both ends included. *)
Definition inside (t : string) (b : string * string) : bool :=
  String.leb (fst b) t && String.leb t (snd b).

(** The exact sum of the amounts of a list of spend events. *)
Definition sum_amounts (rows : list AdSpend.t) : Z :=
  fold_right (fun r acc => AdSpend.amount r + acc) 0 rows.

(** The status the machine decides on, read off the branches of
    [update_status]; used to state what a run stores. *)
Definition next_status (now : datetime) (brand : Brand.t) (self : Campaign.t)
  : result CampaignStatus :=
  if negb (Brand.is_active brand) then Ok INACTIVE
  else if Brand.daily_budget_exceeded brand
          || Brand.monthly_budget_exceeded brand then Ok BUDGET_EXCEEDED
  else
    let? closed :=
      (if Campaign.dayparting_enabled self then
         let? within := is_within_dayparting_window now self in
         Ok (negb within)
       else Ok false) in
    if closed then Ok DAYPARTING_PAUSED
    else if status_in (Campaign.status self)
              [BUDGET_EXCEEDED; DAYPARTING_PAUSED] then Ok ACTIVE
    else Ok (Campaign.status self).

(** The aggregates as the ledger defines them: [daily_spend] is the sum
    over the campaign's events dated today, [monthly_spend] the sum over its
    events dated on or after the first of the current month. *)
Definition dated_today (today : date) (e : AdSpend.t) : bool :=
  date_eqb (dt_date (AdSpend.timestamp e)) today.

Definition dated_this_month (today : date) (e : AdSpend.t) : bool :=
  date_geb (dt_date (AdSpend.timestamp e))
           (mkdate (year today) (month today) 1).

Definition events_of (k : nat) (events : list AdSpend.t) : list AdSpend.t :=
  filter (fun e => Nat.eqb (AdSpend.campaign_id e) k) events.

Definition totals_recomputed (today : date) (events : list AdSpend.t)
  (c : Campaign.t) : Prop :=
  Campaign.daily_spend c =
    sum_amounts (filter (dated_today today) (events_of (Campaign.id c) events))
  /\ Campaign.monthly_spend c =
    sum_amounts
      (filter (dated_this_month today) (events_of (Campaign.id c) events)).

(** What one pass of the campaign loop stores. *)
Definition recomputed_row (now : datetime) (events : list AdSpend.t)
  (c r : Campaign.t) : Campaign.t :=
  Campaign.with_updated_at now
    (Campaign.with_spend
       (sum_amounts (filter (dated_today (dt_date now))
                       (events_of (Campaign.id c) events)))
       (sum_amounts (filter (dated_this_month (dt_date now))
                       (events_of (Campaign.id c) events)))
       r).

(** A campaign the dry run counts: stored status BUDGET_EXCEEDED and
    [should_be_active] true on the store as it is. *)
Definition would_reactivate (now : datetime) (db : DB) (c : Campaign.t)
  : bool :=
  status_eqb (Campaign.status c) BUDGET_EXCEEDED
  && match should_be_active now c db with
     | Ok true => true
     | _ => false
     end.

(** The events of a brand: those whose campaign row points at it. *)
Definition events_of_brand (db : DB) (k : nat) : list AdSpend.t :=
  filter (fun e =>
            existsb (fun c => Nat.eqb (Campaign.id c) (AdSpend.campaign_id e)
                              && Nat.eqb (Campaign.brand_id c) k)
                    (campaigns db))
         (spends db).

Definition brand_totals_recomputed (today : date) (db : DB) (b : Brand.t)
  : Prop :=
  Brand.daily_spend b =
    sum_amounts (filter (dated_today today) (events_of_brand db (Brand.id b)))
  /\ Brand.monthly_spend b =
    sum_amounts
      (filter (dated_this_month today) (events_of_brand db (Brand.id b))).

(** What one pass of the brand loop stores. *)
Definition recomputed_brand_row (now : datetime) (db : DB) (b r : Brand.t)
  : Brand.t :=
  Brand.with_updated_at now
    (Brand.with_spend
       (sum_amounts (filter (dated_today (dt_date now))
                       (events_of_brand db (Brand.id b))))
       (sum_amounts (filter (dated_this_month (dt_date now))
                       (events_of_brand db (Brand.id b))))
       r).

(** A computation keeps the store within a relation to its start, also when
    it raises, and a value it returns satisfies [Q]. *)
Definition frames {A} (Rel : DB -> DB -> Prop) (Q : A -> Prop) (m : M A)
  : Prop :=
  forall db,
    Rel db (fst (m db)) /\ (forall a, snd (m db) = Ok a -> Q a).

(** Campaign rows other than those of campaign [k] are the same, in the
    same places. *)
Definition only_campaign (k : nat) (db db' : DB) : Prop :=
  Forall2 (fun old new =>
             Campaign.id new = Campaign.id old
             /\ (Campaign.id old <> k -> new = old))
          (campaigns db) (campaigns db').

(** Brand rows keep identity, name, budgets and the active flag. *)
Definition brand_settings_kept (db db' : DB) : Prop :=
  Forall2 (fun old new =>
             Brand.id new = Brand.id old
             /\ Brand.name new = Brand.name old
             /\ Brand.daily_budget new = Brand.daily_budget old
             /\ Brand.monthly_budget new = Brand.monthly_budget old
             /\ Brand.is_active new = Brand.is_active old)
          (brands db) (brands db').

Definition touches_only (k : nat) (db db' : DB) : Prop :=
  only_campaign k db db' /\ brand_settings_kept db db'.

(** The status machine's footprint as a relation: brands and events are
    the same, campaign rows keep id and both spend columns. *)
Definition spend_columns_kept (db db' : DB) : Prop :=
  brands db' = brands db
  /\ spends db' = spends db
  /\ Forall2 (fun old new =>
                Campaign.id new = Campaign.id old
                /\ Campaign.daily_spend new = Campaign.daily_spend old
                /\ Campaign.monthly_spend new = Campaign.monthly_spend old)
             (campaigns db) (campaigns db').

(** The sum of a column over the campaign rows of one brand. *)
Definition sum_campaigns (f : Campaign.t -> Z) (k : nat)
  (cs : list Campaign.t) : Z :=
  fold_right (fun c acc => f c + acc) 0
    (filter (fun c => Nat.eqb (Campaign.brand_id c) k) cs).

(** What a recompute may not touch on a campaign row: everything but the
    two spend columns and updated_at. *)
Definition same_but_spend (a b : Campaign.t) : Prop :=
  Campaign.id b = Campaign.id a
  /\ Campaign.brand_id b = Campaign.brand_id a
  /\ Campaign.name b = Campaign.name a
  /\ Campaign.status b = Campaign.status a
  /\ Campaign.dayparting_enabled b = Campaign.dayparting_enabled a
  /\ Campaign.dayparting_schedule b = Campaign.dayparting_schedule a
  /\ Campaign.created_at b = Campaign.created_at a.

(** The campaign table has the same rows in the same places, each changed
    at most in its spend columns and updated_at. *)
Definition campaign_rows_kept (db db' : DB) : Prop :=
  Forall2 same_but_spend (campaigns db) (campaigns db').

(** A value in hundredths fits a [DecimalField(max_digits=n,
    decimal_places=2)] column: it has at most [n] digits. *)
Definition fits (max_digits : nat) (v : Z) : Prop :=
  Z.abs v < 10 ^ Z.of_nat max_digits.

(** ** Sample data *)

Definition window (s e : string) : pyval :=
  PyDict [("start", PyStr s); ("end", PyStr e)].

Definition may_15 (wd : Weekday) (h m : nat) : datetime :=
  mkdatetime (mkdate 2024 5 15) wd h m.

Definition campaign_with (k : nat) (s : CampaignStatus) (enabled : bool)
  (sched : pyval) : Campaign.t :=
  Campaign.mk k 1 "spring" s 0 0 enabled sched
    (may_15 Wednesday 0 0) (may_15 Wednesday 0 0).

(** Open 09:00 to 17:00 on the given weekday, closed otherwise. *)
Definition nine_to_five (wd : Weekday) : Campaign.t :=
  campaign_with 1 ACTIVE true
    (PyDict [(lower (strftime_A wd), PyList [window "09:00" "17:00"])]).

(** A Wednesday window that lacks its [start]. *)
Definition no_start_campaign : Campaign.t :=
  campaign_with 1 ACTIVE true
    (PyDict [("wednesday", PyList [PyDict [("end", PyStr "17:00")]])]).

(** Brand 1, "acme": 100.00 a day, 1000.00 a month. *)
Definition acme (active : bool) (daily_spend monthly_spend : Z) : Brand.t :=
  Brand.mk 1 "acme" 10000 100000 daily_spend monthly_spend active
    (may_15 Wednesday 0 0) (may_15 Wednesday 0 0).

(** An inactive brand that is also over its daily budget, with a campaign
    whose only window is on Mondays. *)
Definition inactive_db : DB :=
  mkDB [acme false 20000 20000] [nine_to_five Monday] [].

(** An active brand under budget with one manually paused campaign. *)
Definition paused_campaign : Campaign.t :=
  campaign_with 1 PAUSED false (PyDict []).

Definition paused_db : DB := mkDB [acme true 0 0] [paused_campaign] [].

(** An active campaign without dayparting. *)
Definition plain_campaign (k : nat) (s : CampaignStatus) : Campaign.t :=
  campaign_with k s false (PyDict []).

(** The brand has been switched off; its campaign is still ACTIVE. *)
Definition sweep_db : DB :=
  mkDB [acme false 0 0] [plain_campaign 1 ACTIVE] [].

Definition noon : datetime := may_15 Wednesday 12 0.

(** An active brand with no spend and one ACTIVE campaign. *)
Definition fresh_db : DB :=
  mkDB [acme true 0 0] [plain_campaign 1 ACTIVE] [].

(** Midnight of the first of May, and an evening in April. *)
Definition may_1 : datetime := mkdatetime (mkdate 2024 5 1) Wednesday 0 0.

Definition apr_30 : datetime := mkdatetime (mkdate 2024 4 30) Tuesday 18 30.

(** April used up the month's 1000.00: the campaign that took the spend is
    BUDGET_EXCEEDED, its two siblings are ACTIVE, the day's total has been
    cleared already. *)
Definition month_end_db : DB :=
  mkDB [acme true 0 100000]
       [plain_campaign 1 BUDGET_EXCEEDED; plain_campaign 2 ACTIVE;
        plain_campaign 3 ACTIVE]
       [AdSpend.mk (Some 1%nat) 1 100000 apr_30 "launch"].

(** An active brand under budget whose campaign has the Wednesday window
    without [start]. *)
Definition malformed_db : DB := mkDB [acme true 0 0] [no_start_campaign] [].

(** The day's 100.00 is spent; the campaign is manually paused. *)
Definition spent_db : DB := mkDB [acme true 10000 10000] [paused_campaign] [].

(** A campaign the machine paused for budget, under a brand that is back
    under budget. *)
Definition cleared_db : DB :=
  mkDB [acme true 0 0] [plain_campaign 1 BUDGET_EXCEEDED] [].

(** Open from 22:00 to 06:00 on Fridays, as written. *)
Definition night_campaign : Campaign.t :=
  campaign_with 1 ACTIVE true
    (PyDict [("friday", PyList [window "22:00" "06:00"])]).

(** Two windows on Fridays, in either order. *)
Definition split_shift (flip : bool) : Campaign.t :=
  campaign_with 1 ACTIVE true
    (PyDict [("friday",
              PyList (if flip
                      then [window "14:00" "18:00"; window "08:00" "12:00"]
                      else [window "08:00" "12:00"; window "14:00" "18:00"]))]).

(** Minutes since midnight. *)
Definition minute_of_day (t : datetime) : nat := 60 * dt_hour t + dt_minute t.

(** Every pair of two-digit renderings below 60 sorts like the numbers. *)
Definition two_digits_sorted_below (n : nat) : bool :=
  forallb
    (fun a =>
       forallb
         (fun b =>
            match String.compare (two_digits a) (two_digits b),
                  Nat.compare a b with
            | Eq, Eq | Lt, Lt | Gt, Gt => true
            | _, _ => false
            end)
         (seq 0 n))
    (seq 0 n).

(** On Wednesdays a window without [start] comes before a 09:00 to 17:00
    window. *)
Definition half_broken_campaign : Campaign.t :=
  campaign_with 1 ACTIVE true
    (PyDict [("wednesday",
              PyList [PyDict [("end", PyStr "17:00")];
                      window "09:00" "17:00"])]).

(** On Wednesdays a 09:00 to 17:00 window comes before a window without
    [start]. *)
Definition late_broken_campaign : Campaign.t :=
  campaign_with 1 ACTIVE true
    (PyDict [("wednesday",
              PyList [window "09:00" "17:00";
                      PyDict [("end", PyStr "23:00")]])]).

(** * Properties *)

(** ** Dayparting evaluator *)

Lemma any_window_well_formed (t : string) (ws : list pyval) :
  Forall (fun w => window_bounds w <> None) ws ->
  any_window t ws =
  Ok (existsb (fun w => match window_bounds w with
                        | Some b => inside t b
                        | None => false
                        end) ws).
Proof.
  induction 1 as [|w ws Hw _ IH]; [reflexivity|].
  cbn [any_window existsb].
  destruct w as [| | | |l|d]; cbn in Hw; try congruence.
  cbn [window_bounds py_getitem].
  destruct (dict_lookup "start" d) as [[| | |s| |]|]; try congruence.
  destruct (dict_lookup "end" d) as [[| | |e| |]|]; try congruence.
  cbn [rbind py_le_str str_le_py inside fst snd].
  rewrite IH. unfold inside. cbn [fst snd].
  destruct (String.leb s t); [|reflexivity].
  destruct (String.leb t e); reflexivity.
Qed.

Lemma existsb_inside_iff (t : string) (ws : list pyval) :
  existsb (fun w => match window_bounds w with
                    | Some b => inside t b
                    | None => false
                    end) ws = true <->
  exists w s e,
    In w ws /\ window_bounds w = Some (s, e)
    /\ String.leb s t = true /\ String.leb t e = true.
Proof.
  rewrite existsb_exists. split.
  - intros (w & Hin & Hw).
    destruct (window_bounds w) as [[s e]|] eqn:Hb; [|discriminate].
    apply andb_true_iff in Hw. exists w, s, e. tauto.
  - intros (w & s & e & Hin & Hb & Hs & He).
    exists w. split; [assumption|].
    rewrite Hb. unfold inside. cbn. now rewrite Hs, He.
Qed.

(** On any list of values whatsoever, the loop answers true only at a
    window object that carries both bounds and contains the time. *)
Lemma any_window_true (t : string) (ws : list pyval) :
  any_window t ws = Ok true ->
  exists w s e,
    In w ws /\ window_bounds w = Some (s, e)
    /\ String.leb s t = true /\ String.leb t e = true.
Proof.
  induction ws as [|w ws IH]; [discriminate|].
  intros H.
  assert (Hrest : any_window t ws = Ok true ->
                  exists w0 s e,
                    In w0 (w :: ws) /\ window_bounds w0 = Some (s, e)
                    /\ String.leb s t = true /\ String.leb t e = true).
  { intros H'. destruct (IH H') as (w0 & s & e & Hin & Hrem).
    exists w0, s, e. split; [now right | exact Hrem]. }
  cbn [any_window] in H.
  destruct w as [| | | |l|d]; try discriminate.
  cbn [py_getitem] in H.
  destruct (dict_lookup "start" d) as [[| | |s| |]|] eqn:Hs;
    try discriminate.
  cbn [rbind py_le_str] in H.
  destruct (String.leb s t) eqn:Hlo; [|auto].
  destruct (dict_lookup "end" d) as [[| | |e| |]|] eqn:He;
    try discriminate.
  cbn [rbind str_le_py] in H.
  destruct (String.leb t e) eqn:Hhi; [|auto].
  exists (PyDict d), s, e. split; [now left|].
  cbn [window_bounds]. rewrite Hs, He. auto.
Qed.

(** C8, as the code has it.  With dayparting enabled and the current
    weekday's entry a list of window objects that carry both bounds (an
    absent entry counts as the empty list), [is_within_dayparting_window]
    returns, and returns true exactly when some listed window has
    [start <= now <= end] on the "HH:MM" strings, compared lexically with
    both ends included.  Whatever the
    schedule holds, an answer of true comes from such a window.  A 09:00 to
    17:00 window admits 09:00 and 17:00 and rejects 08:59 and 17:01. *)
Theorem dayparting_window_inclusive :
  (forall now self ws,
      Campaign.dayparting_enabled self = true ->
      py_get (Campaign.dayparting_schedule self)
             (lower (strftime_A (dt_weekday now))) (PyList []) =
        Ok (PyList ws) ->
      Forall (fun w => window_bounds w <> None) ws ->
      (exists b, is_within_dayparting_window now self = Ok b)
      /\ (is_within_dayparting_window now self = Ok true <->
          exists w s e,
            In w ws /\ window_bounds w = Some (s, e)
            /\ String.leb s (strftime_HM now) = true
            /\ String.leb (strftime_HM now) e = true))
  /\ (forall now self,
         Campaign.dayparting_enabled self = true ->
         is_within_dayparting_window now self = Ok true ->
         exists day ws w s e,
           py_get (Campaign.dayparting_schedule self)
                  (lower (strftime_A (dt_weekday now))) (PyList []) = Ok day
           /\ py_iter day = Ok ws
           /\ In w ws /\ window_bounds w = Some (s, e)
           /\ String.leb s (strftime_HM now) = true
           /\ String.leb (strftime_HM now) e = true)
  /\ (forall wd,
         is_within_dayparting_window (may_15 wd 9 0) (nine_to_five wd)
           = Ok true
         /\ is_within_dayparting_window (may_15 wd 17 0) (nine_to_five wd)
           = Ok true
         /\ is_within_dayparting_window (may_15 wd 8 59) (nine_to_five wd)
           = Ok false
         /\ is_within_dayparting_window (may_15 wd 17 1) (nine_to_five wd)
           = Ok false).
Proof.
  split; [|split].
  - intros now self ws Hen Hget Hwf.
    unfold is_within_dayparting_window.
    rewrite Hen, Hget. cbn [negb rbind py_iter].
    rewrite (any_window_well_formed _ _ Hwf).
    split; [eexists; reflexivity|].
    rewrite <- existsb_inside_iff.
    split; [now inversion 1 | now intros ->].
  - intros now self Hen. unfold is_within_dayparting_window.
    rewrite Hen. cbn [negb].
    destruct (py_get _ _ _) as [day|e0] eqn:Hday; [|discriminate].
    cbn [rbind]. destruct (py_iter day) as [ws|e0] eqn:Hws; [|discriminate].
    cbn [rbind]. intros H.
    destruct (any_window_true _ _ H) as (w & s & e & Hin & Hb & Hs & He).
    exists day, ws, w, s, e. repeat (split; [first [reflexivity | assumption]|]). exact He.
  - intros wd. destruct wd; repeat split; reflexivity.
Qed.

(** C8 as stated fails: on a Wednesday at 10:00, with a window lacking
    [start] listed before a 09:00 to 17:00 window, a listed window contains
    the time and yet the call raises instead of returning true. *)
Lemma dayparting_listed_window_unreached :
  (exists w s e,
      In w [PyDict [("end", PyStr "17:00")]; window "09:00" "17:00"]
      /\ window_bounds w = Some (s, e)
      /\ String.leb s (strftime_HM (may_15 Wednesday 10 0)) = true
      /\ String.leb (strftime_HM (may_15 Wednesday 10 0)) e = true)
  /\ Campaign.dayparting_enabled half_broken_campaign = true
  /\ py_get (Campaign.dayparting_schedule half_broken_campaign)
            (lower (strftime_A Wednesday)) (PyList [])
     = Ok (PyList [PyDict [("end", PyStr "17:00")]; window "09:00" "17:00"])
  /\ is_within_dayparting_window (may_15 Wednesday 10 0) half_broken_campaign
     = Raise KeyError
  /\ is_within_dayparting_window (may_15 Wednesday 10 0) half_broken_campaign
     <> Ok true.
Proof.
  split.
  - exists (window "09:00" "17:00"), "09:00", "17:00".
    split; [right; left; reflexivity|]. repeat split.
  - split; [reflexivity|]. split; [reflexivity|].
    split; [reflexivity | discriminate].
Qed.

Lemma dayparting_window_inclusive_witness :
  is_within_dayparting_window (may_15 Friday 12 30) (nine_to_five Friday)
    = Ok true <->
  exists w s e,
    In w [window "09:00" "17:00"] /\ window_bounds w = Some (s, e)
    /\ String.leb s (strftime_HM (may_15 Friday 12 30)) = true
    /\ String.leb (strftime_HM (may_15 Friday 12 30)) e = true.
Proof.
  apply (proj1 dayparting_window_inclusive (may_15 Friday 12 30)
           (nine_to_five Friday) [window "09:00" "17:00"]).
  - reflexivity.
  - reflexivity.
  - repeat constructor. discriminate.
Defined.

(** Windows the loop passes without a match do not change what follows. *)
Lemma any_window_passed (t : string) (pre rest : list pyval) :
  any_window t pre = Ok false ->
  any_window t (pre ++ rest) = any_window t rest.
Proof.
  induction pre as [|w pre IH]; intros H; [reflexivity|].
  cbn [app any_window] in *.
  destruct (py_getitem w "start") as [start|e]; [|discriminate].
  cbn [rbind] in *.
  destruct (py_le_str start t) as [[|]|e]; cbn [rbind] in *;
    [| now apply IH | discriminate].
  destruct (py_getitem w "end") as [stop|e]; [|discriminate].
  cbn [rbind] in *.
  destruct (str_le_py t stop) as [[|]|e]; cbn [rbind] in *;
    [discriminate | now apply IH | discriminate].
Qed.

(** C7, as the code has it.  With dayparting enabled and a schedule that is
    a mapping without an entry under the current weekday's name (whatever
    other keys it holds), the call returns false and raises nothing.  A
    window object that the loop reaches, at any position of the day's list
    (every window before it was read without error and did not contain the
    time), raises [KeyError] when it lacks [start], and also when it lacks
    [end] and its [start <= now]. *)
Theorem dayparting_missing_day_closed :
  forall now self d,
    Campaign.dayparting_enabled self = true ->
    Campaign.dayparting_schedule self = PyDict d ->
    (dict_lookup (lower (strftime_A (dt_weekday now))) d = None ->
     is_within_dayparting_window now self = Ok false)
    /\ (forall pre w rest,
           dict_lookup (lower (strftime_A (dt_weekday now))) d
             = Some (PyList (pre ++ PyDict w :: rest)) ->
           any_window (strftime_HM now) pre = Ok false ->
           (dict_lookup "start" w = None ->
            is_within_dayparting_window now self = Raise KeyError)
           /\ (forall s,
                  dict_lookup "start" w = Some (PyStr s) ->
                  String.leb s (strftime_HM now) = true ->
                  dict_lookup "end" w = None ->
                  is_within_dayparting_window now self = Raise KeyError)).
Proof.
  intros now self d Hen Hd.
  unfold is_within_dayparting_window. rewrite Hen, Hd. cbn [negb py_get].
  split.
  - intros ->. reflexivity.
  - intros pre w rest -> Hpre. cbn [rbind py_iter].
    rewrite (any_window_passed _ _ _ Hpre).
    cbn [any_window py_getitem]. split.
    + intros ->. reflexivity.
    + intros s -> Hs ->. cbn [rbind py_le_str]. rewrite Hs. reflexivity.
Qed.

Lemma dayparting_missing_day_closed_witness :
  is_within_dayparting_window (may_15 Sunday 12 0) (nine_to_five Monday)
    = Ok false
  /\ is_within_dayparting_window (may_15 Wednesday 18 0) late_broken_campaign
     = Raise KeyError.
Proof.
  split.
  - apply (proj1 (dayparting_missing_day_closed (may_15 Sunday 12 0)
                    (nine_to_five Monday) _ eq_refl eq_refl)).
    reflexivity.
  - apply (proj2 (dayparting_missing_day_closed (may_15 Wednesday 18 0)
                    late_broken_campaign _ eq_refl eq_refl)
             [window "09:00" "17:00"] [("end", PyStr "23:00")] []).
    + reflexivity.
    + reflexivity.
    + reflexivity.
Defined.

(** C7 as stated fails: a Wednesday window without [start] makes the call
    raise on a Wednesday instead of returning false. *)
Lemma dayparting_missing_start_raises :
  window_bounds (PyDict [("end", PyStr "17:00")]) = None
  /\ is_within_dayparting_window (may_15 Wednesday 10 0) no_start_campaign
     = Raise KeyError
  /\ is_within_dayparting_window (may_15 Wednesday 10 0) no_start_campaign
     <> Ok false.
Proof. split; [reflexivity | split; [reflexivity | discriminate]]. Qed.

(** ** Campaign status machine *)

Lemma with_status_same (self : Campaign.t) :
  Campaign.with_status (Campaign.status self) self = self.
Proof. destruct self; reflexivity. Qed.

Lemma stored_existsb (self : Campaign.t) (db : DB) :
  stored self db <->
  existsb (fun r => Nat.eqb (Campaign.id r) (Campaign.id self))
          (campaigns db) = true.
Proof.
  rewrite existsb_exists. unfold stored.
  split; intros (r & Hin & Hid); exists r; split; trivial;
    now apply Nat.eqb_eq.
Qed.

Lemma in_update_rows {A} (p : A -> bool) (f : A -> A) (l : list A) (x : A) :
  In x (update_rows p f l) <->
  exists r, In r l /\ x = (if p r then f r else r).
Proof.
  unfold update_rows. rewrite in_map_iff.
  split; intros (r & H1 & H2); exists r; split; auto.
Qed.

Lemma update_rows_twice {A} (p : A -> bool) (f : A -> A) (l : list A) :
  (forall r, p r = true -> p (f r) = true) ->
  (forall r, p r = true -> f (f r) = f r) ->
  update_rows p f (update_rows p f l) = update_rows p f l.
Proof.
  intros Hp Hf. unfold update_rows. rewrite map_map.
  apply map_ext. intros r.
  destruct (p r) eqn:E; [|now rewrite E].
  now rewrite (Hp r E), (Hf r E).
Qed.

Lemma existsb_update_rows {A} (p q : A -> bool) (f : A -> A) (l : list A) :
  (forall r, q (f r) = q r) ->
  existsb q (update_rows p f l) = existsb q l.
Proof.
  intros Hq. unfold update_rows.
  induction l as [|r l IH]; [reflexivity|].
  cbn [map existsb]. rewrite IH. destruct (p r); now rewrite ?Hq.
Qed.

(** One run of the machine: look the brand up, decide, store. *)
Lemma update_status_unfold (now : datetime) (self : Campaign.t) (db : DB) :
  update_status now self db =
  match get_brand (Campaign.brand_id self) db with
  | Raise e => (db, Raise e)
  | Ok brand =>
      match next_status now brand self with
      | Raise e => (db, Raise e)
      | Ok s => Campaign_save_status now (Campaign.with_status s self) db
      end
  end.
Proof.
  unfold update_status, bind, lift, ret, next_status.
  destruct (get_brand (Campaign.brand_id self) db) as [brand|e];
    [|reflexivity].
  destruct (negb (Brand.is_active brand)); [reflexivity|].
  destruct (Brand.daily_budget_exceeded brand
            || Brand.monthly_budget_exceeded brand); [reflexivity|].
  destruct (if Campaign.dayparting_enabled self
            then let? within := is_within_dayparting_window now self in
                 Ok (negb within)
            else Ok false) as [closed|e]; cbn [rbind]; [|reflexivity].
  destruct closed; [reflexivity|].
  destruct (status_in (Campaign.status self)
              [BUDGET_EXCEEDED; DAYPARTING_PAUSED]); [reflexivity|].
  now rewrite with_status_same.
Qed.

Lemma save_status_stored (now : datetime) (self : Campaign.t) (db : DB) :
  stored self db ->
  Campaign_save_status now self db =
  (mkDB (brands db)
        (update_rows (fun r => Nat.eqb (Campaign.id r) (Campaign.id self))
           (fun r => Campaign.with_updated_at now
                       (Campaign.with_status (Campaign.status self) r))
           (campaigns db))
        (spends db),
   Ok (Campaign.with_updated_at now self)).
Proof.
  intros Hs. apply stored_existsb in Hs.
  unfold Campaign_save_status. now rewrite Hs.
Qed.

Lemma saved_rows_status (now : datetime) (self : Campaign.t) (db : DB) r :
  In r (update_rows (fun r => Nat.eqb (Campaign.id r) (Campaign.id self))
          (fun r => Campaign.with_updated_at now
                      (Campaign.with_status (Campaign.status self) r))
          (campaigns db)) ->
  Campaign.id r = Campaign.id self ->
  Campaign.status r = Campaign.status self.
Proof.
  intros Hin Hid. apply in_update_rows in Hin.
  destruct Hin as (r0 & _ & ->).
  destruct (Nat.eqb (Campaign.id r0) (Campaign.id self)) eqn:E.
  - reflexivity.
  - apply Nat.eqb_neq in E. contradiction.
Qed.

(** C1.  When the owning brand is inactive, a run of the status machine
    returns with the campaign's status INACTIVE, in the object and in its
    stored row, whatever the budgets and the dayparting schedule are. *)
Theorem inactive_brand_wins :
  forall now db self brand,
    get_brand (Campaign.brand_id self) db = Ok brand ->
    Brand.is_active brand = false ->
    stored self db ->
    exists db' self',
      update_status now self db = (db', Ok self')
      /\ Campaign.status self' = INACTIVE
      /\ (forall r, In r (campaigns db') ->
                    Campaign.id r = Campaign.id self ->
                    Campaign.status r = INACTIVE).
Proof.
  intros now db self brand Hb Hina Hs.
  rewrite update_status_unfold, Hb. unfold next_status. rewrite Hina.
  cbn [negb]. rewrite save_status_stored by exact Hs.
  eexists _, _. split; [reflexivity|]. split; [reflexivity|].
  intros r Hin Hid. cbn [campaigns] in Hin.
  now apply saved_rows_status in Hin.
Qed.

Lemma inactive_brand_wins_witness :
  exists db' self',
    update_status (may_15 Sunday 12 0) (nine_to_five Monday) inactive_db
      = (db', Ok self')
    /\ Campaign.status self' = INACTIVE
    /\ (forall r, In r (campaigns db') ->
                  Campaign.id r = Campaign.id (nine_to_five Monday) ->
                  Campaign.status r = INACTIVE).
Proof.
  apply (inactive_brand_wins (may_15 Sunday 12 0) inactive_db
           (nine_to_five Monday) (acme false 20000 20000)).
  - reflexivity.
  - reflexivity.
  - exists (nine_to_five Monday). split; [left|]; reflexivity.
Defined.

(** C3.  A campaign whose status is PAUSED keeps it through a run of the
    status machine when the brand is active, neither budget is exceeded and
    the dayparting evaluator answers true (as it does when dayparting is
    disabled): the object and the stored row stay PAUSED. *)
Theorem paused_is_sticky :
  forall now db self brand,
    Campaign.status self = PAUSED ->
    get_brand (Campaign.brand_id self) db = Ok brand ->
    Brand.is_active brand = true ->
    Brand.daily_budget_exceeded brand = false ->
    Brand.monthly_budget_exceeded brand = false ->
    is_within_dayparting_window now self = Ok true ->
    stored self db ->
    exists db' self',
      update_status now self db = (db', Ok self')
      /\ Campaign.status self' = PAUSED
      /\ (forall r, In r (campaigns db') ->
                    Campaign.id r = Campaign.id self ->
                    Campaign.status r = PAUSED).
Proof.
  intros now db self brand Hp Hb Hact Hd Hm Hw Hs.
  rewrite update_status_unfold, Hb. unfold next_status.
  rewrite Hact, Hd, Hm, Hw, Hp. cbn [negb orb rbind].
  replace (if Campaign.dayparting_enabled self
           then Ok false else Ok false) with (@Ok bool false)
    by now destruct (Campaign.dayparting_enabled self).
  cbn [status_in existsb status_eqb orb rbind].
  replace (Campaign.with_status PAUSED self) with self
    by (rewrite <- Hp; symmetry; apply with_status_same).
  rewrite save_status_stored by exact Hs.
  eexists _, _. split; [reflexivity|]. split; [exact Hp|].
  intros r Hin Hid. cbn [campaigns] in Hin.
  apply saved_rows_status in Hin; congruence.
Qed.

Lemma paused_is_sticky_witness :
  exists db' self',
    update_status (may_15 Wednesday 12 0) paused_campaign paused_db
      = (db', Ok self')
    /\ Campaign.status self' = PAUSED
    /\ (forall r, In r (campaigns db') ->
                  Campaign.id r = Campaign.id paused_campaign ->
                  Campaign.status r = PAUSED).
Proof.
  apply (paused_is_sticky (may_15 Wednesday 12 0) paused_db paused_campaign
           (acme true 0 0)).
  - reflexivity.
  - reflexivity.
  - reflexivity.
  - reflexivity.
  - reflexivity.
  - reflexivity.
  - exists paused_campaign. split; [left|]; reflexivity.
Defined.

Lemma next_status_settled now brand self s :
  next_status now brand self = Ok s ->
  next_status now brand
    (Campaign.with_updated_at now (Campaign.with_status s self)) = Ok s.
Proof.
  unfold next_status, is_within_dayparting_window. cbn.
  destruct (negb (Brand.is_active brand)); [trivial|].
  destruct (Brand.daily_budget_exceeded brand
            || Brand.monthly_budget_exceeded brand); [trivial|].
  destruct (if Campaign.dayparting_enabled self then _ else _)
    as [[|]|e]; cbn [rbind]; [trivial| |discriminate].
  destruct (Campaign.status self); cbn; intros [= <-]; reflexivity.
Qed.

(** C9.  A run of the status machine that returns is a fixed point: run
    again on the returned campaign and the resulting store under the same
    clock, it returns the same campaign and the same store, so the status is
    the same after the second run as after the first. *)
Theorem update_status_idempotent :
  forall now db self db1 self1,
    update_status now self db = (db1, Ok self1) ->
    update_status now self1 db1 = (db1, Ok self1)
    /\ (forall db2 self2,
           update_status now self1 db1 = (db2, Ok self2) ->
           Campaign.status self2 = Campaign.status self1).
Proof.
  intros now db self db1 self1 H.
  assert (E : update_status now self1 db1 = (db1, Ok self1)).
  { rewrite update_status_unfold in H.
    destruct (get_brand (Campaign.brand_id self) db) as [brand|e] eqn:Hb;
      [|discriminate].
    destruct (next_status now brand self) as [s|e] eqn:Hn; [|discriminate].
    unfold Campaign_save_status in H. cbn in H.
    destruct (existsb _ (campaigns db)) eqn:Hex; [|discriminate].
    injection H as <- <-.
    rewrite update_status_unfold. unfold get_brand in *. cbn [brands].
    cbn [Campaign.brand_id Campaign.with_updated_at Campaign.with_status].
    destruct (find _ (brands db)) as [b|]; [|discriminate].
    injection Hb as ->.
    rewrite (next_status_settled _ _ _ _ Hn).
    unfold Campaign_save_status. cbn.
    rewrite existsb_update_rows by reflexivity. rewrite Hex.
    f_equal. f_equal.
    apply (update_rows_twice
             (fun r => Nat.eqb (Campaign.id r) (Campaign.id self))
             (fun r => Campaign.with_updated_at now
                         (Campaign.with_status s r))); intros r Hr.
    - exact Hr.
    - reflexivity. }
  split; [exact E|].
  intros db2 self2 H2. rewrite E in H2. now injection H2 as _ <-.
Qed.

Lemma update_status_idempotent_witness :
  update_status (may_15 Sunday 12 0)
    (Campaign.with_updated_at (may_15 Sunday 12 0)
       (Campaign.with_status INACTIVE (nine_to_five Monday)))
    (fst (update_status (may_15 Sunday 12 0) (nine_to_five Monday)
            inactive_db))
  = (fst (update_status (may_15 Sunday 12 0) (nine_to_five Monday)
            inactive_db),
     Ok (Campaign.with_updated_at (may_15 Sunday 12 0)
           (Campaign.with_status INACTIVE (nine_to_five Monday)))).
Proof.
  apply (update_status_idempotent (may_15 Sunday 12 0) inactive_db
           (nine_to_five Monday)).
  reflexivity.
Defined.

Lemma same_but_status_refl (c : Campaign.t) : same_but_status c c.
Proof. repeat split. Qed.

Lemma update_rows_Forall2 {A} (R : A -> A -> Prop) (p : A -> bool)
  (f : A -> A) (l : list A) :
  (forall r, R r r) -> (forall r, p r = true -> R r (f r)) ->
  Forall2 R l (update_rows p f l).
Proof.
  intros Hrefl Hf. unfold update_rows.
  induction l as [|r l IH]; cbn [map]; constructor; [|exact IH].
  destruct (p r) eqn:E; auto.
Qed.

(** C10.  Whatever a run of the status machine does, the brand table and
    the spend events are the same afterwards; the campaign table has the same
    rows in the same order, each agreeing with its old self on everything but
    status and updated_at, and rows of other campaigns are untouched; the
    campaign object handed back differs from the one handed in on status and
    updated_at only. *)
Theorem update_status_frame :
  forall now self db,
    brands (fst (update_status now self db)) = brands db
    /\ spends (fst (update_status now self db)) = spends db
    /\ Forall2
         (fun old new =>
            same_but_status old new
            /\ (Campaign.id old <> Campaign.id self -> new = old))
         (campaigns db) (campaigns (fst (update_status now self db)))
    /\ (forall self',
           snd (update_status now self db) = Ok self' ->
           same_but_status self self').
Proof.
  intros now self db. rewrite update_status_unfold.
  assert (Hsame : Forall2
            (fun old new =>
               same_but_status old new
               /\ (Campaign.id old <> Campaign.id self -> new = old))
            (campaigns db) (campaigns db)).
  { clear. induction (campaigns db); constructor; auto.
    split; [apply same_but_status_refl | reflexivity]. }
  destruct (get_brand (Campaign.brand_id self) db) as [brand|e];
    [|cbn; repeat split; auto; discriminate].
  destruct (next_status now brand self) as [s|e];
    [|cbn; repeat split; auto; discriminate].
  unfold Campaign_save_status. cbn.
  destruct (existsb _ (campaigns db));
    [|cbn; repeat split; auto; discriminate].
  cbn. split; [reflexivity|]. split; [reflexivity|]. split.
  - apply (update_rows_Forall2
             (fun old new =>
                same_but_status old new
                /\ (Campaign.id old <> Campaign.id self -> new = old))).
    + intros r. split; [apply same_but_status_refl | reflexivity].
    + intros r Hr. split; [repeat split|].
      apply Nat.eqb_eq in Hr. intros Hne. contradiction.
  - intros self' [= <-]. repeat split.
Qed.

(** ** Status sweep *)

Lemma for_each_keeps {A S} (body : S -> A -> M S) (l : list A) :
  (forall s x db db' s', body s x db = (db', Ok s') -> s' = s) ->
  forall s db db' s', for_each l body s db = (db', Ok s') -> s' = s.
Proof.
  intros Hbody. induction l as [|x l IH]; intros s db db' s' H.
  - now injection H as _ <-.
  - cbn [for_each] in H. unfold bind in H.
    destruct (body s x db) as [db1 [s1|e]] eqn:E; [|discriminate].
    apply Hbody in E. subst s1. eauto.
Qed.

(** X23.  The tally a sweep returns never counts anything: whenever the
    sweep returns, all four counts are zero, since a campaign whose status
    changed sends the loop to the missing [Campaign.STATUS_ACTIVE]. *)
Lemma sweep_tally_is_zero (now : datetime) (db db' : DB) (t : StatusChanges) :
  check_and_update_campaign_statuses now db = (db', Ok t) ->
  t = mkStatusChanges 0 0 0 0.
Proof.
  unfold check_and_update_campaign_statuses, Campaign_objects_all.
  unfold bind at 1, lift. intros H.
  eapply for_each_keeps; [|exact H].
  clear. intros s x db db' s' H. unfold bind at 1 in H.
  destruct (update_status now x db) as [db1 [c|e]]; [|discriminate].
  destruct (negb (status_eqb (Campaign.status x) (Campaign.status c))).
  - discriminate.
  - now injection H as _ <-.
Qed.

(** C5, on the code.  With the brand switched off and its campaign still
    ACTIVE, the sweep stores the campaign's new status INACTIVE and then
    raises [AttributeError] instead of returning a tally. *)
Theorem sweep_raises_on_status_change :
  check_and_update_campaign_statuses noon sweep_db =
  (mkDB [acme false 0 0]
        [Campaign.with_updated_at noon
           (Campaign.with_status INACTIVE (plain_campaign 1 ACTIVE))]
        [],
   Raise AttributeError).
Proof. reflexivity. Qed.

(** ** Monthly reset *)

(** Computations that leave the store alone. *)
Lemma reads_only_bind {A B} (m : M A) (k : A -> M B) :
  (forall db, fst (m db) = db) ->
  (forall a db, fst (k a db) = db) ->
  forall db, fst (bind m k db) = db.
Proof.
  intros Hm Hk db. unfold bind. specialize (Hm db).
  destruct (m db) as [db1 [a|e]]; cbn [fst] in Hm; subst db1.
  - apply Hk.
  - reflexivity.
Qed.

Lemma for_each_reads_only {A S} (body : S -> A -> M S) (l : list A) :
  (forall s x db, fst (body s x db) = db) ->
  forall s db, fst (for_each l body s db) = db.
Proof.
  intros Hbody. induction l as [|x l IH]; intros s db; [reflexivity|].
  cbn [for_each]. apply reads_only_bind; auto.
Qed.

(** X20.  A dry run of the monthly reset writes nothing: the store after
    the call is the store before it, also when the call raises. *)
Lemma handle_dry_run_writes_nothing (now : datetime) (db : DB) :
  fst (handle now true db) = db.
Proof.
  unfold handle. cbn [negb andb].
  repeat (apply reads_only_bind; [reflexivity|intros ?]).
  apply reads_only_bind; [|reflexivity].
  apply for_each_reads_only. intros s x.
  apply reads_only_bind; [reflexivity|intros c].
  destruct (status_eqb (Campaign.status x) BUDGET_EXCEEDED);
    [|reflexivity].
  apply reads_only_bind; reflexivity.
Qed.

Lemma dry_run_loop_count (now : datetime) (l : list Campaign.t) :
  forall (n m : nat) (db db' : DB),
    for_each l
      (fun reactivated_count campaign =>
         let old_status := Campaign.status campaign in
         campaign <- ret campaign ;;
         if status_eqb old_status BUDGET_EXCEEDED then
           cond <- lift (should_be_active now campaign) ;;
           ret (if cond : bool then S reactivated_count
                else reactivated_count)
         else ret reactivated_count)
      n db = (db', Ok m) ->
    m = (n + List.length (filter (would_reactivate now db) l))%nat.
Proof.
  induction l as [|c l IH]; intros n m db db' H.
  - injection H as _ <-. cbn. lia.
  - cbn [for_each] in H. unfold bind at 1 in H.
    unfold bind at 1, ret at 1 in H. cbn [filter].
    unfold would_reactivate at 1.
    destruct (status_eqb (Campaign.status c) BUDGET_EXCEEDED); cbn [andb].
    + unfold bind at 1, lift at 1 in H.
      destruct (should_be_active now c db) as [[|]|e]; [| |discriminate];
        unfold ret at 1 in H; apply IH in H; cbn [List.length]; lia.
    + unfold ret at 1 in H. apply IH in H. lia.
Qed.

(** X21.  What a dry run that returns reports: the sizes of the brand and
    campaign tables, and the number of campaigns whose stored status is
    BUDGET_EXCEEDED and for which [should_be_active] is true on the store as
    it is. *)
Lemma handle_dry_run_report (now : datetime) (db db' : DB)
  (report : ResetReport) :
  handle now true db = (db', Ok report) ->
  report =
  mkResetReport (List.length (brands db)) (List.length (campaigns db))
    (List.length (filter (would_reactivate now db) (campaigns db))).
Proof.
  unfold handle. cbn [negb andb].
  unfold bind at 1, lift at 1. unfold bind at 1, lift at 1.
  unfold bind at 1, Campaign_objects_all, lift at 1.
  unfold bind at 1. intros H.
  match type of H with
  | (let (_, _) := ?loop in _) = _ =>
      destruct loop as [db1 [n|e]] eqn:E; [|discriminate]
  end.
  apply dry_run_loop_count in E. injection H as _ <-. now subst n.
Qed.

(** C6, on the code.  On the first of the month, with the brand's stored
    monthly spend still at its budget and one of three campaigns
    BUDGET_EXCEEDED, the dry run leaves the store as it is and reports that
    it would reactivate 0 campaigns, while the real run on the same store
    reactivates 1. *)
Theorem dry_run_misses_reactivation :
  handle may_1 true month_end_db = (month_end_db, Ok (mkResetReport 1 3 0))
  /\ snd (handle may_1 false month_end_db) = Ok (mkResetReport 1 3 1).
Proof. split; reflexivity. Qed.

(** ** Spend aggregation *)

Lemma fold_left_amounts (rows : list AdSpend.t) (acc : Z) :
  fold_left (fun a r => a + AdSpend.amount r) rows acc
  = acc + sum_amounts rows.
Proof.
  unfold sum_amounts. revert acc.
  induction rows as [|r rows IH]; intros acc; cbn [fold_left fold_right].
  - lia.
  - rewrite IH. lia.
Qed.

(** [Sum] followed by [or Decimal("0")] is the plain sum. *)
Lemma or_zero_aggregate_Sum (rows : list AdSpend.t) :
  or_zero (aggregate_Sum rows) = sum_amounts rows.
Proof.
  destruct rows as [|r rows]; [reflexivity|].
  unfold aggregate_Sum, or_zero. rewrite fold_left_amounts.
  generalize (sum_amounts (r :: rows)). intros z.
  destruct (0 + z =? 0) eqn:E.
  - apply Z.eqb_eq in E. lia.
  - lia.
Qed.

Lemma filter_filter {A} (p q : A -> bool) (l : list A) :
  filter p (filter q l) = filter (fun x => q x && p x) l.
Proof.
  induction l as [|x l IH]; [reflexivity|].
  cbn. destruct (q x); cbn; [destruct (p x)|]; now rewrite IH.
Qed.

Lemma campaign_on_total (c : Campaign.t) (today : date)
  (events : list AdSpend.t) :
  or_zero (aggregate_Sum (filter (campaign_on c today) events))
  = sum_amounts (filter (dated_today today) (events_of (Campaign.id c) events)).
Proof.
  rewrite or_zero_aggregate_Sum. unfold events_of.
  now rewrite filter_filter.
Qed.

Lemma campaign_since_total (c : Campaign.t) (today : date)
  (events : list AdSpend.t) :
  or_zero (aggregate_Sum (filter (campaign_since c (replace_day_1 today))
                            events))
  = sum_amounts
      (filter (dated_this_month today) (events_of (Campaign.id c) events)).
Proof.
  rewrite or_zero_aggregate_Sum. unfold events_of.
  now rewrite filter_filter.
Qed.

Lemma recalculate_campaign_run (now : datetime) (c : Campaign.t) (db : DB) :
  existsb (fun r => Nat.eqb (Campaign.id r) (Campaign.id c)) (campaigns db)
    = true ->
  recalculate_campaign now c db =
  (mkDB (brands db)
        (update_rows (fun r => Nat.eqb (Campaign.id r) (Campaign.id c))
           (recomputed_row now (spends db) c) (campaigns db))
        (spends db),
   Ok tt).
Proof.
  intros Hex.
  unfold recalculate_campaign, total_where, bind, lift, ret,
    Campaign_save_spend.
  cbn. rewrite Hex. rewrite campaign_on_total, campaign_since_total.
  reflexivity.
Qed.

Lemma recomputed_row_ok now events c r :
  Campaign.id r = Campaign.id c ->
  totals_recomputed (dt_date now) events (recomputed_row now events c r).
Proof.
  intros Hid. unfold totals_recomputed, recomputed_row. cbn. now rewrite Hid.
Qed.

Lemma Forall2_map_left {A B} (R : A -> B -> Prop) (g : A -> A) (l : list A)
  (l' : list B) :
  Forall2 R (map g l) l' -> Forall2 (fun a b => R (g a) b) l l'.
Proof.
  revert l'. induction l as [|a l IH]; intros l' H; inversion H; subst;
    constructor; auto.
Qed.

Lemma Forall2_weaken {A B} (R R' : A -> B -> Prop) (l : list A)
  (l' : list B) :
  (forall a b, R a b -> R' a b) -> Forall2 R l l' -> Forall2 R' l l'.
Proof. intros HR H. induction H; constructor; auto. Qed.

Lemma Forall2_same {A} (R : A -> A -> Prop) (l : list A) :
  (forall a, R a a) -> Forall2 R l l.
Proof. intros HR. induction l; constructor; auto. Qed.

Lemma Forall2_in_right {A B} (R : A -> B -> Prop) (l : list A) (l' : list B)
  (b : B) :
  Forall2 R l l' -> In b l' -> exists a, In a l /\ R a b.
Proof.
  induction 1 as [|a0 b0 l l' H0 _ IH]; intros Hin; [contradiction|].
  destruct Hin as [<-|Hin].
  - exists a0. split; [now left | assumption].
  - destruct (IH Hin) as (a & Ha & HR). exists a. split; [now right|assumption].
Qed.

(** The campaign loop of the batch recompute, over any list of campaign
    objects that all have a row: it returns, touches the campaign table only,
    keeps every row's id, leaves recomputed rows recomputed and recomputes
    the rows of the listed campaigns. *)
Lemma campaign_loop_run (now : datetime) (cs : list Campaign.t) :
  forall db,
    (forall c, In c cs ->
       existsb (fun r => Nat.eqb (Campaign.id r) (Campaign.id c))
               (campaigns db) = true) ->
    exists rows,
      for_each cs (fun _ campaign => recalculate_campaign now campaign) tt db
        = (mkDB (brands db) rows (spends db), Ok tt)
      /\ Forall2
           (fun old new =>
              Campaign.id new = Campaign.id old
              /\ (totals_recomputed (dt_date now) (spends db) old
                  \/ existsb (fun c => Nat.eqb (Campaign.id c)
                                               (Campaign.id old)) cs = true ->
                  totals_recomputed (dt_date now) (spends db) new))
           (campaigns db) rows.
Proof.
  induction cs as [|c cs IH]; intros db Hall.
  - exists (campaigns db). split; [now destruct db|].
    apply Forall2_same. intros r. split; [reflexivity|].
    intros [H|H]; [exact H | discriminate].
  - cbn [for_each]. unfold bind.
    rewrite recalculate_campaign_run by (apply Hall; now left).
    set (p := fun r => Nat.eqb (Campaign.id r) (Campaign.id c)).
    set (g := recomputed_row now (spends db) c).
    destruct (IH (mkDB (brands db) (update_rows p g (campaigns db))
                       (spends db))) as (rows & Hrun & Hrows).
    { intros c' Hc'. cbn [campaigns].
      rewrite existsb_update_rows by reflexivity.
      apply Hall. now right. }
    cbn [brands campaigns spends] in Hrun, Hrows.
    exists rows. split; [exact Hrun|].
    unfold update_rows in Hrows. apply Forall2_map_left in Hrows.
    revert Hrows. apply Forall2_weaken.
    intros old new [Hid Hnew]. subst p g. cbn beta in Hid, Hnew.
    destruct (Nat.eqb (Campaign.id old) (Campaign.id c)) eqn:E.
    + apply Nat.eqb_eq in E. split; [exact Hid|]. intros _.
      apply Hnew. left. now apply recomputed_row_ok.
    + split; [exact Hid|]. intros [H|H].
      * apply Hnew. now left.
      * apply Hnew. right. cbn [existsb] in H.
        rewrite Nat.eqb_sym, E in H. exact H.
Qed.

Lemma recalculate_brand_run (now : datetime) (b : Brand.t) (db : DB) :
  existsb (fun r => Nat.eqb (Brand.id r) (Brand.id b)) (brands db) = true ->
  exists f,
    recalculate_brand now b db =
    (mkDB (update_rows (fun r => Nat.eqb (Brand.id r) (Brand.id b)) f
             (brands db))
          (campaigns db) (spends db),
     Ok tt)
    /\ forall r, Brand.id (f r) = Brand.id r.
Proof.
  intros Hex.
  unfold recalculate_brand, total_where, bind, lift, ret, Brand_save_spend.
  cbn. rewrite Hex. eexists. split; [reflexivity|]. reflexivity.
Qed.

(** The brand loop returns and touches the brand table only. *)
Lemma brand_loop_run (now : datetime) (bs : list Brand.t) :
  forall db,
    (forall b, In b bs ->
       existsb (fun r => Nat.eqb (Brand.id r) (Brand.id b)) (brands db)
         = true) ->
    exists rows,
      for_each bs (fun _ brand => recalculate_brand now brand) tt db
        = (mkDB rows (campaigns db) (spends db), Ok tt).
Proof.
  induction bs as [|b bs IH]; intros db Hall.
  - exists (brands db). now destruct db.
  - cbn [for_each]. unfold bind.
    destruct (recalculate_brand_run now b db) as (f & -> & Hf);
      [apply Hall; now left|].
    destruct (IH (mkDB (update_rows
                          (fun r => Nat.eqb (Brand.id r) (Brand.id b)) f
                          (brands db))
                       (campaigns db) (spends db))) as (rows & Hrun).
    { intros b' Hb'. cbn [brands].
      rewrite existsb_update_rows by (intros r; now rewrite Hf).
      apply Hall. now right. }
    exists rows. exact Hrun.
Qed.

Lemma existsb_self (cs : list Campaign.t) (c : Campaign.t) :
  In c cs ->
  existsb (fun r => Nat.eqb (Campaign.id r) (Campaign.id c)) cs = true.
Proof.
  intros Hin. apply existsb_exists. exists c. split; [exact Hin|].
  apply Nat.eqb_refl.
Qed.

(** The batch recompute always returns; afterwards the events are the same
    and every campaign row carries the recomputed totals. *)
Lemma recalculate_spend_totals_run (now : datetime) (db : DB) :
  exists db',
    recalculate_spend_totals now db
      = (db', Ok "Spend totals recalculation completed")
    /\ spends db' = spends db
    /\ map Campaign.id (campaigns db') = map Campaign.id (campaigns db)
    /\ forall r, In r (campaigns db') ->
                 totals_recomputed (dt_date now) (spends db') r.
Proof.
  unfold recalculate_spend_totals, Campaign_objects_all, Brand_objects_all.
  unfold bind at 1, lift at 1.
  destruct (campaign_loop_run now (campaigns db) db) as (rows & Hrun & Hrows).
  { intros c. apply existsb_self. }
  unfold bind at 1. rewrite Hrun.
  unfold bind at 1, lift at 1.
  destruct (brand_loop_run now (brands db)
              (mkDB (brands db) rows (spends db))) as (brows & Hbrun).
  { intros b Hb. cbn [brands]. apply existsb_exists. exists b.
    split; [exact Hb | apply Nat.eqb_refl]. }
  cbn [brands] in *. unfold bind at 1. rewrite Hbrun. unfold ret.
  cbn [campaigns spends] in *.
  eexists. split; [reflexivity|]. cbn [spends campaigns].
  split; [reflexivity|]. split.
  - clear -Hrows. induction Hrows as [|old new l l' [Hid _] _ IH];
      [reflexivity|]. cbn [map]. now rewrite Hid, IH.
  - intros r Hr.
    destruct (Forall2_in_right _ _ _ _ Hrows Hr) as (old & Hold & _ & Hok).
    apply Hok. right. fold (Campaign.id old). now apply existsb_self.
Qed.

Lemma get_campaign_id (k : nat) (db : DB) (c : Campaign.t) :
  get_campaign k db = Ok c ->
  Campaign.id c = k
  /\ existsb (fun r => Nat.eqb (Campaign.id r) (Campaign.id c))
             (campaigns db) = true.
Proof.
  unfold get_campaign.
  destruct (find _ (campaigns db)) as [c'|] eqn:E; [|discriminate].
  intros [= ->]. apply find_some in E. destruct E as [Hin Hid].
  apply Nat.eqb_eq in Hid. split; [exact Hid|]. now apply existsb_self.
Qed.

Lemma get_brand_id (k : nat) (db : DB) (b : Brand.t) :
  get_brand k db = Ok b ->
  existsb (fun r => Nat.eqb (Brand.id r) (Brand.id b)) (brands db) = true.
Proof.
  unfold get_brand.
  destruct (find _ (brands db)) as [b'|] eqn:E; [|discriminate].
  intros [= ->]. apply find_some in E. destruct E as [Hin _].
  apply existsb_exists. exists b. split; [exact Hin | apply Nat.eqb_refl].
Qed.

(** The per-spend recompute, when the event's campaign and that campaign's
    brand have rows. *)
Lemma update_spend_totals_run (now : datetime) (self : AdSpend.t) (db : DB)
  (campaign : Campaign.t) (brand : Brand.t) :
  get_campaign (AdSpend.campaign_id self) db = Ok campaign ->
  get_brand (Campaign.brand_id campaign) db = Ok brand ->
  exists brows,
    update_spend_totals now self db =
    (mkDB brows
          (update_rows
             (fun r => Nat.eqb (Campaign.id r) (Campaign.id campaign))
             (recomputed_row now (spends db) campaign) (campaigns db))
          (spends db),
     Ok tt).
Proof.
  intros Hc Hb.
  destruct (get_campaign_id _ _ _ Hc) as [_ Hex].
  pose proof (get_brand_id _ _ _ Hb) as Hbex.
  unfold update_spend_totals, bind, lift, total_where, ret.
  rewrite Hc. unfold Campaign_save_spend. cbn. rewrite Hex.
  unfold get_brand in *. cbn [brands]. 
  destruct (find _ (brands db)) as [b|]; [|discriminate].
  injection Hb as ->.
  unfold Brand_save_spend. cbn. rewrite Hbex.
  rewrite campaign_on_total, campaign_since_total.
  eexists. reflexivity.
Qed.

Lemma in_recomputed_rows now events campaign (rows : list Campaign.t) r :
  In r (update_rows
          (fun r => Nat.eqb (Campaign.id r) (Campaign.id campaign))
          (recomputed_row now events campaign) rows) ->
  Campaign.id r = Campaign.id campaign ->
  totals_recomputed (dt_date now) events r.
Proof.
  intros Hin Hid. apply in_update_rows in Hin. destruct Hin as (r0 & _ & ->).
  destruct (Nat.eqb (Campaign.id r0) (Campaign.id campaign)) eqn:E.
  - apply Nat.eqb_eq in E. now apply recomputed_row_ok.
  - apply Nat.eqb_neq in E. contradiction.
Qed.

Lemma filter_all {A} (p : A -> bool) (l : list A) :
  (forall x, In x l -> p x = true) -> filter p l = l.
Proof.
  induction l as [|x l IH]; intros H; [reflexivity|].
  cbn. rewrite (H x (or_introl eq_refl)). f_equal. apply IH.
  intros y Hy. apply H. now right.
Qed.

Lemma date_eqb_refl (d : date) : date_eqb d d = true.
Proof. unfold date_eqb. now rewrite !Z.eqb_refl. Qed.

(** Creating an event: insert it with a fresh key and the current time,
    then recompute over the table that already holds it. *)
Lemma AdSpend_objects_create_run (now : datetime) (db : DB)
  (campaign : Campaign.t) (brand : Brand.t) (amount : Z)
  (description : string) :
  get_campaign (Campaign.id campaign) db = Ok campaign ->
  get_brand (Campaign.brand_id campaign) db = Ok brand ->
  let spend :=
    AdSpend.mk (Some (fresh_pk (spends db))) (Campaign.id campaign) amount
               now description in
  exists brows,
    AdSpend_objects_create now campaign amount description db =
    (mkDB brows
          (update_rows
             (fun r => Nat.eqb (Campaign.id r) (Campaign.id campaign))
             (recomputed_row now (spends db ++ [spend]) campaign)
             (campaigns db))
          (spends db ++ [spend]),
     Ok spend).
Proof.
  intros Hc Hb spend.
  unfold AdSpend_objects_create, AdSpend_save, Model_save.
  cbn [AdSpend.pk]. unfold bind at 1.
  change (AdSpend.with_pk_timestamp (fresh_pk (spends db)) now _)
    with spend.
  set (db1 := mkDB (brands db) (campaigns db) (spends db ++ [spend])).
  destruct (update_spend_totals_run now spend db1 campaign brand Hc Hb)
    as (brows & Hrun).
  unfold bind, ret. rewrite Hrun. exists brows. reflexivity.
Qed.


(** ** Spend recorder *)

Lemma update_status_keeps_spends (now : datetime) (self : Campaign.t)
  (db : DB) :
  spends (fst (update_status now self db)) = spends db.
Proof.
  rewrite update_status_unfold.
  destruct (get_brand (Campaign.brand_id self) db) as [brand|e];
    [|reflexivity].
  destruct (next_status now brand self) as [s|e]; [|reflexivity].
  unfold Campaign_save_status. cbn.
  destruct (existsb _ (campaigns db)); reflexivity.
Qed.

Lemma fst_except_Campaign_DoesNotExist {A} (m : M A) (e' : exn) (db : DB) :
  fst (except_Campaign_DoesNotExist m e' db) = fst (m db).
Proof.
  unfold except_Campaign_DoesNotExist.
  destruct (m db) as [db' [a|[]]]; reflexivity.
Qed.

(** X16.  Events are appended, never rewritten.  Whatever its sign, the
    amount handed to [record_ad_spend] for a campaign that exists (with its
    brand) ends up as one new event after the existing ones, which are
    unchanged, also when the status evaluation that follows raises. *)
Lemma record_ad_spend_inserts (now : datetime) (db : DB) (campaign_id : nat)
  (amount : Z) (description : string) (campaign : Campaign.t)
  (brand : Brand.t) :
  get_campaign campaign_id db = Ok campaign ->
  get_brand (Campaign.brand_id campaign) db = Ok brand ->
  spends (fst (record_ad_spend now campaign_id amount description db))
  = (spends db
     ++ [AdSpend.mk (Some (fresh_pk (spends db))) campaign_id amount now
           description])%list.
Proof.
  intros Hc Hb. unfold record_ad_spend.
  rewrite fst_except_Campaign_DoesNotExist.
  unfold bind at 1, lift at 1. rewrite Hc.
  destruct (get_campaign_id _ _ _ Hc) as [Hid _].
  assert (Hc' : get_campaign (Campaign.id campaign) db = Ok campaign)
    by now rewrite Hid.
  destruct (AdSpend_objects_create_run now db campaign brand amount
              description Hc' Hb) as (brows & Hrun).
  unfold bind at 1. rewrite Hrun, Hid.
  unfold bind at 1, lift at 1.
  match goal with
  | |- spends (fst (match get_campaign ?k ?d with _ => _ end)) = _ =>
      destruct (get_campaign k d) as [c2|e]; [|reflexivity]
  end.
  unfold bind at 1.
  pose proof (update_status_keeps_spends now c2
                (mkDB brows
                   (update_rows
                      (fun r => Nat.eqb (Campaign.id r) (Campaign.id campaign))
                      (recomputed_row now
                         (spends db
                          ++ [AdSpend.mk (Some (fresh_pk (spends db)))
                                (Campaign.id campaign) amount now
                                description]) campaign)
                      (campaigns db))
                   (spends db
                    ++ [AdSpend.mk (Some (fresh_pk (spends db)))
                          (Campaign.id campaign) amount now description])))
    as Hk.
  rewrite Hid in Hk.
  destruct (update_status now c2 _) as [db3 [c3|e]]; cbn [fst spends] in *;
    exact Hk.
Qed.

(** C4, on the code.  Recording -5.00 on an existing campaign returns the
    new event: it is in the event table and the campaign's and the brand's
    totals have moved to -5.00, although the validator declared on the
    amount column rejects the value.  An amount of zero is accepted too. *)
Theorem negative_spend_is_recorded :
  run_validators AdSpend_amount_validators (-500) = Raise ValidationError
  /\ record_ad_spend noon 1 (-500) "refund" fresh_db =
     (mkDB [Brand.with_updated_at noon
              (Brand.with_spend (-500) (-500) (acme true 0 0))]
           [Campaign.with_updated_at noon
              (Campaign.with_spend (-500) (-500) (plain_campaign 1 ACTIVE))]
           [AdSpend.mk (Some 1%nat) 1 (-500) noon "refund"],
      Ok (AdSpend.mk (Some 1%nat) 1 (-500) noon "refund"))
  /\ snd (record_ad_spend noon 1 0 "" fresh_db) =
     Ok (AdSpend.mk (Some 1%nat) 1 0 noon "").
Proof. repeat split. Qed.

(** * Further properties *)

(** ** Budget ledger *)

(** X1.  What is left of a budget is never negative, it is zero exactly when
    the budget counts as exceeded, and otherwise it is budget minus spend;
    daily and monthly alike. *)
Theorem remaining_zero_iff_exceeded :
  forall b : Brand.t,
    (0 <= Brand.daily_budget_remaining b
     /\ (Brand.daily_budget_remaining b = 0
         <-> Brand.daily_budget_exceeded b = true)
     /\ (Brand.daily_budget_exceeded b = false ->
         Brand.daily_budget_remaining b
         = Brand.daily_budget b - Brand.daily_spend b))
    /\ (0 <= Brand.monthly_budget_remaining b
        /\ (Brand.monthly_budget_remaining b = 0
            <-> Brand.monthly_budget_exceeded b = true)
        /\ (Brand.monthly_budget_exceeded b = false ->
            Brand.monthly_budget_remaining b
            = Brand.monthly_budget b - Brand.monthly_spend b)).
Proof.
  intros b.
  unfold Brand.daily_budget_remaining, Brand.monthly_budget_remaining,
    Brand.daily_budget_exceeded, Brand.monthly_budget_exceeded.
  rewrite !Z.geb_leb.
  repeat split; try lia;
    try (intros H; apply Z.leb_le; lia);
    try (intros H; apply Z.leb_le in H; lia);
    try (intros H; apply Z.leb_gt in H; lia).
Qed.

(** ** Status machine: outcomes *)

(** A run that returns: the brand was found, a status was decided, the row
    exists, and the object and the store are as the save leaves them. *)
Lemma update_status_returns (now : datetime) (self : Campaign.t)
  (db db1 : DB) (self1 : Campaign.t) :
  update_status now self db = (db1, Ok self1) ->
  exists brand s,
    get_brand (Campaign.brand_id self) db = Ok brand
    /\ next_status now brand self = Ok s
    /\ self1 = Campaign.with_updated_at now (Campaign.with_status s self)
    /\ db1 = mkDB (brands db)
               (update_rows
                  (fun r => Nat.eqb (Campaign.id r) (Campaign.id self))
                  (fun r => Campaign.with_updated_at now
                              (Campaign.with_status s r))
                  (campaigns db))
               (spends db).
Proof.
  rewrite update_status_unfold.
  destruct (get_brand (Campaign.brand_id self) db) as [brand|e] eqn:Hb;
    [|discriminate].
  destruct (next_status now brand self) as [s|e] eqn:Hn; [|discriminate].
  unfold Campaign_save_status. cbn.
  destruct (existsb _ (campaigns db)); [|discriminate].
  intros [= <- <-]. exists brand, s. repeat split. exact Hn.
Qed.

Lemma next_status_cases now brand self s :
  next_status now brand self = Ok s ->
  (s = INACTIVE /\ Brand.is_active brand = false)
  \/ (s = BUDGET_EXCEEDED /\ Brand.is_active brand = true
      /\ (Brand.daily_budget_exceeded brand = true
          \/ Brand.monthly_budget_exceeded brand = true))
  \/ (Brand.is_active brand = true
      /\ Brand.daily_budget_exceeded brand = false
      /\ Brand.monthly_budget_exceeded brand = false
      /\ ((s = DAYPARTING_PAUSED
           /\ Campaign.dayparting_enabled self = true
           /\ is_within_dayparting_window now self = Ok false)
          \/ (is_within_dayparting_window now self = Ok true
              /\ ((s = ACTIVE
                   /\ (Campaign.status self = BUDGET_EXCEEDED
                       \/ Campaign.status self = DAYPARTING_PAUSED))
                  \/ (s = Campaign.status self
                      /\ Campaign.status self <> BUDGET_EXCEEDED
                      /\ Campaign.status self <> DAYPARTING_PAUSED))))).
Proof.
  unfold next_status.
  destruct (Brand.is_active brand); cbn [negb]; [|intros [= <-]; auto].
  destruct (Brand.daily_budget_exceeded brand) eqn:Hd; cbn [orb];
    [intros [= <-]; right; left; auto|].
  destruct (Brand.monthly_budget_exceeded brand) eqn:Hm;
    [intros [= <-]; right; left; auto|].
  intros H. right. right. repeat (split; [reflexivity|]).
  assert (Hw : Campaign.dayparting_enabled self = false ->
               is_within_dayparting_window now self = Ok true).
  { intros E. unfold is_within_dayparting_window. now rewrite E. }
  destruct (Campaign.dayparting_enabled self) eqn:Hen.
  - destruct (is_within_dayparting_window now self) as [[|]|e];
      cbn [rbind negb] in H; [| |discriminate].
    + right. split; [reflexivity|].
      destruct (Campaign.status self); cbn in H; injection H as <-;
        first [ left; split; [reflexivity|]; auto; fail
              | right; repeat split; discriminate ].
    + injection H as <-. left. auto.
  - cbn [rbind] in H. right. split; [auto|].
    destruct (Campaign.status self); cbn in H; injection H as <-;
      first [ left; split; [reflexivity|]; auto; fail
            | right; repeat split; discriminate ].
Qed.

(** X2.  The machine never moves a campaign into PAUSED, and it activates
    only what it had paused itself: after a run that returns, a PAUSED
    campaign was PAUSED before, an INACTIVE one was INACTIVE before or has an
    inactive brand, and an ACTIVE one was ACTIVE, BUDGET_EXCEEDED or
    DAYPARTING_PAUSED before. *)
Theorem update_status_never_pauses :
  forall now self db db1 self1,
    update_status now self db = (db1, Ok self1) ->
    (Campaign.status self1 = PAUSED -> Campaign.status self = PAUSED)
    /\ (Campaign.status self1 = INACTIVE ->
        Campaign.status self = INACTIVE
        \/ exists brand,
             get_brand (Campaign.brand_id self) db = Ok brand
             /\ Brand.is_active brand = false)
    /\ (Campaign.status self1 = ACTIVE ->
        Campaign.status self = ACTIVE
        \/ Campaign.status self = BUDGET_EXCEEDED
        \/ Campaign.status self = DAYPARTING_PAUSED).
Proof.
  intros now self db db1 self1 H.
  destruct (update_status_returns _ _ _ _ _ H)
    as (brand & s & Hb & Hn & -> & _).
  cbn [Campaign.status Campaign.with_updated_at Campaign.with_status].
  apply next_status_cases in Hn.
  destruct Hn as [[-> Hina] | [[-> _] | (_ & _ & _ & [[-> _] | [_ Hs]])]].
  - repeat split; try discriminate. intros _. right. eauto.
  - repeat split; discriminate.
  - repeat split; discriminate.
  - destruct Hs as [[-> Hold] | [-> _]].
    + repeat split; try discriminate. intros _. tauto.
    + repeat split; auto.
Qed.

Lemma update_status_never_pauses_witness :
  Campaign.status paused_campaign = PAUSED.
Proof.
  apply (update_status_never_pauses (may_15 Wednesday 12 0) paused_campaign
           paused_db
           (mkDB [acme true 0 0]
                 [Campaign.with_updated_at (may_15 Wednesday 12 0)
                    paused_campaign] [])
           (Campaign.with_updated_at (may_15 Wednesday 12 0)
              paused_campaign)).
  - reflexivity.
  - reflexivity.
Defined.

(** X3.  A run that returns with the campaign ACTIVE found it eligible: on
    the resulting store [should_be_active] is true for the returned
    campaign. *)
Theorem active_after_run_is_eligible :
  forall now self db db1 self1,
    update_status now self db = (db1, Ok self1) ->
    Campaign.status self1 = ACTIVE ->
    should_be_active now self1 db1 = Ok true.
Proof.
  intros now self db db1 self1 H Hact.
  destruct (update_status_returns _ _ _ _ _ H)
    as (brand & s & Hb & Hn & -> & ->).
  cbn [Campaign.status Campaign.with_updated_at Campaign.with_status]
    in Hact. subst s.
  apply next_status_cases in Hn.
  destruct Hn as [[Hn _] | [[Hn _] | (Ha & Hd & Hm & [[Hn _] | [Hw _]])]];
    try discriminate.
  unfold should_be_active, get_brand in *. cbn [brands].
  cbn [Campaign.brand_id Campaign.with_updated_at Campaign.with_status].
  destruct (find _ (brands db)) as [b|]; [|discriminate].
  injection Hb as ->. cbn [rbind]. rewrite Ha, Hd, Hm. cbn [negb orb].
  unfold is_within_dayparting_window in *. cbn in *.
  destruct (Campaign.dayparting_enabled self); cbn [negb] in *;
    [rewrite Hw|]; reflexivity.
Qed.

Lemma active_after_run_is_eligible_witness :
  should_be_active noon
    (Campaign.with_updated_at noon
       (Campaign.with_status ACTIVE (plain_campaign 1 BUDGET_EXCEEDED)))
    (fst (update_status noon (plain_campaign 1 BUDGET_EXCEEDED) cleared_db))
  = Ok true.
Proof.
  apply (active_after_run_is_eligible noon (plain_campaign 1 BUDGET_EXCEEDED)
           cleared_db).
  - reflexivity.
  - reflexivity.
Defined.

Lemma run_when_eligible :
  forall now self db,
    should_be_active now self db = Ok true ->
    stored self db ->
    exists db1 self1,
      update_status now self db = (db1, Ok self1)
      /\ Campaign.status self1 = ACTIVE
      /\ (forall r, In r (campaigns db1) ->
                    Campaign.id r = Campaign.id self ->
                    Campaign.status r = ACTIVE).
Proof.
  intros now self db Hsba Hs.
  rewrite update_status_unfold. unfold should_be_active in Hsba.
  destruct (get_brand (Campaign.brand_id self) db) as [brand|e];
    [|discriminate].
  cbn [rbind] in Hsba. unfold next_status.
  destruct (negb (Brand.is_active brand)); [discriminate|].
  destruct (Brand.daily_budget_exceeded brand
            || Brand.monthly_budget_exceeded brand); [discriminate|].
  destruct (if Campaign.dayparting_enabled self then _ else _)
    as [[|]|e]; cbn [rbind] in *; try discriminate.
  assert (Hnew : exists s,
             (if status_in (Campaign.status self)
                   [BUDGET_EXCEEDED; DAYPARTING_PAUSED]
              then Ok ACTIVE else Ok (Campaign.status self)) = Ok s
             /\ s = ACTIVE).
  { destruct (Campaign.status self); cbn in *; try discriminate; eauto. }
  destruct Hnew as (s & -> & ->).
  rewrite save_status_stored by exact Hs.
  eexists _, _. split; [reflexivity|]. split; [reflexivity|].
  intros r Hin Hid. cbn [campaigns] in Hin.
  now apply saved_rows_status in Hin.
Qed.

(** X4.  When [should_be_active] is true for a stored campaign, a run of the
    status machine returns and the campaign is ACTIVE afterwards, in the
    object and in its row. *)
Theorem eligible_campaign_is_activated :
  forall now self db,
    should_be_active now self db = Ok true ->
    stored self db ->
    exists db1 self1,
      update_status now self db = (db1, Ok self1)
      /\ Campaign.status self1 = ACTIVE
      /\ (forall r, In r (campaigns db1) ->
                    Campaign.id r = Campaign.id self ->
                    Campaign.status r = ACTIVE).
Proof. exact run_when_eligible. Qed.

Lemma eligible_campaign_is_activated_witness :
  exists db1 self1,
    update_status noon (plain_campaign 1 BUDGET_EXCEEDED) cleared_db
      = (db1, Ok self1)
    /\ Campaign.status self1 = ACTIVE
    /\ (forall r, In r (campaigns db1) ->
                  Campaign.id r = Campaign.id (plain_campaign 1 BUDGET_EXCEEDED) ->
                  Campaign.status r = ACTIVE).
Proof.
  apply (eligible_campaign_is_activated noon
           (plain_campaign 1 BUDGET_EXCEEDED) cleared_db).
  - reflexivity.
  - exists (plain_campaign 1 BUDGET_EXCEEDED). split; [left|]; reflexivity.
Defined.

Lemma run_when_over_budget :
  forall now db self brand,
    get_brand (Campaign.brand_id self) db = Ok brand ->
    Brand.is_active brand = true ->
    Brand.daily_budget_exceeded brand = true
    \/ Brand.monthly_budget_exceeded brand = true ->
    stored self db ->
    exists db1 self1,
      update_status now self db = (db1, Ok self1)
      /\ Campaign.status self1 = BUDGET_EXCEEDED
      /\ (forall r, In r (campaigns db1) ->
                    Campaign.id r = Campaign.id self ->
                    Campaign.status r = BUDGET_EXCEEDED).
Proof.
  intros now db self brand Hb Ha Hex Hs.
  rewrite update_status_unfold, Hb. unfold next_status. rewrite Ha.
  cbn [negb].
  replace (Brand.daily_budget_exceeded brand
           || Brand.monthly_budget_exceeded brand) with true
    by (destruct Hex as [-> | ->]; [reflexivity | now rewrite orb_true_r]).
  rewrite save_status_stored by exact Hs.
  eexists _, _. split; [reflexivity|]. split; [reflexivity|].
  intros r Hin Hid. cbn [campaigns] in Hin.
  now apply saved_rows_status in Hin.
Qed.

(** X5.  An active brand over its daily or monthly budget turns every stored
    campaign BUDGET_EXCEEDED, whatever its status was (PAUSED and INACTIVE
    included) and whatever its dayparting schedule holds: the schedule is not
    read. *)
Theorem exceeded_budget_overrides_status :
  forall now db self brand,
    get_brand (Campaign.brand_id self) db = Ok brand ->
    Brand.is_active brand = true ->
    Brand.daily_budget_exceeded brand = true
    \/ Brand.monthly_budget_exceeded brand = true ->
    stored self db ->
    exists db1 self1,
      update_status now self db = (db1, Ok self1)
      /\ Campaign.status self1 = BUDGET_EXCEEDED
      /\ (forall r, In r (campaigns db1) ->
                    Campaign.id r = Campaign.id self ->
                    Campaign.status r = BUDGET_EXCEEDED).
Proof. exact run_when_over_budget. Qed.

Lemma exceeded_budget_overrides_status_witness :
  exists db1 self1,
    update_status noon paused_campaign spent_db = (db1, Ok self1)
    /\ Campaign.status self1 = BUDGET_EXCEEDED
    /\ (forall r, In r (campaigns db1) ->
                  Campaign.id r = Campaign.id paused_campaign ->
                  Campaign.status r = BUDGET_EXCEEDED).
Proof.
  apply (exceeded_budget_overrides_status noon spent_db paused_campaign
           (acme true 10000 10000)).
  - reflexivity.
  - reflexivity.
  - left. reflexivity.
  - exists paused_campaign. split; [left|]; reflexivity.
Defined.

(** X6.  A manual pause does not survive a budget excess.  Evaluated while
    the brand is over budget, a PAUSED campaign becomes BUDGET_EXCEEDED; the
    campaign so returned, evaluated on any later store in which its brand is
    active, under both budgets and its window is open, becomes ACTIVE. *)
Theorem pause_lost_after_budget_excess :
  forall now db self brand,
    Campaign.status self = PAUSED ->
    get_brand (Campaign.brand_id self) db = Ok brand ->
    Brand.is_active brand = true ->
    Brand.daily_budget_exceeded brand = true
    \/ Brand.monthly_budget_exceeded brand = true ->
    stored self db ->
    exists db1 self1,
      update_status now self db = (db1, Ok self1)
      /\ Campaign.status self1 = BUDGET_EXCEEDED
      /\ forall later db2 brand2,
           get_brand (Campaign.brand_id self1) db2 = Ok brand2 ->
           Brand.is_active brand2 = true ->
           Brand.daily_budget_exceeded brand2 = false ->
           Brand.monthly_budget_exceeded brand2 = false ->
           is_within_dayparting_window later self1 = Ok true ->
           stored self1 db2 ->
           exists db3 self3,
             update_status later self1 db2 = (db3, Ok self3)
             /\ Campaign.status self3 = ACTIVE.
Proof.
  intros now db self brand _ Hb Ha Hex Hs.
  destruct (run_when_over_budget now db self brand Hb Ha Hex Hs)
    as (db1 & self1 & Hrun & Hst & _).
  exists db1, self1. split; [exact Hrun|]. split; [exact Hst|].
  intros later db2 brand2 Hb2 Ha2 Hd2 Hm2 Hw2 Hs2.
  destruct (run_when_eligible later self1 db2)
    as (db3 & self3 & Hrun3 & Hst3 & _).
  - unfold should_be_active. rewrite Hb2. cbn [rbind].
    rewrite Ha2, Hd2, Hm2, Hw2, Hst. cbn [negb orb rbind].
    now destruct (Campaign.dayparting_enabled self1).
  - exact Hs2.
  - exists db3, self3. auto.
Qed.

Lemma pause_lost_after_budget_excess_witness :
  exists db1 self1,
    update_status noon paused_campaign spent_db = (db1, Ok self1)
    /\ Campaign.status self1 = BUDGET_EXCEEDED
    /\ forall later db2 brand2,
         get_brand (Campaign.brand_id self1) db2 = Ok brand2 ->
         Brand.is_active brand2 = true ->
         Brand.daily_budget_exceeded brand2 = false ->
         Brand.monthly_budget_exceeded brand2 = false ->
         is_within_dayparting_window later self1 = Ok true ->
         stored self1 db2 ->
         exists db3 self3,
           update_status later self1 db2 = (db3, Ok self3)
           /\ Campaign.status self3 = ACTIVE.
Proof.
  apply (pause_lost_after_budget_excess noon spent_db paused_campaign
           (acme true 10000 10000)).
  - reflexivity.
  - reflexivity.
  - reflexivity.
  - left. reflexivity.
  - exists paused_campaign. split; [left|]; reflexivity.
Defined.

(** X7.  A run of the status machine that raises (brand row missing,
    schedule that cannot be read, campaign row missing) has written nothing:
    the store is as it was. *)
Theorem failed_run_writes_nothing :
  forall now self db e,
    snd (update_status now self db) = Raise e ->
    fst (update_status now self db) = db.
Proof.
  intros now self db e. rewrite update_status_unfold.
  destruct (get_brand (Campaign.brand_id self) db) as [brand|e0];
    [|reflexivity].
  destruct (next_status now brand self) as [s|e0]; [|reflexivity].
  unfold Campaign_save_status. cbn.
  destruct (existsb _ (campaigns db)); [discriminate | reflexivity].
Qed.

Lemma failed_run_writes_nothing_witness :
  fst (update_status (may_15 Wednesday 10 0) no_start_campaign malformed_db)
  = malformed_db.
Proof.
  apply (failed_run_writes_nothing (may_15 Wednesday 10 0) no_start_campaign
           malformed_db KeyError).
  reflexivity.
Defined.

(** ** Dayparting: order of time and of windows *)

Lemma leb_iff_compare (a b : string) :
  String.leb a b = true <-> String.compare a b <> Gt.
Proof.
  unfold String.leb. destruct (String.compare a b); split;
    congruence.
Qed.

Lemma compare_lt_trans (a b c : string) :
  String.compare a b = Lt -> String.compare b c = Lt ->
  String.compare a c = Lt.
Proof.
  intros H1 H2.
  apply OrderedTypeEx.String_as_OT.cmp_lt in H1, H2.
  apply OrderedTypeEx.String_as_OT.cmp_lt.
  eapply OrderedTypeEx.String_as_OT.lt_trans; eassumption.
Qed.

Lemma leb_trans (a b c : string) :
  String.leb a b = true -> String.leb b c = true -> String.leb a c = true.
Proof.
  rewrite !leb_iff_compare. intros H1 H2.
  destruct (String.compare a b) eqn:E1; [| |congruence].
  - apply String.compare_eq_iff in E1. now subst.
  - destruct (String.compare b c) eqn:E2; [| |congruence].
    + apply String.compare_eq_iff in E2. subst. now rewrite E1.
    + now rewrite (compare_lt_trans _ _ _ E1 E2).
Qed.

(** X8.  A window whose end sorts before its start (an overnight window such
    as 22:00 to 06:00) admits no time at all: when every window listed for
    the day is of that kind, the evaluator answers false at any time. *)
Theorem overnight_windows_never_open :
  forall now self ws,
    Campaign.dayparting_enabled self = true ->
    py_get (Campaign.dayparting_schedule self)
           (lower (strftime_A (dt_weekday now))) (PyList []) =
      Ok (PyList ws) ->
    Forall (fun w => exists s e,
                window_bounds w = Some (s, e) /\ String.leb s e = false) ws ->
    is_within_dayparting_window now self = Ok false.
Proof.
  intros now self ws Hen Hget Hall.
  unfold is_within_dayparting_window. rewrite Hen, Hget.
  cbn [negb rbind py_iter].
  rewrite any_window_well_formed.
  - f_equal. apply not_true_is_false. intros H.
    apply existsb_inside_iff in H.
    destruct H as (w & s & e & Hin & Hb & Hs & He).
    rewrite Forall_forall in Hall.
    destruct (Hall w Hin) as (s' & e' & Hb' & Hse).
    rewrite Hb in Hb'. injection Hb' as <- <-.
    rewrite (leb_trans _ _ _ Hs He) in Hse. discriminate.
  - revert Hall. apply Forall_impl. intros w (s & e & -> & _). discriminate.
Qed.

Lemma overnight_windows_never_open_witness :
  is_within_dayparting_window (may_15 Friday 23 30) night_campaign = Ok false.
Proof.
  apply (overnight_windows_never_open (may_15 Friday 23 30) night_campaign
           [window "22:00" "06:00"]).
  - reflexivity.
  - reflexivity.
  - repeat constructor. exists "22:00", "06:00". split; reflexivity.
Defined.

Lemma existsb_Permutation {A} (f : A -> bool) (l l' : list A) :
  Permutation l l' -> existsb f l = existsb f l'.
Proof.
  induction 1 as [|x l l' _ IH|x y l|l l' l'' _ IH1 _ IH2]; cbn.
  - reflexivity.
  - now rewrite IH.
  - now rewrite !orb_assoc, (orb_comm (f y)).
  - now rewrite IH1.
Qed.

(** X9.  The order of the windows of a day does not matter: two campaigns
    whose lists for the current weekday are permutations of each other, all
    windows carrying both bounds, get the same answer. *)
Theorem window_order_irrelevant :
  forall now self self' ws ws',
    Campaign.dayparting_enabled self = true ->
    Campaign.dayparting_enabled self' = true ->
    py_get (Campaign.dayparting_schedule self)
           (lower (strftime_A (dt_weekday now))) (PyList []) =
      Ok (PyList ws) ->
    py_get (Campaign.dayparting_schedule self')
           (lower (strftime_A (dt_weekday now))) (PyList []) =
      Ok (PyList ws') ->
    Permutation ws ws' ->
    Forall (fun w => window_bounds w <> None) ws ->
    is_within_dayparting_window now self
    = is_within_dayparting_window now self'.
Proof.
  intros now self self' ws ws' Hen Hen' Hget Hget' Hperm Hwf.
  unfold is_within_dayparting_window.
  rewrite Hen, Hen', Hget, Hget'. cbn [negb rbind py_iter].
  rewrite !any_window_well_formed.
  - f_equal. now apply existsb_Permutation.
  - eapply Permutation_Forall; eassumption.
  - exact Hwf.
Qed.

Lemma window_order_irrelevant_witness :
  is_within_dayparting_window (may_15 Friday 15 0) (split_shift false)
  = is_within_dayparting_window (may_15 Friday 15 0) (split_shift true).
Proof.
  apply (window_order_irrelevant (may_15 Friday 15 0) (split_shift false)
           (split_shift true)
           [window "08:00" "12:00"; window "14:00" "18:00"]
           [window "14:00" "18:00"; window "08:00" "12:00"]).
  - reflexivity.
  - reflexivity.
  - reflexivity.
  - reflexivity.
  - apply perm_swap.
  - repeat constructor; discriminate.
Defined.

Lemma compare_append (a c x y : string) :
  String.length a = String.length c ->
  String.compare (a ++ x) (c ++ y) =
  match String.compare a c with
  | Eq => String.compare x y
  | r => r
  end.
Proof.
  revert c. induction a as [|ca a IH]; intros [|cc c] Hlen;
    try discriminate; [reflexivity|].
  cbn [String.append String.compare].
  destruct (Ascii.compare ca cc); [|reflexivity|reflexivity].
  apply IH. now injection Hlen.
Qed.

Lemma two_digits_sorted_60 : two_digits_sorted_below 60 = true.
Proof. vm_compute. reflexivity. Qed.

Lemma two_digits_compare (a b : nat) :
  (a < 60)%nat -> (b < 60)%nat ->
  String.compare (two_digits a) (two_digits b) = Nat.compare a b.
Proof.
  intros Ha Hb. pose proof two_digits_sorted_60 as H.
  unfold two_digits_sorted_below in H.
  rewrite forallb_forall in H.
  specialize (H a ltac:(apply in_seq; lia)).
  rewrite forallb_forall in H.
  specialize (H b ltac:(apply in_seq; lia)).
  destruct (String.compare (two_digits a) (two_digits b)),
    (Nat.compare a b); congruence.
Qed.

(** X10.  On clock readings (hour below 24, minute below 60) the lexical
    order of the "HH:MM" strings is the order of time: one string sorts at or
    before the other exactly when its time of day is not later. *)
Theorem clock_strings_sort_by_time :
  forall t1 t2,
    (dt_hour t1 < 24)%nat -> (dt_minute t1 < 60)%nat ->
    (dt_hour t2 < 24)%nat -> (dt_minute t2 < 60)%nat ->
    (String.leb (strftime_HM t1) (strftime_HM t2) = true
     <-> (minute_of_day t1 <= minute_of_day t2)%nat).
Proof.
  intros t1 t2 Hh1 Hm1 Hh2 Hm2.
  unfold strftime_HM, minute_of_day, String.leb.
  rewrite compare_append by reflexivity.
  rewrite two_digits_compare by lia.
  destruct (Nat.compare_spec (dt_hour t1) (dt_hour t2)) as [E|E|E].
  - rewrite compare_append by reflexivity.
    change (String.compare ":" ":") with Eq.
    rewrite two_digits_compare by lia.
    destruct (Nat.compare_spec (dt_minute t1) (dt_minute t2));
      split; intros; try lia; try reflexivity; try discriminate.
  - split; intros; [lia | reflexivity].
  - split; intros; [discriminate | lia].
Qed.

Lemma clock_strings_sort_by_time_witness :
  String.leb (strftime_HM (may_15 Friday 9 5)) (strftime_HM (may_15 Friday 17 0))
    = true
  <-> (minute_of_day (may_15 Friday 9 5) <= minute_of_day (may_15 Friday 17 0))%nat.
Proof.
  apply (clock_strings_sort_by_time (may_15 Friday 9 5) (may_15 Friday 17 0));
    cbn; lia.
Defined.

(** ** Brand totals *)

Lemma brand_on_total (db : DB) (b : Brand.t) (today : date) :
  or_zero (aggregate_Sum (filter (brand_on db b today) (spends db)))
  = sum_amounts (filter (dated_today today) (events_of_brand db (Brand.id b))).
Proof.
  rewrite or_zero_aggregate_Sum. unfold events_of_brand.
  now rewrite filter_filter.
Qed.

Lemma brand_since_total (db : DB) (b : Brand.t) (today : date) :
  or_zero (aggregate_Sum (filter (brand_since db b (replace_day_1 today))
                            (spends db)))
  = sum_amounts
      (filter (dated_this_month today) (events_of_brand db (Brand.id b))).
Proof.
  rewrite or_zero_aggregate_Sum. unfold events_of_brand.
  now rewrite filter_filter.
Qed.

Lemma recalculate_brand_exact (now : datetime) (b : Brand.t) (db : DB) :
  existsb (fun r => Nat.eqb (Brand.id r) (Brand.id b)) (brands db) = true ->
  recalculate_brand now b db =
  (mkDB (update_rows (fun r => Nat.eqb (Brand.id r) (Brand.id b))
           (recomputed_brand_row now db b) (brands db))
        (campaigns db) (spends db),
   Ok tt).
Proof.
  intros Hex.
  unfold recalculate_brand, total_where, bind, lift, ret, Brand_save_spend.
  cbn. rewrite Hex. rewrite brand_on_total, brand_since_total. reflexivity.
Qed.

(** Brand totals look at the campaign table only through ids and brands. *)
Lemma events_of_brand_ext (db db' : DB) (k : nat) :
  spends db' = spends db ->
  map (fun c => (Campaign.id c, Campaign.brand_id c)) (campaigns db')
  = map (fun c => (Campaign.id c, Campaign.brand_id c)) (campaigns db) ->
  events_of_brand db' k = events_of_brand db k.
Proof.
  intros Hs Hc. unfold events_of_brand. rewrite Hs.
  apply filter_ext. intros e.
  assert (G : forall l l' : list Campaign.t,
             map (fun c => (Campaign.id c, Campaign.brand_id c)) l'
             = map (fun c => (Campaign.id c, Campaign.brand_id c)) l ->
             existsb (fun c => Nat.eqb (Campaign.id c) (AdSpend.campaign_id e)
                               && Nat.eqb (Campaign.brand_id c) k) l'
             = existsb (fun c => Nat.eqb (Campaign.id c)
                                         (AdSpend.campaign_id e)
                                 && Nat.eqb (Campaign.brand_id c) k) l).
  { clear. induction l as [|c l IH]; intros [|c' l'] H; try discriminate;
      [reflexivity|].
    cbn in *. injection H as H1 H2 H3. now rewrite H1, H2, (IH _ H3). }
  now apply G.
Qed.

Lemma recomputed_brand_row_ok now db b r :
  Brand.id r = Brand.id b ->
  brand_totals_recomputed (dt_date now) db (recomputed_brand_row now db b r).
Proof.
  intros Hid. unfold brand_totals_recomputed, recomputed_brand_row. cbn.
  now rewrite Hid.
Qed.

(** The brand loop of the batch recompute, with what it stores. *)
Lemma brand_loop_exact (now : datetime) (bs : list Brand.t) :
  forall db,
    (forall b, In b bs ->
       existsb (fun r => Nat.eqb (Brand.id r) (Brand.id b)) (brands db)
         = true) ->
    exists rows,
      for_each bs (fun _ brand => recalculate_brand now brand) tt db
        = (mkDB rows (campaigns db) (spends db), Ok tt)
      /\ Forall2
           (fun old new =>
              Brand.id new = Brand.id old
              /\ (brand_totals_recomputed (dt_date now) db old
                  \/ existsb (fun b => Nat.eqb (Brand.id b) (Brand.id old))
                             bs = true ->
                  brand_totals_recomputed (dt_date now) db new))
           (brands db) rows.
Proof.
  induction bs as [|b bs IH]; intros db Hall.
  - exists (brands db). split; [now destruct db|].
    apply Forall2_same. intros r. split; [reflexivity|].
    intros [H|H]; [exact H | discriminate].
  - cbn [for_each]. unfold bind.
    rewrite recalculate_brand_exact by (apply Hall; now left).
    set (p := fun r => Nat.eqb (Brand.id r) (Brand.id b)).
    set (g := recomputed_brand_row now db b).
    set (db1 := mkDB (update_rows p g (brands db)) (campaigns db) (spends db)).
    destruct (IH db1) as (rows & Hrun & Hrows).
    { intros b' Hb'. cbn [brands db1].
      rewrite existsb_update_rows by reflexivity.
      apply Hall. now right. }
    cbn [brands campaigns spends db1] in Hrun, Hrows.
    exists rows. split; [exact Hrun|].
    unfold update_rows in Hrows. apply Forall2_map_left in Hrows.
    revert Hrows. apply Forall2_weaken.
    intros old new [Hid Hnew]. subst p g. cbn beta in Hid, Hnew.
    assert (Hsame : forall x,
               brand_totals_recomputed (dt_date now) db1 x
               <-> brand_totals_recomputed (dt_date now) db x).
    { intros x. unfold brand_totals_recomputed.
      now rewrite (events_of_brand_ext db db1). }
    destruct (Nat.eqb (Brand.id old) (Brand.id b)) eqn:E.
    + apply Nat.eqb_eq in E. split; [exact Hid|]. intros _.
      apply Hsame, Hnew. left. apply Hsame.
      now apply recomputed_brand_row_ok.
    + split; [exact Hid|]. intros [H|H]; apply Hsame, Hnew.
      * left. now apply Hsame.
      * right. cbn [existsb] in H. rewrite Nat.eqb_sym, E in H. exact H.
Qed.

Lemma brand_totals_same_events today (db db' : DB) (b : Brand.t) :
  spends db' = spends db ->
  campaigns db' = campaigns db ->
  brand_totals_recomputed today db b ->
  brand_totals_recomputed today db' b.
Proof.
  intros Hs Hc. unfold brand_totals_recomputed.
  now rewrite (events_of_brand_ext db db') by (now rewrite ?Hs, ?Hc).
Qed.

(** The batch recompute, both loops, with the tables it leaves. *)
Lemma recalculate_spend_totals_tables (now : datetime) (db : DB) :
  exists brows crows,
    recalculate_spend_totals now db
      = (mkDB brows crows (spends db),
         Ok "Spend totals recalculation completed")
    /\ (forall r, In r crows ->
                  totals_recomputed (dt_date now) (spends db) r)
    /\ (forall b, In b brows ->
                  brand_totals_recomputed (dt_date now)
                    (mkDB brows crows (spends db)) b).
Proof.
  unfold recalculate_spend_totals, Campaign_objects_all, Brand_objects_all.
  unfold bind at 1, lift at 1.
  destruct (campaign_loop_run now (campaigns db) db) as (crows & Hrun & Hrows).
  { intros c. apply existsb_self. }
  unfold bind at 1. rewrite Hrun.
  unfold bind at 1, lift at 1.
  destruct (brand_loop_exact now (brands db)
              (mkDB (brands db) crows (spends db))) as (brows & Hbrun & Hbrows).
  { intros b Hb. cbn [brands]. apply existsb_exists. exists b.
    split; [exact Hb | apply Nat.eqb_refl]. }
  cbn [brands campaigns spends] in *. unfold bind at 1. rewrite Hbrun.
  unfold ret. exists brows, crows. split; [reflexivity|]. split.
  - intros r Hr.
    destruct (Forall2_in_right _ _ _ _ Hrows Hr) as (old & Hold & _ & Hok).
    apply Hok. right. now apply existsb_self.
  - intros b Hb.
    destruct (Forall2_in_right _ _ _ _ Hbrows Hb) as (old & Hold & _ & Hok).
    apply (brand_totals_same_events _
             (mkDB (brands db) crows (spends db))); [reflexivity..|].
    apply Hok. right. apply existsb_exists. exists old.
    split; [exact Hold | apply Nat.eqb_refl].
Qed.

Lemma find_update_rows {A} (p : A -> bool) (f : A -> A) (l : list A) :
  (forall r, p (f r) = p r) ->
  find p (update_rows p f l) = option_map f (find p l).
Proof.
  intros Hp. unfold update_rows. induction l as [|r l IH]; [reflexivity|].
  cbn [map find]. destruct (p r) eqn:E.
  - now rewrite Hp, E.
  - now rewrite E.
Qed.

Lemma get_brand_key (k : nat) (db : DB) (b : Brand.t) :
  get_brand k db = Ok b -> Brand.id b = k.
Proof.
  unfold get_brand.
  destruct (find _ (brands db)) as [b'|] eqn:E; [|discriminate].
  intros [= ->]. apply find_some in E. now apply Nat.eqb_eq.
Qed.

(** The per-spend recompute with both tables it leaves. *)
Lemma update_spend_totals_tables (now : datetime) (self : AdSpend.t)
  (db : DB) (campaign : Campaign.t) (brand : Brand.t) :
  get_campaign (AdSpend.campaign_id self) db = Ok campaign ->
  get_brand (Campaign.brand_id campaign) db = Ok brand ->
  update_spend_totals now self db =
  (mkDB (update_rows (fun r => Nat.eqb (Brand.id r) (Brand.id brand))
           (recomputed_brand_row now db brand) (brands db))
        (update_rows
           (fun r => Nat.eqb (Campaign.id r) (Campaign.id campaign))
           (recomputed_row now (spends db) campaign) (campaigns db))
        (spends db),
   Ok tt).
Proof.
  intros Hc Hb.
  destruct (get_campaign_id _ _ _ Hc) as [_ Hex].
  pose proof (get_brand_id _ _ _ Hb) as Hbex.
  unfold update_spend_totals, bind, lift, total_where, ret.
  rewrite Hc. unfold Campaign_save_spend. cbn. rewrite Hex.
  unfold get_brand in *. cbn [brands].
  destruct (find _ (brands db)) as [b|]; [|discriminate].
  injection Hb as ->.
  unfold Brand_save_spend. cbn. rewrite Hbex.
  rewrite campaign_on_total, campaign_since_total.
  set (db1 := mkDB (brands db) (update_rows _ _ (campaigns db)) (spends db)).
  assert (Hev : events_of_brand db1 (Brand.id brand)
                = events_of_brand db (Brand.id brand)).
  { apply events_of_brand_ext; [reflexivity|].
    subst db1. cbn [campaigns]. unfold update_rows. rewrite map_map.
    apply map_ext. intros r.
    now destruct (Nat.eqb (Campaign.id r) (Campaign.id campaign)). }
  pose proof (brand_on_total db1 brand (dt_date now)) as HD.
  pose proof (brand_since_total db1 brand (dt_date now)) as HM.
  rewrite Hev in HD, HM. cbn [spends db1] in HD, HM.
  rewrite HD, HM. reflexivity.
Qed.




(** ** Day inside month *)

Lemma today_is_this_month (today d : date) :
  1 <= day today -> date_eqb d today = true ->
  date_geb d (mkdate (year today) (month today) 1) = true.
Proof.
  unfold date_eqb, date_geb. cbn [year month day]. intros Hday H.
  apply andb_true_iff in H. destruct H as [H Hd].
  apply andb_true_iff in H. destruct H as [Hy Hm].
  apply Z.eqb_eq in Hy, Hm, Hd. rewrite Hy, Hm, Hd, !Z.eqb_refl.
  replace (1 <=? day today) with true by (symmetry; apply Z.leb_le; lia).
  cbn. now rewrite !orb_true_r.
Qed.

Lemma sum_amounts_filter_le (p q : AdSpend.t -> bool) (l : list AdSpend.t) :
  (forall e, In e l -> 0 <= AdSpend.amount e) ->
  (forall e, In e l -> p e = true -> q e = true) ->
  sum_amounts (filter p l) <= sum_amounts (filter q l).
Proof.
  unfold sum_amounts.
  induction l as [|e l IH]; intros Hpos Hpq; [reflexivity|].
  assert (IH' : fold_right (fun r acc => AdSpend.amount r + acc) 0 (filter p l)
                <= fold_right (fun r acc => AdSpend.amount r + acc) 0
                     (filter q l)).
  { apply IH; intros; [apply Hpos | apply Hpq]; auto; now right. }
  pose proof (Hpos e (or_introl eq_refl)) as He.
  pose proof (Hpq e (or_introl eq_refl)) as Hpqe.
  cbn [filter]. destruct (p e).
  - rewrite Hpqe by reflexivity. cbn [fold_right]. lia.
  - destruct (q e); cbn [fold_right]; lia.
Qed.

(** X12.  After the batch recompute on a valid calendar day, with no
    negative amount among the events, every campaign's [daily_spend] is at
    most its [monthly_spend]. *)
Theorem daily_spend_within_monthly :
  forall now db,
    1 <= day (dt_date now) ->
    (forall e, In e (spends db) -> 0 <= AdSpend.amount e) ->
    forall r,
      In r (campaigns (fst (recalculate_spend_totals now db))) ->
      Campaign.daily_spend r <= Campaign.monthly_spend r.
Proof.
  intros now db Hday Hpos r Hr.
  destruct (recalculate_spend_totals_tables now db)
    as (brows & crows & Hrun & Hc & _).
  rewrite Hrun in Hr. cbn [fst campaigns] in Hr.
  destruct (Hc r Hr) as [-> ->].
  apply sum_amounts_filter_le.
  - intros e He. apply Hpos. unfold events_of in He.
    now apply filter_In in He.
  - intros e _. unfold dated_today, dated_this_month.
    now apply today_is_this_month.
Qed.

Lemma daily_spend_within_monthly_witness :
  Campaign.daily_spend
    (Campaign.with_updated_at may_1
       (Campaign.with_spend 0 0 (plain_campaign 1 BUDGET_EXCEEDED)))
  <= Campaign.monthly_spend
       (Campaign.with_updated_at may_1
          (Campaign.with_spend 0 0 (plain_campaign 1 BUDGET_EXCEEDED))).
Proof.
  apply (daily_spend_within_monthly may_1 month_end_db).
  - cbn. lia.
  - intros e [<-|[]]. cbn. lia.
  - left. reflexivity.
Defined.

(** X13.  On a valid calendar day [d], every event that [for_date d] keeps
    is kept by [for_month] of the first of [d]'s month. *)
Theorem for_date_within_for_month :
  forall d qs e,
    1 <= day d ->
    In e (for_date d qs) -> In e (for_month (replace_day_1 d) qs).
Proof.
  intros d qs e Hday. unfold for_date, for_month. rewrite !filter_In.
  intros [Hin Hd]. split; [exact Hin|].
  now apply today_is_this_month.
Qed.

Lemma for_date_within_for_month_witness :
  In (AdSpend.mk (Some 1%nat) 1 100000 apr_30 "launch")
     (for_month (replace_day_1 (dt_date apr_30)) (spends month_end_db)).
Proof.
  apply (for_date_within_for_month (dt_date apr_30) (spends month_end_db)).
  - cbn. lia.
  - cbn. left. reflexivity.
Defined.

(** ** Saving and recording events *)

(** X14.  Saving an event that already has a primary key recomputes
    nothing: the brand and campaign tables are untouched, whatever amount the
    event now carries, and the call returns. *)
Theorem saving_existing_event_keeps_totals :
  forall now self db k,
    AdSpend.pk self = Some k ->
    brands (fst (AdSpend_save now self db)) = brands db
    /\ campaigns (fst (AdSpend_save now self db)) = campaigns db
    /\ exists saved, snd (AdSpend_save now self db) = Ok saved.
Proof.
  intros now self db k Hk.
  unfold AdSpend_save, Model_save, bind, ret. rewrite Hk.
  destruct (existsb (pk_is k) (spends db)); cbn; eauto.
Qed.

Lemma saving_existing_event_keeps_totals_witness :
  brands (fst (AdSpend_save may_1
                 (AdSpend.mk (Some 1%nat) 1 5 apr_30 "launch") month_end_db))
    = brands month_end_db
  /\ campaigns (fst (AdSpend_save may_1
                       (AdSpend.mk (Some 1%nat) 1 5 apr_30 "launch")
                       month_end_db))
     = campaigns month_end_db
  /\ exists saved,
       snd (AdSpend_save may_1
              (AdSpend.mk (Some 1%nat) 1 5 apr_30 "launch") month_end_db)
       = Ok saved.
Proof.
  apply (saving_existing_event_keeps_totals may_1
           (AdSpend.mk (Some 1%nat) 1 5 apr_30 "launch") month_end_db 1%nat).
  reflexivity.
Defined.

(** X15.  Recording spend for a campaign id that has no row raises
    [ValueError] and leaves the store exactly as it was. *)
Theorem unknown_campaign_is_a_value_error :
  forall now db campaign_id amount description,
    (forall c, In c (campaigns db) -> Campaign.id c <> campaign_id) ->
    record_ad_spend now campaign_id amount description db
    = (db, Raise ValueError).
Proof.
  intros now db campaign_id amount description Hno.
  unfold record_ad_spend, except_Campaign_DoesNotExist, bind, lift,
    get_campaign.
  destruct (find _ (campaigns db)) as [c|] eqn:E; [|reflexivity].
  apply find_some in E. destruct E as [Hin Hid].
  apply Nat.eqb_eq in Hid. now apply Hno in Hin.
Qed.

Lemma unknown_campaign_is_a_value_error_witness :
  record_ad_spend noon 7 2500 "banner" fresh_db
  = (fresh_db, Raise ValueError).
Proof.
  apply (unknown_campaign_is_a_value_error noon fresh_db 7%nat 2500 "banner").
  intros c [<-|[]]. discriminate.
Defined.

Lemma record_ad_spend_inserts_witness :
  spends (fst (record_ad_spend noon 1 2500 "banner" fresh_db))
  = (spends fresh_db
     ++ [AdSpend.mk (Some (fresh_pk (spends fresh_db))) 1 2500 noon
           "banner"])%list.
Proof.
  apply (record_ad_spend_inserts noon fresh_db 1%nat 2500 "banner"
           (plain_campaign 1 ACTIVE) (acme true 0 0)).
  - reflexivity.
  - reflexivity.
Defined.

Lemma sum_amounts_app (l l' : list AdSpend.t) :
  sum_amounts (l ++ l') = sum_amounts l + sum_amounts l'.
Proof.
  unfold sum_amounts. induction l as [|e l IH]; cbn [app fold_right]; lia.
Qed.

(** Creating an event, with both tables it leaves. *)
Lemma AdSpend_objects_create_tables (now : datetime) (db : DB)
  (campaign : Campaign.t) (brand : Brand.t) (amount : Z)
  (description : string) :
  get_campaign (Campaign.id campaign) db = Ok campaign ->
  get_brand (Campaign.brand_id campaign) db = Ok brand ->
  let spend :=
    AdSpend.mk (Some (fresh_pk (spends db))) (Campaign.id campaign) amount
               now description in
  let db1 := mkDB (brands db) (campaigns db) (spends db ++ [spend]) in
  AdSpend_objects_create now campaign amount description db =
  (mkDB (update_rows (fun r => Nat.eqb (Brand.id r) (Brand.id brand))
           (recomputed_brand_row now db1 brand) (brands db))
        (update_rows
           (fun r => Nat.eqb (Campaign.id r) (Campaign.id campaign))
           (recomputed_row now (spends db1) campaign) (campaigns db))
        (spends db1),
   Ok spend).
Proof.
  intros Hc Hb spend db1.
  unfold AdSpend_objects_create, AdSpend_save, Model_save.
  cbn [AdSpend.pk]. unfold bind at 1.
  change (AdSpend.with_pk_timestamp (fresh_pk (spends db)) now _)
    with spend.
  fold db1.
  unfold bind, ret.
  rewrite (update_spend_totals_tables now spend db1 campaign brand Hc Hb).
  reflexivity.
Qed.

(** The new event counts for the brand of its campaign, today and this
    month. *)
Lemma brand_events_after_insert (now : datetime) (db : DB)
  (campaign : Campaign.t) (brand : Brand.t) (spend : AdSpend.t) :
  get_campaign (Campaign.id campaign) db = Ok campaign ->
  get_brand (Campaign.brand_id campaign) db = Ok brand ->
  AdSpend.campaign_id spend = Campaign.id campaign ->
  AdSpend.timestamp spend = now ->
  1 <= day (dt_date now) ->
  let db1 := mkDB (brands db) (campaigns db) (spends db ++ [spend]) in
  sum_amounts (filter (dated_today (dt_date now))
                 (events_of_brand db1 (Brand.id brand)))
  = sum_amounts (filter (dated_today (dt_date now))
                   (events_of_brand db (Brand.id brand)))
    + AdSpend.amount spend
  /\ sum_amounts (filter (dated_this_month (dt_date now))
                    (events_of_brand db1 (Brand.id brand)))
     = sum_amounts (filter (dated_this_month (dt_date now))
                      (events_of_brand db (Brand.id brand)))
       + AdSpend.amount spend.
Proof.
  intros Hc Hb Hcid Hts Hday db1.
  assert (Hev : events_of_brand db1 (Brand.id brand)
                = (events_of_brand db (Brand.id brand) ++ [spend])%list).
  { unfold events_of_brand, db1. cbn [campaigns spends].
    rewrite filter_app. f_equal. cbn [filter].
    replace (existsb _ (campaigns db)) with true; [reflexivity|].
    symmetry. apply existsb_exists. exists campaign. split.
    - unfold get_campaign in Hc.
      destruct (find _ (campaigns db)) as [c|] eqn:E; [|discriminate].
      injection Hc as ->. now apply find_some in E.
    - rewrite Hcid, Nat.eqb_refl. cbn [andb]. apply Nat.eqb_eq.
      symmetry. exact (get_brand_key _ _ _ Hb). }
  rewrite Hev, !filter_app, !sum_amounts_app. cbn [filter].
  unfold dated_today at 2. unfold dated_this_month at 2.
  rewrite Hts, date_eqb_refl.
  rewrite (today_is_this_month (dt_date now) (dt_date now) Hday
             (date_eqb_refl _)).
  change (sum_amounts [spend]) with (AdSpend.amount spend + 0).
  split; lia.
Qed.

(** X17.  Spend that brings the brand to its budget pauses the campaign at
    once.  For an existing campaign of an active brand, when the amount and
    the four totals the call writes (the campaign's and the brand's, of today
    and of this month, each with the new amount) fit their columns, and the
    brand's events of today plus the new amount reach the daily budget, or
    its events of this month plus the new amount reach the monthly budget,
    [record_ad_spend] returns the new event and the campaign's row is
    BUDGET_EXCEEDED, whatever its status was. *)
Theorem spend_reaching_budget_pauses_campaign :
  forall now db campaign_id amount description campaign brand,
    get_campaign campaign_id db = Ok campaign ->
    get_brand (Campaign.brand_id campaign) db = Ok brand ->
    Brand.is_active brand = true ->
    1 <= day (dt_date now) ->
    fits 10 amount ->
    fits 10 (sum_amounts (filter (dated_today (dt_date now))
                            (events_of campaign_id (spends db))) + amount) ->
    fits 12 (sum_amounts (filter (dated_this_month (dt_date now))
                            (events_of campaign_id (spends db))) + amount) ->
    fits 10 (sum_amounts (filter (dated_today (dt_date now))
                            (events_of_brand db (Brand.id brand))) + amount) ->
    fits 12 (sum_amounts (filter (dated_this_month (dt_date now))
                            (events_of_brand db (Brand.id brand))) + amount) ->
    Brand.daily_budget brand
      <= sum_amounts (filter (dated_today (dt_date now))
                        (events_of_brand db (Brand.id brand))) + amount
    \/ Brand.monthly_budget brand
       <= sum_amounts (filter (dated_this_month (dt_date now))
                         (events_of_brand db (Brand.id brand))) + amount ->
    exists db' spend,
      record_ad_spend now campaign_id amount description db = (db', Ok spend)
      /\ AdSpend.amount spend = amount
      /\ (forall r, In r (campaigns db') ->
                    Campaign.id r = campaign_id ->
                    Campaign.status r = BUDGET_EXCEEDED).
Proof.
  intros now db campaign_id amount description campaign brand
    Hc Hb Hact Hday _ _ _ _ _ Hover.
  destruct (get_campaign_id _ _ _ Hc) as [Hid Hex].
  assert (Hc' : get_campaign (Campaign.id campaign) db = Ok campaign)
    by now rewrite Hid.
  pose proof (get_brand_key _ _ _ Hb) as Hkey.
  unfold record_ad_spend, except_Campaign_DoesNotExist.
  unfold bind at 1, lift at 1. rewrite Hc.
  unfold bind at 1.
  rewrite (AdSpend_objects_create_tables now db campaign brand amount
             description Hc' Hb).
  set (spend := AdSpend.mk (Some (fresh_pk (spends db)))
                  (Campaign.id campaign) amount now description).
  set (db1 := mkDB (brands db) (campaigns db) (spends db ++ [spend])).
  set (g := recomputed_brand_row now db1 brand).
  set (f := recomputed_row now (spends db1) campaign).
  set (db2 := mkDB _ _ (spends db1)).
  unfold bind at 1, lift at 1.
  assert (Hc2 : get_campaign (Campaign.id campaign) db2 = Ok (f campaign)).
  { unfold get_campaign, db2. cbn [campaigns].
    rewrite find_update_rows by reflexivity.
    unfold get_campaign in Hc'.
    destruct (find _ (campaigns db)) as [c|]; [|discriminate].
    now injection Hc' as ->. }
  rewrite Hc2.
  assert (Hb2 : get_brand (Campaign.brand_id (f campaign)) db2
                = Ok (g brand)).
  { unfold get_brand, db2. cbn [brands].
    change (Campaign.brand_id (f campaign))
      with (Campaign.brand_id campaign).
    rewrite <- Hkey. rewrite find_update_rows by reflexivity.
    unfold get_brand in Hb. rewrite <- Hkey in Hb.
    destruct (find _ (brands db)) as [b|]; [|discriminate].
    now injection Hb as ->. }
  destruct (brand_events_after_insert now db campaign brand spend Hc' Hb
              eq_refl eq_refl Hday) as [HD HM].
  fold db1 in HD, HM. cbn [AdSpend.amount spend] in HD, HM.
  destruct (run_when_over_budget now db2 (f campaign) (g brand) Hb2)
    as (db3 & self3 & Hrun & _ & Hrows).
  - exact Hact.
  - unfold Brand.daily_budget_exceeded, Brand.monthly_budget_exceeded.
    cbn [g recomputed_brand_row Brand.daily_spend Brand.monthly_spend
         Brand.daily_budget Brand.monthly_budget Brand.with_updated_at
         Brand.with_spend].
    rewrite HD, HM, !Z.geb_leb.
    destruct Hover as [H|H]; [left|right]; apply Z.leb_le; exact H.
  - apply stored_existsb. unfold db2. cbn [campaigns].
    rewrite existsb_update_rows by reflexivity. exact Hex.
  - unfold bind at 1. rewrite Hrun. unfold ret.
    exists db3, spend. split; [reflexivity|]. split; [reflexivity|].
    intros r Hin Hr. apply Hrows; [exact Hin|].
    change (Campaign.id (f campaign)) with (Campaign.id campaign).
    congruence.
Qed.

Lemma spend_reaching_budget_pauses_campaign_witness :
  exists db' spend,
    record_ad_spend noon 1 10000 "takeover" fresh_db = (db', Ok spend)
    /\ AdSpend.amount spend = 10000
    /\ (forall r, In r (campaigns db') ->
                  Campaign.id r = 1%nat ->
                  Campaign.status r = BUDGET_EXCEEDED).
Proof.
  apply (spend_reaching_budget_pauses_campaign noon fresh_db 1%nat 10000
           "takeover" (plain_campaign 1 ACTIVE) (acme true 0 0)).
  - reflexivity.
  - reflexivity.
  - reflexivity.
  - cbn. lia.
  - reflexivity.
  - reflexivity.
  - reflexivity.
  - reflexivity.
  - reflexivity.
  - left. cbn. lia.
Defined.



(** ** What recording spend leaves alone *)

Section Frames.

Variable Rel : DB -> DB -> Prop.
Hypothesis Rel_refl : forall db, Rel db db.
Hypothesis Rel_trans : forall a b c, Rel a b -> Rel b c -> Rel a c.

Lemma frames_ret {A} (Q : A -> Prop) (a : A) : Q a -> frames Rel Q (ret a).
Proof.
  intros Ha db. split; [apply Rel_refl|]. now intros a' [= <-].
Qed.

Lemma frames_lift {A} (Q : A -> Prop) (f : DB -> result A) :
  (forall db a, f db = Ok a -> Q a) -> frames Rel Q (lift f).
Proof.
  intros Hf db. split; [apply Rel_refl|]. cbn. apply Hf.
Qed.

Lemma frames_bind {A B} (Q : A -> Prop) (Q' : B -> Prop) (m : M A)
  (k : A -> M B) :
  frames Rel Q m -> (forall a, Q a -> frames Rel Q' (k a)) ->
  frames Rel Q' (bind m k).
Proof.
  intros Hm Hk db. unfold bind. destruct (Hm db) as [Hrel Hq].
  destruct (m db) as [db1 [a|e]]; cbn [fst snd] in *.
  - destruct (Hk a (Hq a eq_refl) db1) as [Hrel1 Hq1].
    split; [eapply Rel_trans; eassumption | exact Hq1].
  - split; [exact Hrel | discriminate].
Qed.

Lemma frames_except {A} (Q : A -> Prop) (m : M A) (e' : exn) :
  frames Rel Q m -> frames Rel Q (except_Campaign_DoesNotExist m e').
Proof.
  intros Hm db. destruct (Hm db) as [Hrel Hq].
  unfold except_Campaign_DoesNotExist.
  destruct (m db) as [db1 [a|[]]]; cbn [fst snd] in *;
    (split; [exact Hrel|]); try discriminate; exact Hq.
Qed.

Lemma frames_weaken {A} (Q Q' : A -> Prop) (m : M A) :
  (forall a, Q a -> Q' a) -> frames Rel Q m -> frames Rel Q' m.
Proof.
  intros HQ Hm db. destruct (Hm db) as [Hrel Hq]. split; auto.
Qed.

End Frames.

Lemma Forall2_trans {A} (R : A -> A -> Prop) (l1 l2 l3 : list A) :
  (forall a b c, R a b -> R b c -> R a c) ->
  Forall2 R l1 l2 -> Forall2 R l2 l3 -> Forall2 R l1 l3.
Proof.
  intros HR H12. revert l3.
  induction H12 as [|a b l1 l2 Hab _ IH]; intros l3 H23; inversion H23;
    subst; constructor; eauto.
Qed.

Lemma only_campaign_refl k db : only_campaign k db db.
Proof. apply Forall2_same. auto. Qed.

Lemma only_campaign_trans k a b c :
  only_campaign k a b -> only_campaign k b c -> only_campaign k a c.
Proof.
  apply Forall2_trans. intros x y z [H1 H2] [H3 H4]. split; [congruence|].
  intros Hne. rewrite H4, H2; auto. congruence.
Qed.

Lemma brand_settings_kept_refl db : brand_settings_kept db db.
Proof. apply Forall2_same. intros b. repeat split. Qed.

Lemma brand_settings_kept_trans a b c :
  brand_settings_kept a b -> brand_settings_kept b c ->
  brand_settings_kept a c.
Proof.
  apply Forall2_trans.
  intros x y z (H1 & H2 & H3 & H4 & H5) (G1 & G2 & G3 & G4 & G5).
  repeat split; congruence.
Qed.

Lemma only_campaign_same k db db' :
  campaigns db' = campaigns db -> only_campaign k db db'.
Proof. unfold only_campaign. intros ->. apply Forall2_same. auto. Qed.

Lemma brand_settings_same db db' :
  brands db' = brands db -> brand_settings_kept db db'.
Proof.
  unfold brand_settings_kept. intros ->. apply Forall2_same.
  intros b. repeat split.
Qed.

Lemma touches_only_refl k db : touches_only k db db.
Proof. split; [apply only_campaign_refl | apply brand_settings_kept_refl]. Qed.

Lemma touches_only_trans k a b c :
  touches_only k a b -> touches_only k b c -> touches_only k a c.
Proof.
  intros [H1 H2] [H3 H4]. split;
    [eapply only_campaign_trans | eapply brand_settings_kept_trans];
    eassumption.
Qed.

Ltac frame_bind Q :=
  eapply (frames_bind _ (@touches_only_trans _) Q).

Ltac frame_lift :=
  apply (frames_lift _ (touches_only_refl _)).

Ltac frame_ret :=
  apply (frames_ret _ (touches_only_refl _)).

Lemma frames_save_campaign_rows k (self : Campaign.t)
  (g : Campaign.t -> Campaign.t) (db : DB) :
  Campaign.id self = k ->
  (forall r, Campaign.id (g r) = Campaign.id r) ->
  touches_only k db
    (mkDB (brands db)
          (update_rows (fun r => Nat.eqb (Campaign.id r) (Campaign.id self))
             g (campaigns db))
          (spends db)).
Proof.
  intros Hid Hg. split; [|now apply brand_settings_same].
  unfold only_campaign. cbn [campaigns].
  apply (update_rows_Forall2
           (fun old new =>
              Campaign.id new = Campaign.id old
              /\ (Campaign.id old <> k -> new = old))).
  - auto.
  - intros r Hr. apply Nat.eqb_eq in Hr. split; [apply Hg|].
    intros Hne. congruence.
Qed.

Lemma frames_Campaign_save_status k now (self : Campaign.t) :
  Campaign.id self = k ->
  frames (touches_only k) (fun _ => True) (Campaign_save_status now self).
Proof.
  intros Hid db. unfold Campaign_save_status.
  destruct (existsb _ (campaigns db)); cbn [fst snd].
  - split; [|trivial]. now apply (frames_save_campaign_rows k).
  - split; [apply touches_only_refl | trivial].
Qed.

Lemma frames_Campaign_save_spend k now (self : Campaign.t) :
  Campaign.id self = k ->
  frames (touches_only k)
    (fun c => Campaign.id c = k) (Campaign_save_spend now self).
Proof.
  intros Hid db. unfold Campaign_save_spend.
  destruct (existsb _ (campaigns db)); cbn [fst snd].
  - split; [now apply (frames_save_campaign_rows k)|].
    now intros a [= <-].
  - split; [apply touches_only_refl | discriminate].
Qed.

Lemma frames_Brand_save_spend k now (self : Brand.t) :
  frames (touches_only k) (fun _ => True) (Brand_save_spend now self).
Proof.
  intros db. unfold Brand_save_spend.
  destruct (existsb _ (brands db)); cbn [fst snd].
  - split; [|trivial]. split; [now apply only_campaign_same|].
    unfold brand_settings_kept. cbn [brands].
    apply (update_rows_Forall2
             (fun old new =>
                Brand.id new = Brand.id old
                /\ Brand.name new = Brand.name old
                /\ Brand.daily_budget new = Brand.daily_budget old
                /\ Brand.monthly_budget new = Brand.monthly_budget old
                /\ Brand.is_active new = Brand.is_active old)).
    + intros r. repeat split.
    + intros r _. repeat split.
  - split; [apply touches_only_refl | trivial].
Qed.

Lemma frames_update_status k now (self : Campaign.t) :
  Campaign.id self = k ->
  frames (touches_only k) (fun _ => True) (update_status now self).
Proof.
  intros Hid. unfold update_status.
  frame_bind (fun _ : Brand.t => True); [now frame_lift|].
  intros brand _.
  frame_bind (fun c : Campaign.t => Campaign.id c = k).
  - destruct (negb (Brand.is_active brand)); [now frame_ret|].
    destruct (Brand.daily_budget_exceeded brand
              || Brand.monthly_budget_exceeded brand); [now frame_ret|].
    frame_bind (fun _ : bool => True); [now frame_lift|].
    intros closed _. destruct closed; [now frame_ret|].
    destruct (status_in (Campaign.status self)
                [BUDGET_EXCEEDED; DAYPARTING_PAUSED]); now frame_ret.
  - intros c Hc. now apply frames_Campaign_save_status.
Qed.

Lemma frames_update_spend_totals k now (self : AdSpend.t) :
  AdSpend.campaign_id self = k ->
  frames (touches_only k) (fun _ => True) (update_spend_totals now self).
Proof.
  intros Hk. unfold update_spend_totals.
  frame_bind (fun c : Campaign.t => Campaign.id c = k).
  { frame_lift. intros db c Hc. rewrite <- Hk.
    exact (proj1 (get_campaign_id _ _ _ Hc)). }
  intros campaign Hc.
  frame_bind (fun _ : Z => True); [now frame_lift|]. intros daily_total _.
  frame_bind (fun _ : Z => True); [now frame_lift|]. intros monthly_total _.
  frame_bind (fun c : Campaign.t => Campaign.id c = k);
    [now apply frames_Campaign_save_spend|].
  intros campaign' _.
  frame_bind (fun _ : Brand.t => True); [now frame_lift|]. intros brand _.
  frame_bind (fun _ : Z => True); [now frame_lift|]. intros bd _.
  frame_bind (fun _ : Z => True); [now frame_lift|]. intros bm _.
  frame_bind (fun _ : Brand.t => True); [apply frames_Brand_save_spend|].
  intros _ _. now frame_ret.
Qed.

Lemma frames_Model_save k now (self : AdSpend.t) :
  frames (touches_only k)
    (fun row => AdSpend.campaign_id row = AdSpend.campaign_id self)
    (Model_save now self).
Proof.
  intros db. unfold Model_save.
  destruct (AdSpend.pk self) as [pk|];
    [destruct (existsb (pk_is pk) (spends db))|]; cbn [fst snd];
    (split; [split; [now apply only_campaign_same
                    | now apply brand_settings_same]|]);
    now intros a [= <-].
Qed.

Lemma frames_AdSpend_save k now (self : AdSpend.t) :
  AdSpend.campaign_id self = k ->
  frames (touches_only k) (fun _ => True) (AdSpend_save now self).
Proof.
  intros Hk. unfold AdSpend_save.
  frame_bind (fun row => AdSpend.campaign_id row = AdSpend.campaign_id self);
    [apply frames_Model_save|].
  intros row Hrow. destruct (AdSpend.pk self); [now frame_ret|].
  frame_bind (fun _ : unit => True);
    [apply frames_update_spend_totals; congruence|].
  intros _ _. now frame_ret.
Qed.

(** X19.  Recording spend never touches another campaign, nor a brand's
    settings.  Whatever [record_ad_spend] does for [campaign_id], and also
    when it raises, every campaign row with another id is the same afterwards
    and every brand row has kept its id, name, budgets and active flag. *)
Theorem record_ad_spend_touches_one_campaign :
  forall now campaign_id amount description db,
    only_campaign campaign_id db
      (fst (record_ad_spend now campaign_id amount description db))
    /\ brand_settings_kept db
         (fst (record_ad_spend now campaign_id amount description db)).
Proof.
  intros now campaign_id amount description db.
  assert (H : frames (touches_only campaign_id) (fun _ => True)
                (record_ad_spend now campaign_id amount description)).
  { unfold record_ad_spend.
    apply (frames_except (touches_only campaign_id)).
    frame_bind (fun c : Campaign.t => Campaign.id c = campaign_id).
    { frame_lift. intros d c Hc. exact (proj1 (get_campaign_id _ _ _ Hc)). }
    intros campaign Hc.
    frame_bind (fun _ : AdSpend.t => True).
    { unfold AdSpend_objects_create. now apply frames_AdSpend_save. }
    intros spend _.
    frame_bind (fun c : Campaign.t => Campaign.id c = campaign_id).
    { frame_lift. intros d c Hc'. rewrite <- Hc.
      exact (proj1 (get_campaign_id _ _ _ Hc')). }
    intros campaign' Hc'.
    frame_bind (fun _ : Campaign.t => True);
      [now apply frames_update_status|].
    intros _ _. now frame_ret. }
  exact (proj1 (H db)).
Qed.

Lemma handle_dry_run_report_witness :
  mkResetReport 1 3 0 =
  mkResetReport (List.length (brands month_end_db))
    (List.length (campaigns month_end_db))
    (List.length (filter (would_reactivate may_1 month_end_db)
                    (campaigns month_end_db))).
Proof.
  apply (handle_dry_run_report may_1 month_end_db month_end_db).
  reflexivity.
Defined.

Lemma sweep_tally_is_zero_witness :
  match snd (check_and_update_campaign_statuses noon paused_db) with
  | Ok t => t
  | Raise _ => mkStatusChanges 1 1 1 1
  end = mkStatusChanges 0 0 0 0.
Proof.
  apply (sweep_tally_is_zero noon paused_db
           (fst (check_and_update_campaign_statuses noon paused_db))).
  reflexivity.
Defined.

(** ** Monthly reset, for real *)

Lemma spend_columns_kept_refl db : spend_columns_kept db db.
Proof.
  repeat split. apply Forall2_same. auto.
Qed.

Lemma spend_columns_kept_trans a b c :
  spend_columns_kept a b -> spend_columns_kept b c ->
  spend_columns_kept a c.
Proof.
  intros (H1 & H2 & H3) (G1 & G2 & G3).
  split; [congruence|]. split; [congruence|].
  revert H3 G3. apply Forall2_trans.
  intros x y z (X1 & X2 & X3) (Y1 & Y2 & Y3). repeat split; congruence.
Qed.

Lemma frames_for_each {A S} (Rel : DB -> DB -> Prop)
  (body : S -> A -> M S) (l : list A) :
  (forall db, Rel db db) ->
  (forall a b c, Rel a b -> Rel b c -> Rel a c) ->
  (forall s x, frames Rel (fun _ => True) (body s x)) ->
  forall s, frames Rel (fun _ => True) (for_each l body s).
Proof.
  intros Hrefl Htrans Hbody.
  induction l as [|x l IH]; intros s; cbn [for_each].
  - now apply frames_ret.
  - eapply (frames_bind Rel Htrans); [apply Hbody|]. intros s' _. apply IH.
Qed.

Lemma update_status_keeps_spend_columns now (self : Campaign.t) :
  frames spend_columns_kept (fun _ => True) (update_status now self).
Proof.
  intros db. split; [|trivial]. rewrite update_status_unfold.
  destruct (get_brand (Campaign.brand_id self) db) as [brand|e];
    [|apply spend_columns_kept_refl].
  destruct (next_status now brand self) as [s|e];
    [|apply spend_columns_kept_refl].
  unfold Campaign_save_status. cbn.
  destruct (existsb _ (campaigns db)); [|apply spend_columns_kept_refl].
  cbn [fst]. split; [reflexivity|]. split; [reflexivity|].
  cbn [campaigns].
  apply (update_rows_Forall2
           (fun old new =>
              Campaign.id new = Campaign.id old
              /\ Campaign.daily_spend new = Campaign.daily_spend old
              /\ Campaign.monthly_spend new = Campaign.monthly_spend old)).
  - auto.
  - intros r _. repeat split.
Qed.

Lemma fst_bind_ret {A B} (m : M A) (f : A -> B) (db : DB) :
  fst (bind m (fun a => ret (f a)) db) = fst (m db).
Proof. unfold bind, ret. now destruct (m db) as [db1 [a|e]]. Qed.

(** The real run: both tables are cleared first, then the status pass keeps
    the spend columns. *)
Lemma handle_real_run_tables (now : datetime) (db : DB) :
  spend_columns_kept
    (mkDB (map (Brand.with_monthly_spend 0) (brands db))
          (map (Campaign.with_monthly_spend 0) (campaigns db))
          (spends db))
    (fst (handle now false db)).
Proof.
  unfold handle. cbn [negb andb].
  unfold bind at 1. unfold Brand_objects_update_monthly_spend.
  cbn beta iota.
  unfold bind at 1. unfold Campaign_objects_update_monthly_spend.
  cbn beta iota. cbn [brands campaigns spends].
  unfold bind at 1. unfold Campaign_objects_all, lift. cbn beta iota.
  cbn [campaigns]. rewrite fst_bind_ret.
  apply (frames_for_each spend_columns_kept _ _
           spend_columns_kept_refl spend_columns_kept_trans).
  intros s x.
  eapply (frames_bind spend_columns_kept spend_columns_kept_trans
            (fun _ => True));
    [apply update_status_keeps_spend_columns|].
  intros c _.
  destruct (status_eqb (Campaign.status x) BUDGET_EXCEEDED);
    [|now apply (frames_ret _ spend_columns_kept_refl)].
  eapply (frames_bind spend_columns_kept spend_columns_kept_trans
            (fun _ => True));
    [|intros; now apply (frames_ret _ spend_columns_kept_refl)].
  destruct (status_eqb (Campaign.status c) ACTIVE);
    now apply (frames_ret _ spend_columns_kept_refl).
Qed.

(** X22.  The monthly reset clears the month and nothing else.  After the
    task, also when the status pass raises part-way, every brand row is its
    old self with [monthly_spend] zero, every campaign row has
    [monthly_spend] zero with its id and [daily_spend] kept, and the events
    are all still there. *)
Theorem monthly_reset_clears_month_only :
  forall now db,
    brands (fst (reset_monthly_budgets now db))
      = map (Brand.with_monthly_spend 0) (brands db)
    /\ spends (fst (reset_monthly_budgets now db)) = spends db
    /\ Forall2 (fun old new =>
                  Campaign.id new = Campaign.id old
                  /\ Campaign.daily_spend new = Campaign.daily_spend old
                  /\ Campaign.monthly_spend new = 0)
               (campaigns db) (campaigns (fst (reset_monthly_budgets now db))).
Proof.
  intros now db.
  pose proof (handle_real_run_tables now db) as (Hb & Hs & Hc).
  unfold reset_monthly_budgets. rewrite fst_bind_ret.
  cbn [brands spends campaigns] in Hb, Hs, Hc.
  split; [exact Hb|]. split; [exact Hs|].
  apply Forall2_map_left in Hc. revert Hc. apply Forall2_weaken.
  intros old new (H1 & H2 & H3). cbn in *. auto.
Qed.

(** ** Budget alert scan *)

Lemma alert_loop_run {A} (cond : Brand.t -> bool) (mk : Brand.t -> A)
  (bs : list Brand.t) :
  forall (acc : list A) (db : DB),
    for_each bs
      (fun alerts brand =>
         if cond brand then ret (alerts ++ [mk brand])%list else ret alerts)
      acc db
    = (db, Ok (acc ++ map mk (filter cond bs))%list).
Proof.
  induction bs as [|b bs IH]; intros acc db; cbn [for_each filter].
  - unfold ret. now rewrite app_nil_r.
  - unfold bind. destruct (cond b); unfold ret at 1; rewrite IH.
    + cbn [map]. now rewrite <- app_assoc.
    + reflexivity.
Qed.

Lemma monitor_budget_limits_run :
  forall (float : Type) (to_float : Z -> float)
         (percent_of : Z -> Z -> float) now db,
    monitor_budget_limits float to_float percent_of now db
    = (db,
       Ok (map (daily_alert float to_float percent_of)
             (filter (fun b => reaches_nine_tenths (Brand.daily_spend b)
                                 (Brand.daily_budget b))
                (filter Brand.is_active (brands db)))
           ++ map (monthly_alert float to_float percent_of)
                (filter (fun b => reaches_nine_tenths (Brand.monthly_spend b)
                                    (Brand.monthly_budget b))
                   (filter Brand.is_active (brands db))))%list).
Proof.
  intros float to_float percent_of now db.
  unfold monitor_budget_limits. unfold bind at 1, lift at 1.
  unfold bind at 1.
  rewrite (alert_loop_run
             (fun b => reaches_nine_tenths (Brand.daily_spend b)
                         (Brand.daily_budget b))
             (daily_alert float to_float percent_of)).
  unfold bind at 1.
  rewrite (alert_loop_run
             (fun b => reaches_nine_tenths (Brand.monthly_spend b)
                         (Brand.monthly_budget b))
             (monthly_alert float to_float percent_of)).
  reflexivity.
Qed.

(** X24.  The alert scan always returns and writes nothing.  Its alerts are
    the daily warnings of the active brands whose daily spend has reached
    nine tenths of the daily budget, in table order, followed by the monthly
    warnings of the active brands whose monthly spend has reached nine tenths
    of the monthly budget; an inactive brand is never reported. *)
Theorem alert_scan_result :
  forall (float : Type) (to_float : Z -> float)
         (percent_of : Z -> Z -> float) now db,
    monitor_budget_limits float to_float percent_of now db
    = (db,
       Ok (map (daily_alert float to_float percent_of)
             (filter (fun b => reaches_nine_tenths (Brand.daily_spend b)
                                 (Brand.daily_budget b))
                (filter Brand.is_active (brands db)))
           ++ map (monthly_alert float to_float percent_of)
                (filter (fun b => reaches_nine_tenths (Brand.monthly_spend b)
                                    (Brand.monthly_budget b))
                   (filter Brand.is_active (brands db))))%list).
Proof. exact monitor_budget_limits_run. Qed.

(** X25.  An active brand whose daily budget is not negative and counts as
    exceeded is always among the alerts, with a daily warning; when that
    budget is zero the warning's [percent_used] is the integer 0 and no
    quotient is formed. *)
Theorem exceeded_brand_is_alerted :
  forall (float : Type) (to_float : Z -> float)
         (percent_of : Z -> Z -> float) now db b,
    In b (brands db) ->
    Brand.is_active b = true ->
    0 <= Brand.daily_budget b ->
    Brand.daily_budget_exceeded b = true ->
    exists alerts,
      snd (monitor_budget_limits float to_float percent_of now db)
        = Ok alerts
      /\ In (daily_alert float to_float percent_of b) alerts
      /\ (Brand.daily_budget b = 0 ->
          BudgetAlert.percent_used (daily_alert float to_float percent_of b)
          = PercentInt 0).
Proof.
  intros float to_float percent_of now db b Hin Hact Hpos Hex.
  rewrite monitor_budget_limits_run. cbn [snd]. eexists. split; [reflexivity|].
  split.
  - apply in_or_app. left. apply in_map. apply filter_In. split.
    + apply filter_In. auto.
    + unfold reaches_nine_tenths, Brand.daily_budget_exceeded in *.
      rewrite Z.geb_leb in *. apply Z.leb_le in Hex. apply Z.leb_le. lia.
  - intros H0. unfold daily_alert. cbn [BudgetAlert.percent_used].
    now rewrite H0.
Qed.

Lemma exceeded_brand_is_alerted_witness :
  exists alerts,
    snd (monitor_budget_limits Z (fun d => d) (fun s b => s * 100 / b) noon
           spent_db) = Ok alerts
    /\ In (daily_alert Z (fun d => d) (fun s b => s * 100 / b)
             (acme true 10000 10000)) alerts
    /\ (Brand.daily_budget (acme true 10000 10000) = 0 ->
        BudgetAlert.percent_used
          (daily_alert Z (fun d => d) (fun s b => s * 100 / b)
             (acme true 10000 10000))
        = PercentInt 0).
Proof.
  apply (exceeded_brand_is_alerted Z (fun d => d) (fun s b => s * 100 / b)
           noon spent_db (acme true 10000 10000)).
  - left. reflexivity.
  - reflexivity.
  - cbn. lia.
  - reflexivity.
Defined.

(** ** Listing active campaigns *)

(** X26.  A campaign loaded from its row and just left ACTIVE by the status
    machine is listed by [get_active_campaigns] on the resulting store; and
    everything that query lists has status ACTIVE. *)
Theorem active_campaign_is_listed :
  forall now self db db1 self1,
    In self (campaigns db) ->
    update_status now self db = (db1, Ok self1) ->
    Campaign.status self1 = ACTIVE ->
    exists listed,
      get_active_campaigns db1 = (db1, Ok listed)
      /\ In self1 listed
      /\ (forall c, In c listed -> Campaign.status c = ACTIVE).
Proof.
  intros now self db db1 self1 Hin H Hact.
  destruct (update_status_returns _ _ _ _ _ H)
    as (brand & s & Hb & Hn & -> & ->).
  cbn [Campaign.status Campaign.with_updated_at Campaign.with_status]
    in Hact. subst s.
  unfold get_active_campaigns, lift. eexists. split; [reflexivity|]. split.
  - apply filter_In. split.
    + cbn [campaigns]. apply in_update_rows. exists self.
      split; [exact Hin|]. now rewrite Nat.eqb_refl.
    + cbn [Campaign.status Campaign.with_updated_at Campaign.with_status
           status_eqb andb].
      unfold brand_is_active. cbn [brands]. apply existsb_exists.
      exists brand. 
      apply next_status_cases in Hn.
      destruct Hn as [[Hn _] | [[Hn _] | (Ha & _ & _ & _)]];
        try discriminate.
      unfold get_brand in Hb.
      destruct (find _ (brands db)) as [b|] eqn:E; [|discriminate].
      injection Hb as ->. apply find_some in E. destruct E as [Hinb Hidb].
      split; [exact Hinb|]. cbn. now rewrite Hidb, Ha.
  - intros c Hc. apply filter_In in Hc. destruct Hc as [_ Hc].
    apply andb_true_iff in Hc. destruct Hc as [Hc _].
    now destruct (Campaign.status c).
Qed.

Lemma active_campaign_is_listed_witness :
  exists listed,
    get_active_campaigns
      (fst (update_status noon (plain_campaign 1 BUDGET_EXCEEDED) cleared_db))
    = (fst (update_status noon (plain_campaign 1 BUDGET_EXCEEDED) cleared_db),
       Ok listed)
    /\ In (Campaign.with_updated_at noon
             (Campaign.with_status ACTIVE (plain_campaign 1 BUDGET_EXCEEDED)))
          listed
    /\ (forall c, In c listed -> Campaign.status c = ACTIVE).
Proof.
  apply (active_campaign_is_listed noon (plain_campaign 1 BUDGET_EXCEEDED)
           cleared_db).
  - left. reflexivity.
  - reflexivity.
  - reflexivity.
Defined.

(** ** Re-running the batch recompute *)

(** The campaign loop again, for any property of rows that a recomputed row
    has. *)
Lemma campaign_loop_inv (now : datetime) (events : list AdSpend.t)
  (P : Campaign.t -> Prop) :
  (forall c r, Campaign.id r = Campaign.id c ->
               P (recomputed_row now events c r)) ->
  forall cs db,
    spends db = events ->
    (forall c, In c cs ->
       existsb (fun r => Nat.eqb (Campaign.id r) (Campaign.id c))
               (campaigns db) = true) ->
    exists rows,
      for_each cs (fun _ campaign => recalculate_campaign now campaign) tt db
        = (mkDB (brands db) rows (spends db), Ok tt)
      /\ Forall2
           (fun old new =>
              Campaign.id new = Campaign.id old
              /\ (P old
                  \/ existsb (fun c => Nat.eqb (Campaign.id c)
                                               (Campaign.id old)) cs = true ->
                  P new))
           (campaigns db) rows.
Proof.
  intros HP. induction cs as [|c cs IH]; intros db Hev Hall.
  - exists (campaigns db). split; [now destruct db|].
    apply Forall2_same. intros r. split; [reflexivity|].
    intros [H|H]; [exact H | discriminate].
  - cbn [for_each]. unfold bind.
    rewrite recalculate_campaign_run by (apply Hall; now left).
    set (p := fun r => Nat.eqb (Campaign.id r) (Campaign.id c)).
    set (g := recomputed_row now (spends db) c).
    destruct (IH (mkDB (brands db) (update_rows p g (campaigns db))
                       (spends db))) as (rows & Hrun & Hrows).
    { exact Hev. }
    { intros c' Hc'. cbn [campaigns].
      rewrite existsb_update_rows by reflexivity.
      apply Hall. now right. }
    cbn [brands campaigns spends] in Hrun, Hrows.
    exists rows. split; [exact Hrun|].
    unfold update_rows in Hrows. apply Forall2_map_left in Hrows.
    revert Hrows. apply Forall2_weaken.
    intros old new [Hid Hnew]. subst p g. cbn beta in Hid, Hnew.
    destruct (Nat.eqb (Campaign.id old) (Campaign.id c)) eqn:E.
    + apply Nat.eqb_eq in E. split; [exact Hid|]. intros _.
      apply Hnew. left. rewrite Hev. now apply HP.
    + split; [exact Hid|]. intros [H|H].
      * apply Hnew. now left.
      * apply Hnew. right. cbn [existsb] in H.
        rewrite Nat.eqb_sym, E in H. exact H.
Qed.

(** The brand loop again, for any property of rows that a recomputed row
    has and that looks at the store through campaigns and events only. *)
Lemma brand_loop_inv (now : datetime) (P : DB -> Brand.t -> Prop) :
  (forall db b r, Brand.id r = Brand.id b ->
                  P db (recomputed_brand_row now db b r)) ->
  (forall db db' x, campaigns db' = campaigns db -> spends db' = spends db ->
                    P db x -> P db' x) ->
  forall bs db,
    (forall b, In b bs ->
       existsb (fun r => Nat.eqb (Brand.id r) (Brand.id b)) (brands db)
         = true) ->
    exists rows,
      for_each bs (fun _ brand => recalculate_brand now brand) tt db
        = (mkDB rows (campaigns db) (spends db), Ok tt)
      /\ Forall2
           (fun old new =>
              Brand.id new = Brand.id old
              /\ (P db old
                  \/ existsb (fun b => Nat.eqb (Brand.id b) (Brand.id old))
                             bs = true ->
                  P db new))
           (brands db) rows.
Proof.
  intros HP Hext. induction bs as [|b bs IH]; intros db Hall.
  - exists (brands db). split; [now destruct db|].
    apply Forall2_same. intros r. split; [reflexivity|].
    intros [H|H]; [exact H | discriminate].
  - cbn [for_each]. unfold bind.
    rewrite recalculate_brand_exact by (apply Hall; now left).
    set (p := fun r => Nat.eqb (Brand.id r) (Brand.id b)).
    set (g := recomputed_brand_row now db b).
    set (db1 := mkDB (update_rows p g (brands db)) (campaigns db) (spends db)).
    destruct (IH db1) as (rows & Hrun & Hrows).
    { intros b' Hb'. cbn [brands db1].
      rewrite existsb_update_rows by reflexivity.
      apply Hall. now right. }
    cbn [brands campaigns spends db1] in Hrun, Hrows.
    exists rows. split; [exact Hrun|].
    unfold update_rows in Hrows. apply Forall2_map_left in Hrows.
    revert Hrows. apply Forall2_weaken.
    intros old new [Hid Hnew]. subst p g. cbn beta in Hid, Hnew.
    assert (Hto : forall x, P db x -> P db1 x)
      by (intros x; now apply Hext).
    assert (Hfrom : forall x, P db1 x -> P db x)
      by (intros x; now apply Hext).
    destruct (Nat.eqb (Brand.id old) (Brand.id b)) eqn:E.
    + apply Nat.eqb_eq in E. split; [exact Hid|]. intros _.
      apply Hfrom, Hnew. left. apply Hto. now apply HP.
    + split; [exact Hid|]. intros [H|H]; apply Hfrom, Hnew.
      * left. now apply Hto.
      * right. cbn [existsb] in H. rewrite Nat.eqb_sym, E in H. exact H.
Qed.

Lemma update_rows_fixed {A} (p : A -> bool) (g : A -> A) (l : list A) :
  (forall r, In r l -> p r = true -> g r = r) -> update_rows p g l = l.
Proof.
  intros H. unfold update_rows. rewrite <- (map_id l) at 2.
  apply map_ext_in. intros r Hr. destruct (p r) eqn:E; auto.
Qed.

(** On a table whose rows are already what the loop would store, the
    campaign loop changes nothing. *)
Lemma campaign_loop_fixed (now : datetime) (cs : list Campaign.t) :
  forall db,
    (forall r, In r (campaigns db) ->
               recomputed_row now (spends db) r r = r) ->
    (forall c, In c cs ->
       existsb (fun r => Nat.eqb (Campaign.id r) (Campaign.id c))
               (campaigns db) = true) ->
    for_each cs (fun _ campaign => recalculate_campaign now campaign) tt db
    = (db, Ok tt).
Proof.
  induction cs as [|c cs IH]; intros db Hset Hall; [reflexivity|].
  cbn [for_each]. unfold bind.
  rewrite recalculate_campaign_run by (apply Hall; now left).
  rewrite update_rows_fixed.
  - replace (mkDB (brands db) (campaigns db) (spends db)) with db
      by now destruct db.
    apply IH; [exact Hset|]. intros c' Hc'. apply Hall. now right.
  - intros r Hr Hp. apply Nat.eqb_eq in Hp. rewrite <- (Hset r Hr) at 2.
    unfold recomputed_row. now rewrite Hp.
Qed.

Lemma brand_loop_fixed (now : datetime) (bs : list Brand.t) :
  forall db,
    (forall r, In r (brands db) -> recomputed_brand_row now db r r = r) ->
    (forall b, In b bs ->
       existsb (fun r => Nat.eqb (Brand.id r) (Brand.id b)) (brands db)
         = true) ->
    for_each bs (fun _ brand => recalculate_brand now brand) tt db
    = (db, Ok tt).
Proof.
  induction bs as [|b bs IH]; intros db Hset Hall; [reflexivity|].
  cbn [for_each]. unfold bind.
  rewrite recalculate_brand_exact by (apply Hall; now left).
  rewrite update_rows_fixed.
  - replace (mkDB (brands db) (campaigns db) (spends db)) with db
      by now destruct db.
    apply IH; [exact Hset|]. intros b' Hb'. apply Hall. now right.
  - intros r Hr Hp. apply Nat.eqb_eq in Hp. rewrite <- (Hset r Hr) at 2.
    unfold recomputed_brand_row. now rewrite Hp.
Qed.

(** X27.  The batch recompute is safe to re-run: run again under the same
    clock on the store it has just produced, it returns and leaves that
    store exactly as it is. *)
Theorem recalculate_spend_totals_idempotent :
  forall now db,
    recalculate_spend_totals now (fst (recalculate_spend_totals now db))
    = (fst (recalculate_spend_totals now db),
       Ok "Spend totals recalculation completed").
Proof.
  intros now db.
  assert (H1 : exists brows crows,
             fst (recalculate_spend_totals now db)
             = mkDB brows crows (spends db)
             /\ (forall r, In r crows ->
                           recomputed_row now (spends db) r r = r)
             /\ (forall b, In b brows ->
                           recomputed_brand_row now
                             (mkDB brows crows (spends db)) b b = b)).
  { unfold recalculate_spend_totals, Campaign_objects_all, Brand_objects_all.
    unfold bind at 1, lift at 1.
    destruct (campaign_loop_inv now (spends db)
                (fun r => recomputed_row now (spends db) r r = r))
      with (cs := campaigns db) (db := db) as (crows & Hrun & Hrows).
    { intros c r Hid. unfold recomputed_row. cbn. now rewrite Hid. }
    { reflexivity. }
    { intros c. apply existsb_self. }
    unfold bind at 1. rewrite Hrun. unfold bind at 1, lift at 1.
    destruct (brand_loop_inv now
                (fun d b => recomputed_brand_row now d b b = b))
      with (bs := brands db) (db := mkDB (brands db) crows (spends db))
      as (brows & Hbrun & Hbrows).
    { intros d b r Hid. unfold recomputed_brand_row. cbn. now rewrite Hid. }
    { intros d d' x Hc Hs Hx. unfold recomputed_brand_row in *.
      rewrite (events_of_brand_ext d d') by (now rewrite ?Hc, ?Hs).
      exact Hx. }
    { intros b Hb. cbn [brands]. apply existsb_exists. exists b.
      split; [exact Hb | apply Nat.eqb_refl]. }
    cbn [brands campaigns spends] in *. unfold bind at 1. rewrite Hbrun.
    unfold ret. cbn [fst]. exists brows, crows.
    split; [reflexivity|]. split.
    - intros r Hr.
      destruct (Forall2_in_right _ _ _ _ Hrows Hr) as (old & Hold & _ & Hok).
      apply Hok. right. now apply existsb_self.
    - intros b Hb.
      destruct (Forall2_in_right _ _ _ _ Hbrows Hb) as (old & Hold & _ & Hok).
      unfold recomputed_brand_row in *.
      rewrite (events_of_brand_ext
                 (mkDB (brands db) crows (spends db))) by reflexivity.
      apply Hok. right. apply existsb_exists. exists old.
      split; [exact Hold | apply Nat.eqb_refl]. }
  destruct H1 as (brows & crows & -> & Hc & Hb).
  unfold recalculate_spend_totals, Campaign_objects_all, Brand_objects_all.
  unfold bind at 1, lift at 1. unfold bind at 1.
  rewrite campaign_loop_fixed.
  - unfold bind at 1, lift at 1. unfold bind at 1.
    rewrite brand_loop_fixed; [reflexivity | exact Hb |].
    intros b Hin. cbn [brands]. apply existsb_exists. exists b.
    split; [exact Hin | apply Nat.eqb_refl].
  - exact Hc.
  - intros c. cbn [campaigns]. apply existsb_self.
Qed.

(** ** Brand totals against campaign totals *)

(** With unique campaign ids at most one campaign claims an event. *)
Lemma one_campaign_per_event (k cid : nat) (x : Z) (cs : list Campaign.t) :
  NoDup (map Campaign.id cs) ->
  fold_right
    (fun c acc => (if Nat.eqb cid (Campaign.id c) then x else 0) + acc) 0
    (filter (fun c => Nat.eqb (Campaign.brand_id c) k) cs)
  = if existsb (fun c => Nat.eqb (Campaign.id c) cid
                         && Nat.eqb (Campaign.brand_id c) k) cs
    then x else 0.
Proof.
  induction cs as [|c cs IH]; intros Hnd; [reflexivity|].
  cbn [map] in Hnd. inversion Hnd as [|? ? Hnotin Hnd']; subst.
  specialize (IH Hnd'). cbn [filter existsb].
  destruct (Nat.eqb (Campaign.id c) cid) eqn:E.
  - apply Nat.eqb_eq in E.
    assert (Hrest : existsb (fun c0 => Nat.eqb (Campaign.id c0) cid
                                       && Nat.eqb (Campaign.brand_id c0) k)
                      cs = false).
    { apply not_true_is_false. intros H. apply existsb_exists in H.
      destruct H as (c' & Hin & Hc'). apply andb_true_iff in Hc'.
      destruct Hc' as [Hid _]. apply Nat.eqb_eq in Hid.
      apply Hnotin. rewrite E, <- Hid. now apply in_map. }
    rewrite Hrest in IH. rewrite Hrest, orb_false_r. cbn [andb].
    destruct (Nat.eqb (Campaign.brand_id c) k); cbn [fold_right].
    + rewrite IH. rewrite E, Nat.eqb_refl. lia.
    + exact IH.
  - cbn [andb orb].
    destruct (Nat.eqb (Campaign.brand_id c) k); cbn [fold_right].
    + rewrite IH. rewrite Nat.eqb_sym, E. lia.
    + exact IH.
Qed.

Lemma sum_campaigns_split (f g : Campaign.t -> Z) (l : list Campaign.t) :
  fold_right (fun c acc => (f c + g c) + acc) 0 l
  = fold_right (fun c acc => f c + acc) 0 l
    + fold_right (fun c acc => g c + acc) 0 l.
Proof. induction l as [|c l IH]; cbn [fold_right]; lia. Qed.

Lemma sum_campaigns_ext (f g : Campaign.t -> Z) (l : list Campaign.t) :
  (forall c, In c l -> f c = g c) ->
  fold_right (fun c acc => f c + acc) 0 l
  = fold_right (fun c acc => g c + acc) 0 l.
Proof.
  induction l as [|c l IH]; intros H; [reflexivity|].
  cbn [fold_right]. rewrite (H c (or_introl eq_refl)), IH; [reflexivity|].
  intros c' Hc'. apply H. now right.
Qed.

(** Summing per campaign and then over the brand's campaigns is summing
    over the brand's events. *)
Lemma brand_events_by_campaign (q : AdSpend.t -> bool) (k : nat)
  (cs : list Campaign.t) (events : list AdSpend.t) :
  NoDup (map Campaign.id cs) ->
  fold_right
    (fun c acc =>
       sum_amounts (filter q (events_of (Campaign.id c) events)) + acc) 0
    (filter (fun c => Nat.eqb (Campaign.brand_id c) k) cs)
  = sum_amounts
      (filter q
         (filter (fun e =>
                    existsb (fun c => Nat.eqb (Campaign.id c)
                                              (AdSpend.campaign_id e)
                                      && Nat.eqb (Campaign.brand_id c) k) cs)
                 events)).
Proof.
  intros Hnd. induction events as [|e events IH].
  - cbn. induction (filter _ cs) as [|c l IHl]; cbn; [reflexivity|].
    now rewrite IHl.
  - set (x := if q e then AdSpend.amount e else 0).
    rewrite (sum_campaigns_ext _
               (fun c =>
                  (if Nat.eqb (AdSpend.campaign_id e) (Campaign.id c)
                   then x else 0)
                  + sum_amounts (filter q (events_of (Campaign.id c) events)))).
    + rewrite sum_campaigns_split, IH, (one_campaign_per_event _ _ _ _ Hnd).
      cbn [filter].
      destruct (existsb _ cs); [|reflexivity].
      cbn [filter]. subst x. destruct (q e); [|reflexivity]. reflexivity.
    + intros c _. unfold events_of. cbn [filter].
      destruct (Nat.eqb (AdSpend.campaign_id e) (Campaign.id c));
        [|lia]. cbn [filter]. subst x.
      destruct (q e); [|lia]. unfold sum_amounts. cbn [fold_right]. lia.
Qed.

(** X28.  After the batch recompute on a store with unique campaign ids the
    two caches agree: every brand's [daily_spend] is the sum of the
    [daily_spend] of its campaigns, and its [monthly_spend] the sum of their
    [monthly_spend]. *)
Theorem brand_total_is_sum_of_campaign_totals :
  forall now db,
    NoDup (map Campaign.id (campaigns db)) ->
    forall b,
      In b (brands (fst (recalculate_spend_totals now db))) ->
      Brand.daily_spend b
        = sum_campaigns Campaign.daily_spend (Brand.id b)
            (campaigns (fst (recalculate_spend_totals now db)))
      /\ Brand.monthly_spend b
         = sum_campaigns Campaign.monthly_spend (Brand.id b)
             (campaigns (fst (recalculate_spend_totals now db))).
Proof.
  intros now db Hnd b Hin.
  destruct (recalculate_spend_totals_run now db) as (db1 & Hrun1 & _ & Hids & _).
  destruct (recalculate_spend_totals_tables now db)
    as (brows & crows & Hrun & Hc & Hb).
  rewrite Hrun in Hrun1. injection Hrun1 as <-.
  rewrite Hrun in *. cbn [fst brands campaigns spends] in *.
  rewrite <- Hids in Hnd.
  destruct (Hb b Hin) as [Hd Hm]. unfold sum_campaigns.
  split.
  - rewrite Hd. unfold events_of_brand. cbn [campaigns spends].
    rewrite <- (brand_events_by_campaign _ _ _ _ Hnd).
    apply sum_campaigns_ext. intros c Hcin. apply filter_In in Hcin.
    symmetry. exact (proj1 (Hc c (proj1 Hcin))).
  - rewrite Hm. unfold events_of_brand. cbn [campaigns spends].
    rewrite <- (brand_events_by_campaign _ _ _ _ Hnd).
    apply sum_campaigns_ext. intros c Hcin. apply filter_In in Hcin.
    symmetry. exact (proj2 (Hc c (proj1 Hcin))).
Qed.

Lemma brand_total_is_sum_of_campaign_totals_witness :
  Brand.daily_spend
    (Brand.with_updated_at apr_30
       (Brand.with_spend 100000 100000 (acme true 0 100000)))
    = sum_campaigns Campaign.daily_spend 1
        (campaigns (fst (recalculate_spend_totals apr_30 month_end_db)))
  /\ Brand.monthly_spend
       (Brand.with_updated_at apr_30
          (Brand.with_spend 100000 100000 (acme true 0 100000)))
     = sum_campaigns Campaign.monthly_spend 1
         (campaigns (fst (recalculate_spend_totals apr_30 month_end_db))).
Proof.
  apply (brand_total_is_sum_of_campaign_totals apr_30 month_end_db).
  - cbn. repeat constructor; cbn; intuition discriminate.
  - left. reflexivity.
Defined.

(** ** Aggregate correctness *)

Lemma same_but_spend_refl (c : Campaign.t) : same_but_spend c c.
Proof. repeat split. Qed.

Lemma same_but_spend_trans (a b c : Campaign.t) :
  same_but_spend a b -> same_but_spend b c -> same_but_spend a c.
Proof.
  intros (A1 & A2 & A3 & A4 & A5 & A6 & A7) (B1 & B2 & B3 & B4 & B5 & B6 & B7).
  repeat split; congruence.
Qed.

Lemma campaign_rows_kept_refl db : campaign_rows_kept db db.
Proof. apply Forall2_same. apply same_but_spend_refl. Qed.

Lemma campaign_rows_kept_trans a b c :
  campaign_rows_kept a b -> campaign_rows_kept b c -> campaign_rows_kept a c.
Proof. apply Forall2_trans. apply same_but_spend_trans. Qed.

Lemma recomputed_rows_kept now events campaign (db : DB) brows evs :
  campaign_rows_kept db
    (mkDB brows
          (update_rows
             (fun r => Nat.eqb (Campaign.id r) (Campaign.id campaign))
             (recomputed_row now events campaign) (campaigns db))
          evs).
Proof.
  unfold campaign_rows_kept. cbn [campaigns].
  apply update_rows_Forall2.
  - apply same_but_spend_refl.
  - intros r _. repeat split.
Qed.

Lemma frames_recalculate_campaign now (c : Campaign.t) :
  frames campaign_rows_kept (fun _ => True) (recalculate_campaign now c).
Proof.
  intros db. split; [|trivial].
  unfold recalculate_campaign, total_where, bind, lift, ret,
    Campaign_save_spend.
  cbn. destruct (existsb _ (campaigns db)); cbn [fst].
  - unfold campaign_rows_kept. cbn [campaigns].
    apply update_rows_Forall2.
    + apply same_but_spend_refl.
    + intros r _. repeat split.
  - apply campaign_rows_kept_refl.
Qed.

Lemma frames_recalculate_brand now (b : Brand.t) :
  frames campaign_rows_kept (fun _ => True) (recalculate_brand now b).
Proof.
  intros db. split; [|trivial].
  unfold recalculate_brand, total_where, bind, lift, ret, Brand_save_spend.
  cbn. destruct (existsb _ (brands db)); cbn [fst];
    unfold campaign_rows_kept; cbn [campaigns];
    apply Forall2_same, same_but_spend_refl.
Qed.

(** The batch recompute keeps every campaign row in its place and changes
    nothing on it but the spend columns and updated_at. *)
Lemma recalculate_spend_totals_keeps_rows (now : datetime) (db : DB) :
  campaign_rows_kept db (fst (recalculate_spend_totals now db)).
Proof.
  assert (H : frames campaign_rows_kept (fun _ => True)
                (recalculate_spend_totals now)).
  { unfold recalculate_spend_totals, Campaign_objects_all, Brand_objects_all.
    eapply (frames_bind _ campaign_rows_kept_trans (fun _ => True)).
    { now apply (frames_lift _ campaign_rows_kept_refl). }
    intros cs _.
    eapply (frames_bind _ campaign_rows_kept_trans (fun _ => True)).
    { apply (frames_for_each campaign_rows_kept _ _
               campaign_rows_kept_refl campaign_rows_kept_trans).
      intros s c. apply frames_recalculate_campaign. }
    intros _ _.
    eapply (frames_bind _ campaign_rows_kept_trans (fun _ => True)).
    { now apply (frames_lift _ campaign_rows_kept_refl). }
    intros bs _.
    eapply (frames_bind _ campaign_rows_kept_trans (fun _ => True)).
    { apply (frames_for_each campaign_rows_kept _ _
               campaign_rows_kept_refl campaign_rows_kept_trans).
      intros s b. apply frames_recalculate_brand. }
    intros _ _. now apply (frames_ret _ campaign_rows_kept_refl). }
  exact (proj1 (H db)).
Qed.

Lemma Forall2_in_left {A B} (R : A -> B -> Prop) (l : list A) (l' : list B)
  (a : A) :
  Forall2 R l l' -> In a l -> exists b, In b l' /\ R a b.
Proof.
  induction 1 as [|a0 b0 l l' H0 _ IH]; intros Hin; [contradiction|].
  destruct Hin as [<-|Hin].
  - exists b0. split; [now left | assumption].
  - destruct (IH Hin) as (b & Hb & HR). exists b. split; [now right|assumption].
Qed.

Lemma get_campaign_in (k : nat) (db : DB) (c : Campaign.t) :
  get_campaign k db = Ok c -> In c (campaigns db).
Proof.
  unfold get_campaign.
  destruct (find _ (campaigns db)) as [c'|] eqn:E; [|discriminate].
  intros [= ->]. now apply find_some in E.
Qed.

(** C2.  After a recompute the stored totals are exact sums over the event
    table, and the campaign rows are all still there.  The batch recompute
    always returns; it keeps every campaign row in its place, unchanged but
    for the spend columns and updated_at, and then every campaign row has
    [daily_spend] equal to the sum of the amounts of that campaign's events
    dated today and [monthly_spend] equal to the sum over its events dated on
    or after the first of the current month.  The per-spend recompute does
    the same for the campaign of the event, whose row is in the resulting
    table, and creating an event puts it in the event table before
    recomputing, so the new amount is part of the sums.  When all of a
    campaign's events are dated today, [daily_spend] is the sum of all their
    amounts. *)
Theorem spend_totals_are_exact_sums :
  (forall now db,
      exists db',
        recalculate_spend_totals now db
          = (db', Ok "Spend totals recalculation completed")
        /\ spends db' = spends db
        /\ campaign_rows_kept db db'
        /\ forall r, In r (campaigns db') ->
                     totals_recomputed (dt_date now) (spends db') r)
  /\ (forall now self db campaign brand,
         get_campaign (AdSpend.campaign_id self) db = Ok campaign ->
         get_brand (Campaign.brand_id campaign) db = Ok brand ->
         exists db',
           update_spend_totals now self db = (db', Ok tt)
           /\ spends db' = spends db
           /\ campaign_rows_kept db db'
           /\ (exists r, In r (campaigns db')
                         /\ Campaign.id r = AdSpend.campaign_id self
                         /\ same_but_spend campaign r)
           /\ forall r, In r (campaigns db') ->
                        Campaign.id r = AdSpend.campaign_id self ->
                        totals_recomputed (dt_date now) (spends db') r)
  /\ (forall now db campaign brand amount description,
         get_campaign (Campaign.id campaign) db = Ok campaign ->
         get_brand (Campaign.brand_id campaign) db = Ok brand ->
         exists db' spend,
           AdSpend_objects_create now campaign amount description db
             = (db', Ok spend)
           /\ spends db' = (spends db ++ [spend])%list
           /\ AdSpend.amount spend = amount
           /\ AdSpend.campaign_id spend = Campaign.id campaign
           /\ AdSpend.timestamp spend = now
           /\ campaign_rows_kept db db'
           /\ (exists r, In r (campaigns db')
                         /\ Campaign.id r = Campaign.id campaign
                         /\ same_but_spend campaign r)
           /\ forall r, In r (campaigns db') ->
                        Campaign.id r = Campaign.id campaign ->
                        totals_recomputed (dt_date now) (spends db') r)
  /\ (forall today events c,
         totals_recomputed today events c ->
         (forall e, In e (events_of (Campaign.id c) events) ->
                    dt_date (AdSpend.timestamp e) = today) ->
         Campaign.daily_spend c
           = sum_amounts (events_of (Campaign.id c) events)).
Proof.
  split; [|split; [|split]].
  - intros now db.
    pose proof (recalculate_spend_totals_keeps_rows now db) as Hkept.
    destruct (recalculate_spend_totals_run now db) as (db' & H1 & H2 & _ & H3).
    rewrite H1 in Hkept. cbn [fst] in Hkept.
    exists db'. auto.
  - intros now self db campaign brand Hc Hb.
    destruct (update_spend_totals_run now self db campaign brand Hc Hb)
      as (brows & ->).
    destruct (get_campaign_id _ _ _ Hc) as [Hid _].
    pose proof (recomputed_rows_kept now (spends db) campaign db brows
                  (spends db)) as Hkept.
    eexists. split; [reflexivity|]. split; [reflexivity|].
    split; [exact Hkept|]. split.
    + destruct (Forall2_in_left _ _ _ _ Hkept (get_campaign_in _ _ _ Hc))
        as (r & Hr & Hsame).
      exists r. split; [exact Hr|]. split; [|exact Hsame].
      destruct Hsame as [-> _]. exact Hid.
    + cbn [campaigns spends]. intros r Hin Hr.
      apply in_recomputed_rows in Hin; [exact Hin | congruence].
  - intros now db campaign brand amount description Hc Hb.
    destruct (AdSpend_objects_create_run now db campaign brand amount
                description Hc Hb) as (brows & ->).
    match goal with
    | |- context [recomputed_row now ?evs campaign] =>
        pose proof (recomputed_rows_kept now evs campaign db brows evs)
          as Hkept
    end.
    eexists _, _. split; [reflexivity|]. repeat (split; [reflexivity|]).
    split; [exact Hkept|]. split.
    + destruct (Forall2_in_left _ _ _ _ Hkept (get_campaign_in _ _ _ Hc))
        as (r & Hr & Hsame).
      exists r. split; [exact Hr|]. split; [|exact Hsame].
      now destruct Hsame as [-> _].
    + cbn [campaigns spends]. intros r Hin Hr.
      now apply in_recomputed_rows in Hin.
  - intros today events c [Hd _] Hall. rewrite Hd. f_equal.
    apply filter_all. intros e He. unfold dated_today.
    rewrite (Hall e He). apply date_eqb_refl.
Qed.

Lemma spend_totals_are_exact_sums_witness :
  exists db' spend,
    AdSpend_objects_create noon (plain_campaign 1 ACTIVE) 2500 "banner"
      fresh_db = (db', Ok spend)
    /\ spends db' = (spends fresh_db ++ [spend])%list
    /\ AdSpend.amount spend = 2500
    /\ AdSpend.campaign_id spend = Campaign.id (plain_campaign 1 ACTIVE)
    /\ AdSpend.timestamp spend = noon
    /\ campaign_rows_kept fresh_db db'
    /\ (exists r, In r (campaigns db')
                  /\ Campaign.id r = Campaign.id (plain_campaign 1 ACTIVE)
                  /\ same_but_spend (plain_campaign 1 ACTIVE) r)
    /\ forall r, In r (campaigns db') ->
                 Campaign.id r = Campaign.id (plain_campaign 1 ACTIVE) ->
                 totals_recomputed (dt_date noon) (spends db') r.
Proof.
  apply (proj1 (proj2 (proj2 spend_totals_are_exact_sums)) noon fresh_db
           (plain_campaign 1 ACTIVE) (acme true 0 0) 2500 "banner").
  - reflexivity.
  - reflexivity.
Defined.
